(** * agent-101: a shallow embedding of the agent demos

    The development follows the Python packages under [src/agent101]:

    - [Py]          the fragment of Python the code relies on: exceptions,
                    [try]/[except Exception], truthiness, JSON-like values;
    - [Memory]      [memory.py]: [ShortTermMemory] and [ChromaVectorMemory];
    - [Calculator]  [tools/calculator.py]: [_eval] and [evaluate_expression];
    - [Web]         [web/actions.py] and [web/agent.py]: [WebAgent.run];
    - [Tools]       [tools/__init__.py], [web_search.py], [web_fetch.py];
    - [BaseQA]      [agents/base_qa.py]: [BaseQAAgent.ask];
    - [Executor]    [executor/langgraph_app.py]: the nodes and the routing
                    function of the planner/executor graph, its construction
                    and [run];
    - [Client]      [llm.py]: [LLMClient.chat] and [function_call_chat];
    - [Browser]     [web/browser.py]: [BrowserManager] over Playwright;
    - [Research]    [research/pdf_parser.py]: [chunk_text];
                    [research/academic_search.py]: [search_arxiv];
    - [Excel]       [file/extractors.py]: [extract_excel_overview].

    The modules [MemoryExtra], [ExecutorExtra], [CalculatorExtra], [WebExtra]
    and [BaseQAExtra] hold further properties of the code modelled above.

    Calls that leave the repository (the LLM API, the tokenizer, the vector
    store, the browser, the JSON codec) are oracles: functions or response
    streams the theorems quantify over, each able to raise. The graph library
    is modelled as far as the construction of the graph goes: its builder and
    the checks of [add_node] and [compile]. *)

From Stdlib Require Import ZArith List String Ascii Bool Lia Sorted.
Import ListNotations.

Local Open Scope Z_scope.

(* ===================================================================== *)
(** * Python fragment                                                     *)
(* ===================================================================== *)

Module Py.

(** The classes of the [Exception] hierarchy that occur in the modelled code.
    [except Exception] handles every one of them. *)
Inductive exc_class : Type :=
| ValueError
| TypeError
| SyntaxError
| ZeroDivisionError
| OverflowError
| RecursionError
| MemoryError
| RuntimeError
| UnboundLocalError
| AttributeError
| JSONDecodeError
| IndexError
| KeyError
| OtherError.

(** An exception instance: its class and [str(exc)]. *)
Record exc : Type := Exc { exc_type : exc_class; exc_str : string }.

(** The outcome of a call: a returned value or a raised exception. *)
Inductive result (A : Type) : Type :=
| Ret (a : A)
| Raise (e : exc).

Arguments Ret {A} a.
Arguments Raise {A} e.

Definition bind {A B : Type} (c : result A) (k : A -> result B) : result B :=
  match c with
  | Ret a => k a
  | Raise e => Raise e
  end.

(** [try: body  except Exception as exc: handler exc]. *)
Definition try_except {A : Type} (body : result A) (handler : exc -> result A)
  : result A :=
  match body with
  | Ret a => Ret a
  | Raise e => handler e
  end.

Definition returns {A : Type} (c : result A) : bool :=
  match c with Ret _ => true | Raise _ => false end.

(** A [float] is an IEEE-754 binary64 datum, kept as its bit pattern; its
    arithmetic belongs to the platform and is supplied where it is used. *)
Record pyfloat : Type := Float { float_bits : Z }.

(** JSON-like Python values: what [json.loads] produces, plus floats. *)
#[warnings="-register-all"]
Inductive pyval : Type :=
| PyNone
| PyBool (b : bool)
| PyInt (z : Z)
| PyFloat (f : pyfloat)
| PyStr (s : string)
| PyList (l : list pyval)
| PyDict (d : list (string * pyval)).

Definition float_is_zero (f : pyfloat) : bool :=
  (float_bits f =? 0) || (float_bits f =? 2 ^ 63).

(** [bool(v)]. *)
Definition truthy (v : pyval) : bool :=
  match v with
  | PyNone => false
  | PyBool b => b
  | PyInt z => negb (z =? 0)
  | PyFloat f => negb (float_is_zero f)
  | PyStr s => negb (String.eqb s "")
  | PyList l => match l with [] => false | _ => true end
  | PyDict d => match d with [] => false | _ => true end
  end.

(** [a or b]. *)
Definition py_or (a b : pyval) : pyval := if truthy a then a else b.

(** [a or b] on an optional string and a string default. *)
Definition str_or (a : option string) (b : string) : string :=
  match a with
  | Some s => if String.eqb s "" then b else s
  | None => b
  end.

(** [a or b] on an optional int and an int default. *)
Definition int_or (a : option Z) (b : Z) : Z :=
  match a with
  | Some z => if z =? 0 then b else z
  | None => b
  end.

Fixpoint assoc (k : string) (d : list (string * pyval)) : option pyval :=
  match d with
  | [] => None
  | (k', v) :: d' => if String.eqb k k' then Some v else assoc k d'
  end.

(** [d.get(k, default)]; on a value that is not a dict the attribute lookup
    fails. *)
Definition dict_get (d : pyval) (k : string) (default : pyval) : result pyval :=
  match d with
  | PyDict kv =>
      match assoc k kv with
      | Some v => Ret v
      | None => Ret default
      end
  | _ => Raise (Exc AttributeError "object has no attribute 'get'")
  end.

(** [l[i]], negative indices counting from the end. *)
Definition list_index (l : list pyval) (i : Z) : result pyval :=
  let n := Z.of_nat (List.length l) in
  if (0 <=? i) && (i <? n) then Ret (nth (Z.to_nat i) l PyNone)
  else if (- n <=? i) && (i <? 0) then Ret (nth (Z.to_nat (n + i)) l PyNone)
  else Raise (Exc IndexError "list index out of range").

(** The line feed, Python's ["\n"]. *)
Definition nl : string := String (ascii_of_nat 10) EmptyString.

(** A chat message, [{"role": role, "content": content}]. *)
Record Msg : Type := mkMsg { role : string; content : string }.

End Py.

Notation "x <- c ;; k" := (Py.bind c (fun x => k))
  (at level 61, c at next level, right associativity).

(* ===================================================================== *)
(** * memory.py                                                           *)
(* ===================================================================== *)

Module Memory.
Import Py.

(** [config.Settings]: the fields and their defaults. *)
Record Settings : Type := mkSettings {
  openai_api_key : string;
  chat_model : string;
  embedding_model : string;
  request_timeout_seconds : Z;
  chroma_persist_dir : string;
  max_context_tokens : Z;
  semantic_scholar_api_key : string
}.

Definition default_settings : Settings :=
  {| openai_api_key := "";
     chat_model := "gpt-4o-mini";
     embedding_model := "text-embedding-3-small";
     request_timeout_seconds := 25;
     chroma_persist_dir := ".chroma";
     max_context_tokens := 4000;
     semantic_scholar_api_key := "" |}.

(** An encoding of the tokenizer, [enc.encode(text)]: the token ids of a
    text. The call raises on a text it refuses; with the default arguments
    that is every text containing a special token. *)
Definition Encoding : Type := string -> result (list nat).

Record ShortTermMemory : Type := mkSTM {
  stm_max_tokens : Z;
  stm_model : string;
  stm_messages : list Msg
}.

(** [ShortTermMemory.__init__]; [settings] is what [load_settings()] returned. *)
Definition stm_init (settings : Settings) (max_tokens : option Z)
  (model : option string) : ShortTermMemory :=
  {| stm_max_tokens := int_or max_tokens (max_context_tokens settings);
     stm_model := str_or model (chat_model settings);
     stm_messages := [] |}.

(** The object with its list [self.messages] replaced. *)
Definition with_messages (self : ShortTermMemory) (msgs : list Msg)
  : ShortTermMemory :=
  {| stm_max_tokens := stm_max_tokens self;
     stm_model := stm_model self;
     stm_messages := msgs |}.

Section ShortTerm.

(** [tiktoken.encoding_for_model] (raises on an unknown model) and
    [tiktoken.get_encoding]; neither call is guarded where it stands, in the
    handler. *)
Variable encoding_for_model : string -> result Encoding.
Variable get_encoding : string -> result Encoding.

Definition select_encoding (model : string) : result Encoding :=
  try_except (encoding_for_model model) (fun _ => get_encoding "cl100k_base").

(** [tokens_of_messages], the local function of [_truncate_if_needed]. *)
Definition tokens_of_messages (enc : Encoding) (msgs : list Msg) : result Z :=
  tokens <- enc (String.concat nl (map content msgs)) ;;
  Ret (Z.of_nat (List.length tokens)).

(** The [while] loop of [_truncate_if_needed]: drop the head while the list is
    non-empty and over budget. The list is the object's own, so what the loop
    has dropped stays dropped when a later test of the condition raises. *)
Fixpoint truncate_loop (enc : Encoding) (max_tokens : Z) (msgs : list Msg)
  : result unit * list Msg :=
  match msgs with
  | [] => (Ret tt, [])
  | _ :: rest =>
      match tokens_of_messages enc msgs with
      | Raise e => (Raise e, msgs)
      | Ret n =>
          if n >? max_tokens then truncate_loop enc max_tokens rest
          else (Ret tt, msgs)
      end
  end.

(** A method of the memory returns its outcome and the object as it leaves
    it. *)
Definition _truncate_if_needed (self : ShortTermMemory)
  : result unit * ShortTermMemory :=
  match select_encoding (stm_model self) with
  | Raise e => (Raise e, self)
  | Ret enc =>
      (fst (truncate_loop enc (stm_max_tokens self) (stm_messages self)),
       with_messages self
         (snd (truncate_loop enc (stm_max_tokens self) (stm_messages self))))
  end.

Definition stm_add (self : ShortTermMemory) (r c : string)
  : result unit * ShortTermMemory :=
  _truncate_if_needed (with_messages self (stm_messages self ++ [mkMsg r c])).

Definition stm_get (self : ShortTermMemory) : list Msg := stm_messages self.

(** A sequence of [add(role, content)] calls, oldest first, by a caller that
    goes on after a call that raised: the outcome of the last call and the
    object after it. *)
Definition stm_adds (self : ShortTermMemory) (calls : list (string * string))
  : result unit * ShortTermMemory :=
  fold_left (fun acc rc => stm_add (snd acc) (fst rc) (snd rc)) calls (Ret tt, self).

Definition added (calls : list (string * string)) : list Msg :=
  map (fun rc => mkMsg (fst rc) (snd rc)) calls.

(** [retained] is a contiguous suffix of [history]. *)
Definition suffix_of (retained history : list Msg) : Prop :=
  exists dropped, history = dropped ++ retained.

End ShortTerm.

(** A tokenizer for concrete runs: one token per byte of the text. *)
Definition byte_encoding : Encoding :=
  fun text => Ret (map nat_of_ascii (list_ascii_of_string text)).

Definition byte_encoding_for_model (model : string) : result Encoding :=
  Ret byte_encoding.

Definition byte_get_encoding (name : string) : result Encoding := Ret byte_encoding.

(** [needle in text]. *)
Fixpoint occurs (needle text : string) : bool :=
  String.prefix needle text ||
  match text with
  | EmptyString => false
  | String _ rest => occurs needle rest
  end.

(** The same tokenizer with the default treatment of special tokens: a text
    that contains one is refused. *)
Definition guarded_encoding : Encoding :=
  fun text =>
    if occurs "<|endoftext|>" text
    then Raise (Exc ValueError "Encountered text corresponding to disallowed special token '<|endoftext|>'.")
    else byte_encoding text.

Definition guarded_encoding_for_model (model : string) : result Encoding :=
  Ret guarded_encoding.

Definition guarded_get_encoding (name : string) : result Encoding :=
  Ret guarded_encoding.

(** ** ChromaVectorMemory *)

(** A document of the vector store. *)
Record Document : Type := mkDocument { page_content : string; metadata : pyval }.

(** A search hit as [search] returns it, [{"text": ..., "metadata": ...}]. *)
Record Hit : Type := mkHit { hit_text : string; hit_metadata : pyval }.

(** The calls a memory object makes on its client [self.vs]. *)
Inductive VsCall : Type :=
| AddTexts (texts : list string) (metadatas : option (list pyval))
| Persist
| SimilaritySearch (query : string) (k : Z).

(** The client: how it answers a call, given the calls it served before. *)
Record VectorStore : Type := mkVectorStore {
  vs_add_texts : list VsCall -> list string -> option (list pyval) -> result (list string);
  vs_persist : list VsCall -> result unit;
  vs_similarity_search : list VsCall -> string -> Z -> result (list Document)
}.

(** What a method can change: the calls received by the client and the records
    written through [logger.error]. *)
Record Env : Type := mkEnv { vs_calls : list VsCall; error_log : list string }.

(** State passing with exceptions; the state survives a raise. *)
Definition M (A : Type) : Type := Env -> result A * Env.

Definition retM {A : Type} (a : A) : M A := fun env => (Ret a, env).

Definition bindM {A B : Type} (c : M A) (k : A -> M B) : M B :=
  fun env =>
    match c env with
    | (Ret a, env') => k a env'
    | (Raise e, env') => (Raise e, env')
    end.

Definition try_exceptM {A : Type} (body : M A) (handler : exc -> M A) : M A :=
  fun env =>
    match body env with
    | (Ret a, env') => (Ret a, env')
    | (Raise e, env') => handler e env'
    end.

Definition logger_error (record : string) : M unit :=
  fun env =>
    (Ret tt, {| vs_calls := vs_calls env; error_log := error_log env ++ [record] |}).

Definition served (call : VsCall) (env : Env) : Env :=
  {| vs_calls := vs_calls env ++ [call]; error_log := error_log env |}.

Section Chroma.

Variable vs : VectorStore.

Definition call_add_texts (texts : list string) (metadatas : option (list pyval))
  : M (list string) :=
  fun env =>
    (vs_add_texts vs (vs_calls env) texts metadatas, served (AddTexts texts metadatas) env).

Definition call_persist : M unit :=
  fun env => (vs_persist vs (vs_calls env), served Persist env).

Definition call_similarity_search (query : string) (k : Z) : M (list Document) :=
  fun env =>
    (vs_similarity_search vs (vs_calls env) query k, served (SimilaritySearch query k) env).

(** [ChromaVectorMemory.add]. *)
Definition cvm_add (texts : list string) (metadatas : option (list pyval)) : M unit :=
  try_exceptM
    (bindM (call_add_texts texts metadatas) (fun _ => call_persist))
    (fun exc => logger_error ("Chroma 写入失败: " ++ exc_str exc)%string).

(** The [for d in docs] loop of [search]. *)
Definition collect_hits (docs : list Document) : list Hit :=
  fold_left
    (fun results d => results ++ [mkHit (page_content d) (metadata d)])
    docs [].

(** [ChromaVectorMemory.search]; [k] defaults to 4. *)
Definition cvm_search (query : string) (k : Z) : M (list Hit) :=
  fun env =>
    match call_similarity_search query k env with
    | (Raise exc, env') =>
        match logger_error ("Chroma 检索失败: " ++ exc_str exc)%string env' with
        | (_, env'') => (Ret [], env'')
        end
    | (Ret docs, env') => (Ret (collect_hits docs), env')
    end.

End Chroma.

(** A store for concrete runs: it keeps what it is given and returns the most
    recently added texts first. *)
Fixpoint stored_texts (calls : list VsCall) : list Document :=
  match calls with
  | [] => []
  | AddTexts texts _ :: rest =>
      stored_texts rest ++ map (fun t => mkDocument t PyNone) texts
  | _ :: rest => stored_texts rest
  end.

Definition list_store : VectorStore :=
  {| vs_add_texts := fun _ texts _ => Ret texts;
     vs_persist := fun _ => Ret tt;
     vs_similarity_search := fun calls _ k => Ret (firstn (Z.to_nat k) (rev (stored_texts calls))) |}.

(** A store that is down: every call raises. *)
Definition broken_store : VectorStore :=
  {| vs_add_texts := fun _ _ _ => Raise (Exc OtherError "connection refused");
     vs_persist := fun _ => Raise (Exc OtherError "connection refused");
     vs_similarity_search := fun _ _ _ => Raise (Exc OtherError "connection refused") |}.

Definition empty_env : Env := {| vs_calls := []; error_log := [] |}.

(** ** Short-term memory: the truncation invariant *)

Section ShortTermFacts.

Variable encoding_for_model : string -> result Encoding.
Variable get_encoding : string -> result Encoding.

Abbreviation add := (stm_add encoding_for_model get_encoding).
Abbreviation adds := (stm_adds encoding_for_model get_encoding).
Abbreviation enc_of := (select_encoding encoding_for_model get_encoding).

Lemma truncate_loop_suffix enc budget msgs :
  suffix_of (snd (truncate_loop enc budget msgs)) msgs.
Proof.
  induction msgs as [|m rest IH]; cbn [truncate_loop].
  - exists []. reflexivity.
  - destruct (tokens_of_messages enc (m :: rest)) as [n|e]; [|exists []; reflexivity].
    destruct (n >? budget).
    + destruct IH as [dropped Hd]. exists (m :: dropped). cbn. now rewrite <- Hd.
    + exists []. reflexivity.
Qed.

Lemma truncate_loop_budget enc budget msgs :
  enc EmptyString = Ret [] -> 0 <= budget ->
  fst (truncate_loop enc budget msgs) = Ret tt ->
  exists n,
    tokens_of_messages enc (snd (truncate_loop enc budget msgs)) = Ret n /\
    n <= budget.
Proof.
  intros Hempty Hb.
  induction msgs as [|m rest IH]; cbn [truncate_loop].
  - intros _. exists 0. unfold tokens_of_messages. cbn. rewrite Hempty. cbn.
    split; [reflexivity | exact Hb].
  - destruct (tokens_of_messages enc (m :: rest)) as [n|e] eqn:Hn; [|discriminate].
    destruct (n >? budget) eqn:Hover; [exact IH|].
    intros _. exists n. cbn [snd]. split; [exact Hn|].
    rewrite Z.gtb_ltb, Z.ltb_ge in Hover. exact Hover.
Qed.

Lemma stm_add_fields self r c :
  stm_max_tokens (snd (add self r c)) = stm_max_tokens self /\
  stm_model (snd (add self r c)) = stm_model self.
Proof.
  unfold stm_add, _truncate_if_needed. cbn [stm_model with_messages].
  destruct (enc_of (stm_model self)); split; reflexivity.
Qed.

Lemma stm_adds_snoc self calls r c :
  adds self (calls ++ [(r, c)]) = add (snd (adds self calls)) r c.
Proof. unfold stm_adds. now rewrite fold_left_app. Qed.

Lemma stm_adds_fields self calls :
  stm_max_tokens (snd (adds self calls)) = stm_max_tokens self /\
  stm_model (snd (adds self calls)) = stm_model self.
Proof.
  induction calls as [|[r c] calls IH] using rev_ind.
  - split; reflexivity.
  - rewrite stm_adds_snoc.
    destruct (stm_add_fields (snd (adds self calls)) r c) as [H1 H2].
    rewrite H1, H2. exact IH.
Qed.

(** Whether it returns or raises, [add] leaves a suffix of the messages it
    found followed by the new one. *)
Lemma stm_add_suffix self r c history :
  suffix_of (stm_messages self) history ->
  suffix_of (stm_messages (snd (add self r c))) (history ++ [mkMsg r c]).
Proof.
  intros [dropped Hd]. unfold stm_add, _truncate_if_needed.
  cbn [stm_model stm_max_tokens stm_messages with_messages].
  destruct (enc_of (stm_model self)) as [enc|e]; cbn [snd stm_messages with_messages].
  - destruct (truncate_loop_suffix enc (stm_max_tokens self)
                (stm_messages self ++ [mkMsg r c])) as [dropped' Hd'].
    exists (dropped ++ dropped'). rewrite Hd, <- !app_assoc. now rewrite <- Hd'.
  - exists dropped. now rewrite Hd, app_assoc.
Qed.

Lemma stm_adds_suffix self calls history :
  suffix_of (stm_messages self) history ->
  suffix_of (stm_messages (snd (adds self calls))) (history ++ added calls).
Proof.
  intros Hs. induction calls as [|[r c] calls IH] using rev_ind.
  - cbn. now rewrite app_nil_r.
  - rewrite stm_adds_snoc. unfold added. rewrite map_app, app_assoc. cbn [map fst snd].
    now apply stm_add_suffix.
Qed.

(** An [add] that returns leaves the retained messages within the budget in
    force, [self.max_tokens]. *)
Lemma stm_add_budget self r c enc :
  enc_of (stm_model self) = Ret enc ->
  enc EmptyString = Ret [] ->
  0 <= stm_max_tokens self ->
  fst (add self r c) = Ret tt ->
  exists n,
    tokens_of_messages enc (stm_messages (snd (add self r c))) = Ret n /\
    n <= stm_max_tokens self.
Proof.
  intros Henc Hempty Hb. unfold stm_add, _truncate_if_needed.
  cbn [stm_model stm_max_tokens stm_messages with_messages]. rewrite Henc.
  cbn [fst snd stm_messages with_messages].
  now apply truncate_loop_budget.
Qed.

(** A tokenizer that refuses no text. *)
Definition never_refuses (enc : Encoding) : Prop :=
  forall text, exists tokens, enc text = Ret tokens.

Lemma truncate_loop_returns enc budget msgs :
  never_refuses enc -> fst (truncate_loop enc budget msgs) = Ret tt.
Proof.
  intros Htotal. induction msgs as [|m rest IH]; cbn [truncate_loop]; [reflexivity|].
  unfold tokens_of_messages.
  destruct (Htotal (String.concat nl (map content (m :: rest)))) as [tokens Htokens].
  rewrite Htokens. cbn [bind].
  destruct (_ >? _); [exact IH | reflexivity].
Qed.

Lemma stm_add_returns self r c enc :
  enc_of (stm_model self) = Ret enc -> never_refuses enc ->
  fst (add self r c) = Ret tt.
Proof.
  intros Henc Htotal. unfold stm_add, _truncate_if_needed.
  cbn [stm_model stm_max_tokens stm_messages with_messages]. rewrite Henc.
  cbn [fst]. now apply truncate_loop_returns.
Qed.

(** C3 (amended). For every [max_tokens > 0] and every finite sequence of
    [add(role, content)] calls, the retained messages are a contiguous suffix
    of all the messages added so far, whether the calls returned or raised;
    and after a call that returned, their token count, measured by the
    tokenizer on the joined contents, is at most [max_tokens]. With
    [max_tokens = 0] the constructor falls back to
    [settings.max_context_tokens], which is then the budget in force. *)
Theorem stm_retains_suffix_within_budget :
  forall (settings : Settings) (max_tokens : Z) (model : option string)
         (calls : list (string * string)),
    0 < max_tokens ->
    suffix_of
      (stm_messages (snd (adds (stm_init settings (Some max_tokens) model) calls)))
      (added calls) /\
    (forall enc,
        enc_of (str_or model (chat_model settings)) = Ret enc ->
        enc EmptyString = Ret [] ->
        fst (adds (stm_init settings (Some max_tokens) model) calls) = Ret tt ->
        exists n,
          tokens_of_messages enc
            (stm_messages (snd (adds (stm_init settings (Some max_tokens) model) calls)))
          = Ret n /\
          n <= max_tokens) /\
    stm_init settings (Some 0) model = stm_init settings None model /\
    stm_max_tokens (stm_init settings (Some 0) model) = max_context_tokens settings.
Proof.
  intros settings max_tokens model calls Hpos.
  assert (Hmax : stm_max_tokens (stm_init settings (Some max_tokens) model) = max_tokens).
  { unfold stm_init, int_or. cbn.
    destruct (max_tokens =? 0) eqn:E; [apply Z.eqb_eq in E; lia | reflexivity]. }
  split; [|split; [|split; reflexivity]].
  - apply (stm_adds_suffix (stm_init settings (Some max_tokens) model) calls []).
    exists []. reflexivity.
  - intros enc Henc Hempty.
    destruct calls as [|[r c] calls _] using rev_ind.
    + intros _. exists 0. cbn. unfold tokens_of_messages. cbn. rewrite Hempty. cbn.
      split; [reflexivity | lia].
    + rewrite stm_adds_snoc. intros Hret.
      destruct (stm_adds_fields (stm_init settings (Some max_tokens) model) calls)
        as [Hbudget Hmodel].
      rewrite Hmax in Hbudget.
      destruct (stm_add_budget
                  (snd (adds (stm_init settings (Some max_tokens) model) calls)) r c enc)
        as (n & Hn & Hle); try assumption.
      * now rewrite Hmodel.
      * rewrite Hbudget. lia.
      * exists n. split; [exact Hn|]. now rewrite Hbudget in Hle.
Qed.

End ShortTermFacts.

Definition three_calls : list (string * string) :=
  [("user", "hello"); ("assistant", "world!"); ("user", "hey")]%string.

Lemma stm_retains_suffix_within_budget_witness :
  0 < 5 /\
  stm_adds byte_encoding_for_model byte_get_encoding
    (stm_init default_settings (Some 5) None) three_calls
  = (Ret tt, mkSTM 5 "gpt-4o-mini" [mkMsg "user" "hey"]) /\
  exists n,
    tokens_of_messages byte_encoding
      (stm_messages
         (snd (stm_adds byte_encoding_for_model byte_get_encoding
                 (stm_init default_settings (Some 5) None) three_calls)))
    = Ret n /\
    n <= 5.
Proof.
  split; [lia|]. split; [reflexivity|].
  apply (stm_retains_suffix_within_budget byte_encoding_for_model
           byte_get_encoding default_settings 5 None three_calls);
    [lia | reflexivity | reflexivity | reflexivity].
Defined.

(** C3 as stated fails in two ways. At [max_tokens = 0] the constructor's
    [max_tokens or settings.max_context_tokens] replaces the zero budget by
    the configured one, and a two-token message is retained. And on a
    message the tokenizer refuses, [add] raises after it has appended the
    message: the message stays, no count is taken, every later [add] raises
    as well, and the list grows past any budget. *)
Lemma stm_budget_not_always_enforced :
  (0 <= 0 /\
   stm_max_tokens (stm_init default_settings (Some 0) None) = 4000 /\
   stm_adds byte_encoding_for_model byte_get_encoding
     (stm_init default_settings (Some 0) None) [("user", "hi")]%string
   = (Ret tt, mkSTM 4000 "gpt-4o-mini" [mkMsg "user" "hi"]) /\
   tokens_of_messages byte_encoding [mkMsg "user" "hi"] = Ret 2 /\
   ~ 2 <= 0) /\
  (0 <= 5 /\
   (exists e,
       stm_adds guarded_encoding_for_model guarded_get_encoding
         (stm_init default_settings (Some 5) None)
         [("user", "<|endoftext|>"); ("user", "a longer message")]%string
       = (Raise e,
          mkSTM 5 "gpt-4o-mini"
            [mkMsg "user" "<|endoftext|>"; mkMsg "user" "a longer message"]) /\
       exc_type e = ValueError) /\
   returns
     (tokens_of_messages guarded_encoding
        [mkMsg "user" "<|endoftext|>"; mkMsg "user" "a longer message"])
   = false /\
   tokens_of_messages byte_encoding
     [mkMsg "user" "<|endoftext|>"; mkMsg "user" "a longer message"]
   = Ret 30 /\
   ~ 30 <= 5).
Proof.
  split.
  - split; [lia|]. split; [reflexivity|]. split; [reflexivity|].
    split; [reflexivity | lia].
  - split; [lia|]. split; [eexists; split; reflexivity|].
    split; [reflexivity|]. split; [reflexivity | lia].
Qed.

(** ** Long-term memory: the wrapper and its client *)

Section ChromaFacts.

Variable vs : VectorStore.

Lemma collect_hits_from acc docs :
  fold_left (fun results d => results ++ [mkHit (page_content d) (metadata d)]) docs acc
  = acc ++ map (fun d => mkHit (page_content d) (metadata d)) docs.
Proof.
  revert acc. induction docs as [|d docs IH]; intros acc; simpl.
  - now rewrite app_nil_r.
  - rewrite IH, <- app_assoc. reflexivity.
Qed.

Lemma collect_hits_map docs :
  collect_hits docs = map (fun d => mkHit (page_content d) (metadata d)) docs.
Proof. unfold collect_hits. now rewrite collect_hits_from. Qed.

(** C6. For every input, [add(texts, metadatas)] calls the client's
    [add_texts] with exactly these texts and metadatas (and then only
    [persist]), and [search(query, k)] makes exactly the one call
    [similarity_search(query, k)]; when that call returns [docs], [search]
    returns one record [{text: page_content, metadata: metadata}] per
    document, in the same order and with the contents as they are. *)
Theorem cvm_is_pass_through :
  forall (env : Env) (texts : list string) (metadatas : option (list pyval))
         (query : string) (k : Z),
    (exists rest,
        vs_calls (snd (cvm_add vs texts metadatas env))
        = vs_calls env ++ AddTexts texts metadatas :: rest /\
        (rest = [] \/ rest = [Persist])) /\
    vs_calls (snd (cvm_search vs query k env))
    = vs_calls env ++ [SimilaritySearch query k] /\
    forall docs : list Document,
      vs_similarity_search vs (vs_calls env) query k = Ret docs ->
      fst (cvm_search vs query k env)
      = Ret (map (fun d => mkHit (page_content d) (metadata d)) docs) /\
      List.length (collect_hits docs) = List.length docs.
Proof.
  intros env texts metadatas query k. split; [|split].
  - unfold cvm_add, try_exceptM, bindM, call_add_texts, call_persist, logger_error.
    destruct (vs_add_texts vs (vs_calls env) texts metadatas) as [ids|e]; simpl.
    + exists [Persist]. split; [|now right].
      destruct (vs_persist vs (vs_calls env ++ [AddTexts texts metadatas]));
        simpl; now rewrite <- app_assoc.
    + exists []. split; [reflexivity | now left].
  - unfold cvm_search, call_similarity_search.
    destruct (vs_similarity_search vs (vs_calls env) query k); reflexivity.
  - intros docs Hdocs. split.
    + unfold cvm_search, call_similarity_search. rewrite Hdocs. simpl.
      now rewrite collect_hits_map.
    + rewrite collect_hits_map. apply length_map.
Qed.

(** C8. [add] returns normally ([None]) whatever the store does, and logs the
    error when the store raised; [search] always returns a list, and returns
    the empty list when the store raised. *)
Theorem cvm_contains_store_failures :
  forall (env : Env) (texts : list string) (metadatas : option (list pyval))
         (query : string) (k : Z),
    fst (cvm_add vs texts metadatas env) = Ret tt /\
    (forall e,
        fst (bindM (call_add_texts vs texts metadatas) (fun _ => call_persist vs) env)
        = Raise e ->
        error_log (snd (cvm_add vs texts metadatas env))
        = error_log env ++ ["Chroma 写入失败: " ++ exc_str e]%string) /\
    (exists hits, fst (cvm_search vs query k env) = Ret hits) /\
    (forall e,
        vs_similarity_search vs (vs_calls env) query k = Raise e ->
        fst (cvm_search vs query k env) = Ret []).
Proof.
  intros env texts metadatas query k. repeat split.
  - unfold cvm_add, try_exceptM, bindM, call_add_texts, call_persist, logger_error.
    destruct (vs_add_texts vs (vs_calls env) texts metadatas) as [ids|e]; simpl.
    + destruct (vs_persist vs (vs_calls env ++ [AddTexts texts metadatas]))
        as [[]|e]; reflexivity.
    + reflexivity.
  - intros e.
    unfold cvm_add, try_exceptM, bindM, call_add_texts, call_persist, logger_error.
    destruct (vs_add_texts vs (vs_calls env) texts metadatas) as [ids|e1]; simpl.
    + destruct (vs_persist vs (vs_calls env ++ [AddTexts texts metadatas]))
        as [[]|e2]; simpl; intros H; inversion H; subst. reflexivity.
    + intros H; inversion H; subst. reflexivity.
  - unfold cvm_search, call_similarity_search.
    destruct (vs_similarity_search vs (vs_calls env) query k); simpl; eauto.
  - intros e He. unfold cvm_search, call_similarity_search. now rewrite He.
Qed.

End ChromaFacts.

Lemma cvm_is_pass_through_witness :
  vs_calls (snd (cvm_add list_store ["a"; "b"]%string None empty_env))
  = [AddTexts ["a"; "b"]%string None; Persist] /\
  fst (cvm_search list_store "q"%string 4
         (snd (cvm_add list_store ["a"; "b"]%string None empty_env)))
  = Ret [mkHit "b" PyNone; mkHit "a" PyNone].
Proof.
  split; [reflexivity|].
  destruct (cvm_is_pass_through list_store
              (snd (cvm_add list_store ["a"; "b"]%string None empty_env))
              [] None "q"%string 4) as (_ & _ & Hsearch).
  apply (Hsearch [mkDocument "b" PyNone; mkDocument "a" PyNone]).
  reflexivity.
Defined.

Lemma cvm_contains_store_failures_witness :
  fst (cvm_add broken_store ["a"]%string None empty_env) = Ret tt /\
  fst (cvm_search broken_store "q"%string 4 empty_env) = Ret [].
Proof.
  split.
  - apply (cvm_contains_store_failures broken_store empty_env ["a"]%string None
             "q"%string 4).
  - apply (cvm_contains_store_failures broken_store empty_env ["a"]%string None
             "q"%string 4) with (e := Exc OtherError "connection refused").
    reflexivity.
Defined.

End Memory.

(* ===================================================================== *)
(** * tools/calculator.py                                                 *)
(* ===================================================================== *)

Module Calculator.
Import Py.

(** The [ast] classes of binary and unary operators. *)
Inductive operator : Type :=
| Add | Sub | Mult | MatMult | Div | Mod | Pow
| LShift | RShift | BitOr | BitXor | BitAnd | FloorDiv.

Inductive unaryop : Type :=
| Invert | Not | UAdd | USub.

(** The value carried by an [ast.Constant]. *)
Inductive constant : Type :=
| CInt (z : Z)
| CFloat (f : pyfloat)
| CComplex (re im : pyfloat)
| CBool (b : bool)
| CStr (s : string)
| CBytes (s : string)
| CNone
| CEllipsis.

(** Expression nodes; [Unsupported] stands for every class [_eval] has no
    branch for ([Name], [Call], [Compare], ...). *)
Inductive node : Type :=
| Constant (value : constant)
| BinOp (left : node) (op : operator) (right : node)
| UnaryOp (uop : unaryop) (operand : node)
| Expr (value : node)
| Unsupported (class_name : string).

(** [ast.Expression], the result of [ast.parse(..., mode="eval")]. *)
Record Expression : Type := mkExpression { body : node }.

(** The numbers that flow through [_eval]: floats, and the complex values
    [operator.pow] can produce from them. *)
Inductive num : Type :=
| NumFloat (f : pyfloat)
| NumComplex (re im : pyfloat).

(** Keys and values of the table [_OPS]. *)
Inductive op_class : Type :=
| BinOpClass (o : operator)
| UnaryOpClass (u : unaryop).

Inductive callable : Type :=
| operator_add | operator_sub | operator_mul | operator_truediv
| operator_pow | operator_neg.

Definition _OPS (k : op_class) : option callable :=
  match k with
  | BinOpClass Add => Some operator_add
  | BinOpClass Sub => Some operator_sub
  | BinOpClass Mult => Some operator_mul
  | BinOpClass Div => Some operator_truediv
  | BinOpClass Pow => Some operator_pow
  | UnaryOpClass USub => Some operator_neg
  | _ => None
  end.

(** [isinstance(node, ast.Num)]: a constant holding an int, float or complex
    that is not a bool. *)
Definition is_Num (c : constant) : bool :=
  match c with
  | CInt _ | CFloat _ | CComplex _ _ => true
  | _ => false
  end.

(** [isinstance(value, (int, float))]; [bool] is a subclass of [int]. *)
Definition is_int_or_float (c : constant) : bool :=
  match c with
  | CInt _ | CFloat _ | CBool _ => true
  | _ => false
  end.

Section Eval.

(** The platform: parsing, int-to-float conversion and float arithmetic. *)
Variable ast_parse : string -> result Expression.
Variable float_of_int : Z -> result pyfloat.
Variable binary : callable -> num -> num -> result num.
Variable unary : callable -> num -> result num.

(** [float(x)] on a constant's value. *)
Definition float_of_constant (c : constant) : result num :=
  match c with
  | CInt z => f <- float_of_int z ;; Ret (NumFloat f)
  | CBool b => f <- float_of_int (if b then 1 else 0) ;; Ret (NumFloat f)
  | CFloat f => Ret (NumFloat f)
  | CComplex _ _ =>
      Raise (Exc TypeError "float() argument must be a string or a real number, not 'complex'")
  | CStr _ => Raise (Exc ValueError "could not convert string to float")
  | _ => Raise (Exc TypeError "float() argument must be a string or a real number")
  end.

(** [float(x)] on a computed number. *)
Definition float_of_num (x : num) : result pyfloat :=
  match x with
  | NumFloat f => Ret f
  | NumComplex _ _ =>
      Raise (Exc TypeError "float() argument must be a string or a real number, not 'complex'")
  end.

(** Calling an entry of [_OPS] with two arguments, or with one. *)
Definition call2 (f : callable) (x y : num) : result num :=
  match f with
  | operator_neg => Raise (Exc TypeError "neg expected 1 argument, got 2")
  | _ => binary f x y
  end.

Definition call1 (f : callable) (x : num) : result num :=
  match f with
  | operator_neg => unary f x
  | _ => Raise (Exc TypeError "expected 2 arguments, got 1")
  end.

Fixpoint _eval (n : node) : result num :=
  match n with
  | Constant c =>
      if is_Num c then float_of_constant c
      else if is_int_or_float c then float_of_constant c
      else Raise (Exc ValueError "仅支持数字常量")
  | BinOp l o r =>
      match _OPS (BinOpClass o) with
      | None => Raise (Exc ValueError "不支持的二元运算符")
      | Some f => x <- _eval l ;; y <- _eval r ;; call2 f x y
      end
  | UnaryOp u e =>
      match _OPS (UnaryOpClass u) with
      | None => Raise (Exc ValueError "不支持的一元运算符")
      | Some f => x <- _eval e ;; call1 f x
      end
  | Expr v => _eval v
  | Unsupported _ => Raise (Exc ValueError "表达式包含不受支持的语法")
  end.

(** The body of the [try] in [evaluate_expression]. *)
Definition evaluate_body (expression : string) : result pyfloat :=
  tree <- ast_parse expression ;;
  x <- _eval (body tree) ;;
  float_of_num x.

Definition evaluate_expression (expression : string) : result pyfloat :=
  try_except (evaluate_body expression)
    (fun exc => Raise (Exc ValueError ("表达式非法: " ++ exc_str exc)%string)).

End Eval.

(** A stand-in platform for concrete runs: numbers are small integers kept in
    the datum, division by zero raises as in Python, and the parser knows a
    handful of inputs. *)
Definition small_float_of_int (z : Z) : result pyfloat := Ret (Float z).

Definition small_binary (f : callable) (x y : num) : result num :=
  match x, y with
  | NumFloat a, NumFloat b =>
      match f with
      | operator_add => Ret (NumFloat (Float (float_bits a + float_bits b)))
      | operator_sub => Ret (NumFloat (Float (float_bits a - float_bits b)))
      | operator_mul => Ret (NumFloat (Float (float_bits a * float_bits b)))
      | operator_truediv =>
          if float_bits b =? 0
          then Raise (Exc ZeroDivisionError "float division by zero")
          else Ret (NumFloat (Float (float_bits a / float_bits b)))
      | operator_pow =>
          if float_bits b <? 0
          then Raise (Exc ZeroDivisionError "0.0 cannot be raised to a negative power")
          else Ret (NumFloat (Float (float_bits a ^ float_bits b)))
      | operator_neg => Raise (Exc TypeError "neg expected 1 argument, got 2")
      end
  | _, _ => Raise (Exc TypeError "unsupported operand type(s)")
  end.

Definition small_unary (f : callable) (x : num) : result num :=
  match x with
  | NumFloat a => Ret (NumFloat (Float (- float_bits a)))
  | NumComplex re im => Ret (NumComplex (Float (- float_bits re)) (Float (- float_bits im)))
  end.

Definition small_parse (expression : string) : result Expression :=
  if String.eqb expression "(12 + 5) * 3" then
    Ret (mkExpression
           (BinOp (BinOp (Constant (CInt 12)) Add (Constant (CInt 5))) Mult
                  (Constant (CInt 3))))
  else if String.eqb expression "1 / 0" then
    Ret (mkExpression (BinOp (Constant (CInt 1)) Div (Constant (CInt 0))))
  else if String.eqb expression "7 % 2" then
    Ret (mkExpression (BinOp (Constant (CInt 7)) Mod (Constant (CInt 2))))
  else if String.eqb expression "+'a'" then
    Ret (mkExpression (UnaryOp UAdd (Constant (CStr "a"))))
  else if String.eqb expression "'a'" then
    Ret (mkExpression (Constant (CStr "a")))
  else if String.eqb expression "abs(1)" then
    Ret (mkExpression (Unsupported "Call"))
  else Raise (Exc SyntaxError "invalid syntax").

Definition small_evaluate : string -> result pyfloat :=
  evaluate_expression small_parse small_float_of_int small_binary small_unary.

Example small_evaluate_product : small_evaluate "(12 + 5) * 3" = Ret (Float 51).
Proof. reflexivity. Qed.

Example small_evaluate_division_by_zero :
  small_evaluate "1 / 0"
  = Raise (Exc ValueError "表达式非法: float division by zero").
Proof. reflexivity. Qed.

Example small_evaluate_modulo :
  small_evaluate "7 % 2" = Raise (Exc ValueError "表达式非法: 不支持的二元运算符").
Proof. reflexivity. Qed.

Section EvalFacts.

Variable ast_parse : string -> result Expression.
Variable float_of_int : Z -> result pyfloat.
Variable binary : callable -> num -> num -> result num.
Variable unary : callable -> num -> result num.

Abbreviation eval := (_eval float_of_int binary unary).
Abbreviation evaluate := (evaluate_expression ast_parse float_of_int binary unary).

Definition wrapped (e : exc) : exc :=
  Exc ValueError ("表达式非法: " ++ exc_str e)%string.

Lemma evaluate_wraps_parse_failure expression e :
  ast_parse expression = Raise e -> evaluate expression = Raise (wrapped e).
Proof.
  intros H. unfold evaluate_expression, evaluate_body. now rewrite H.
Qed.

Lemma evaluate_wraps_eval_failure expression tree e :
  ast_parse expression = Ret tree ->
  eval (body tree) = Raise e ->
  evaluate expression = Raise (wrapped e).
Proof.
  intros Hp He. unfold evaluate_expression, evaluate_body.
  rewrite Hp. simpl. now rewrite He.
Qed.

Lemma eval_unsupported_binary l o r :
  _OPS (BinOpClass o) = None ->
  eval (BinOp l o r) = Raise (Exc ValueError "不支持的二元运算符").
Proof. intros H. cbn [_eval]. now rewrite H. Qed.

Lemma eval_unsupported_unary u e :
  _OPS (UnaryOpClass u) = None ->
  eval (UnaryOp u e) = Raise (Exc ValueError "不支持的一元运算符").
Proof. intros H. cbn [_eval]. now rewrite H. Qed.

Lemma eval_non_numeric_constant c :
  is_Num c = false -> is_int_or_float c = false ->
  eval (Constant c) = Raise (Exc ValueError "仅支持数字常量").
Proof. intros H1 H2. cbn [_eval]. now rewrite H1, H2. Qed.

Lemma eval_arithmetic_error l o r f x y e :
  _OPS (BinOpClass o) = Some f ->
  eval l = Ret x -> eval r = Ret y ->
  call2 binary f x y = Raise e ->
  eval (BinOp l o r) = Raise e.
Proof.
  intros Hf Hl Hr He. cbn [_eval]. rewrite Hf, Hl. cbn [bind].
  rewrite Hr. cbn [bind]. exact He.
Qed.

(** C9. For every input string [evaluate_expression] returns a float or
    raises [ValueError]; whatever the parser, [_eval] (unsupported syntax,
    unsupported operators, non-numeric constants, arithmetic errors such as
    division by zero) or the final [float(...)] raises comes out as a
    [ValueError] carrying its message. *)
Theorem evaluate_expression_float_or_ValueError :
  forall expression : string,
    ((exists f, evaluate expression = Ret f) \/
     (exists msg, evaluate expression = Raise (Exc ValueError msg))) /\
    (forall e,
        evaluate_body ast_parse float_of_int binary unary expression = Raise e ->
        evaluate expression = Raise (wrapped e)) /\
    (forall tree l o r,
        ast_parse expression = Ret tree -> body tree = BinOp l o r ->
        _OPS (BinOpClass o) = None ->
        evaluate expression = Raise (wrapped (Exc ValueError "不支持的二元运算符"))) /\
    (forall tree u operand,
        ast_parse expression = Ret tree -> body tree = UnaryOp u operand ->
        _OPS (UnaryOpClass u) = None ->
        evaluate expression = Raise (wrapped (Exc ValueError "不支持的一元运算符"))) /\
    (forall tree c,
        ast_parse expression = Ret tree -> body tree = Constant c ->
        is_Num c = false -> is_int_or_float c = false ->
        evaluate expression = Raise (wrapped (Exc ValueError "仅支持数字常量"))) /\
    (forall tree name,
        ast_parse expression = Ret tree -> body tree = Unsupported name ->
        evaluate expression = Raise (wrapped (Exc ValueError "表达式包含不受支持的语法"))) /\
    (forall tree l o r f x y e,
        ast_parse expression = Ret tree -> body tree = BinOp l o r ->
        _OPS (BinOpClass o) = Some f ->
        eval l = Ret x -> eval r = Ret y -> call2 binary f x y = Raise e ->
        evaluate expression = Raise (wrapped e)).
Proof.
  intros expression. split; [|split; [|split; [|split; [|split; [|split]]]]].
  - unfold evaluate_expression, try_except.
    destruct (evaluate_body ast_parse float_of_int binary unary expression) as [f|e].
    + left. now exists f.
    + right. eexists. reflexivity.
  - intros e He. unfold evaluate_expression. now rewrite He.
  - intros tree l o r Hp Hb Ho.
    apply (evaluate_wraps_eval_failure expression tree); [exact Hp|].
    rewrite Hb. now apply eval_unsupported_binary.
  - intros tree u operand Hp Hb Hu.
    apply (evaluate_wraps_eval_failure expression tree); [exact Hp|].
    rewrite Hb. now apply eval_unsupported_unary.
  - intros tree c Hp Hb H1 H2.
    apply (evaluate_wraps_eval_failure expression tree); [exact Hp|].
    rewrite Hb. now apply eval_non_numeric_constant.
  - intros tree name Hp Hb.
    apply (evaluate_wraps_eval_failure expression tree); [exact Hp|].
    rewrite Hb. reflexivity.
  - intros tree l o r f x y e Hp Hb Hf Hl Hr He.
    apply (evaluate_wraps_eval_failure expression tree); [exact Hp|].
    rewrite Hb. now apply (eval_arithmetic_error l o r f x y e).
Qed.

End EvalFacts.

Lemma evaluate_expression_float_or_ValueError_witness :
  small_evaluate "1 / 0"
  = Raise (Exc ValueError "表达式非法: float division by zero").
Proof.
  destruct (evaluate_expression_float_or_ValueError small_parse small_float_of_int
              small_binary small_unary "1 / 0")
    as (_ & _ & _ & _ & _ & _ & Harith).
  apply (Harith (mkExpression (BinOp (Constant (CInt 1)) Div (Constant (CInt 0))))
           (Constant (CInt 1)) Div (Constant (CInt 0)) operator_truediv
           (NumFloat (Float 1)) (NumFloat (Float 0))
           (Exc ZeroDivisionError "float division by zero"));
    reflexivity.
Defined.

End Calculator.

(* ===================================================================== *)
(** * web/actions.py and web/agent.py                                     *)
(* ===================================================================== *)

Module Web.
Import Py.

(** An action, a [Dict[str, Any]]. *)
Definition Action : Type := list (string * pyval).

(** [action.get(key)] and [action.get(key, default)]. *)
Definition get (action : Action) (key : string) (default : pyval) : pyval :=
  match assoc key action with
  | Some v => v
  | None => default
  end.

(** [v == "literal"]. *)
Definition eq_str (v : pyval) (literal : string) : bool :=
  match v with
  | PyStr s => String.eqb s literal
  | _ => false
  end.

(** The methods of [BrowserManager] that the agent uses, over a browser state
    [B]; each one can raise (Playwright errors, failed assertions). *)
Record BrowserManager (B : Type) : Type := mkBrowser {
  start : B -> result unit * B;
  stop : B -> result unit * B;
  goto : pyval -> B -> result unit * B;
  wait_for_selector : pyval -> B -> result unit * B;
  fill : pyval -> pyval -> B -> result unit * B;
  click : pyval -> B -> result unit * B;
  extract_text : pyval -> B -> result string * B;
  screenshot : pyval -> B -> result string * B
}.

Arguments start {B}.
Arguments stop {B}.
Arguments goto {B}.
Arguments wait_for_selector {B}.
Arguments fill {B}.
Arguments click {B}.
Arguments extract_text {B}.
Arguments screenshot {B}.

(** One entry of [results], [{"step": i, "type": ..., "output": out}]. *)
Record StepResult : Type := mkStepResult {
  step : Z;
  type : pyval;
  output : string
}.

(** What [run] returns, [{"results": results, "errors": errors}]. *)
Record RunOutput : Type := mkRunOutput {
  results : list StepResult;
  errors : list string
}.

Section Agent.

Variable B : Type.
Variable browser : BrowserManager B.

(** [str(v)], as used by the f-strings. *)
Variable py_str : pyval -> string.

(** A browser call that returns nothing, followed by [return ""]. *)
Definition then_empty (r : result unit * B) : result string * B :=
  match r with
  | (Ret _, b') => (Ret EmptyString, b')
  | (Raise e, b') => (Raise e, b')
  end.

Definition execute_action (action : Action) (b : B) : result string * B :=
  let t := get action "type" PyNone in
  if eq_str t "goto" then
    let url := get action "url" PyNone in
    if negb (truthy url) then (Raise (Exc ValueError "goto 需要 url"), b)
    else then_empty (goto browser url b)
  else if eq_str t "wait_for_selector" then
    let sel := get action "selector" PyNone in
    if negb (truthy sel) then (Raise (Exc ValueError "wait_for_selector 需要 selector"), b)
    else then_empty (wait_for_selector browser sel b)
  else if eq_str t "fill" then
    let sel := get action "selector" PyNone in
    let text := get action "text" (PyStr "") in
    if negb (truthy sel) then (Raise (Exc ValueError "fill 需要 selector"), b)
    else then_empty (fill browser sel text b)
  else if eq_str t "click" then
    let sel := get action "selector" PyNone in
    if negb (truthy sel) then (Raise (Exc ValueError "click 需要 selector"), b)
    else then_empty (click browser sel b)
  else if eq_str t "extract_text" then
    let sel := get action "selector" PyNone in
    if negb (truthy sel) then (Raise (Exc ValueError "extract_text 需要 selector"), b)
    else extract_text browser sel b
  else if eq_str t "screenshot" then
    let name := get action "name" (PyStr "page") in
    screenshot browser name b
  else (Raise (Exc ValueError ("未知动作类型: " ++ py_str t)%string), b).

(** The entry appended to [errors] for step [i]. *)
Definition error_entry (i : Z) (action : Action) (e : exc) : string :=
  ("step " ++ py_str (PyInt i) ++ " (" ++ py_str (get action "type" PyNone)
     ++ "): " ++ exc_str e)%string.

(** The [for i, action in enumerate(steps)] loop of [run], from index [i] on,
    with the two lists built so far. *)
Fixpoint run_loop (steps : list Action) (i : Z)
  (results_ : list StepResult) (errors_ : list string) (b : B)
  : list StepResult * list string * B :=
  match steps with
  | [] => (results_, errors_, b)
  | action :: rest =>
      match execute_action action b with
      | (Ret out, b') =>
          run_loop rest (i + 1)
            (results_ ++ [mkStepResult i (get action "type" PyNone) out]) errors_ b'
      | (Raise e, b') =>
          run_loop rest (i + 1) results_ (errors_ ++ [error_entry i action e]) b'
      end
  end.

(** [WebAgent.run]. *)
Definition run (steps : list Action) (b : B) : result RunOutput * B :=
  match start browser b with
  | (Raise e, b1) => (Raise e, b1)
  | (Ret _, b1) =>
      match run_loop steps 0 [] [] b1 with
      | (results_, errors_, b2) =>
          match stop browser b2 with
          | (Raise e, b3) => (Raise e, b3)
          | (Ret _, b3) => (Ret (mkRunOutput results_ errors_), b3)
          end
      end
  end.

(** The attempts of a run, one per step: its index, and what
    [execute_action] did on the browser the previous steps left behind. *)
Fixpoint attempts (steps : list Action) (i : Z) (b : B)
  : list (Z * Action * result string) :=
  match steps with
  | [] => []
  | action :: rest =>
      (i, action, fst (execute_action action b))
        :: attempts rest (i + 1) (snd (execute_action action b))
  end.

Definition result_entries (l : list (Z * Action * result string)) : list StepResult :=
  flat_map
    (fun a =>
       match a with
       | (i, action, Ret out) => [mkStepResult i (get action "type" PyNone) out]
       | (_, _, Raise _) => []
       end) l.

Definition error_entries (l : list (Z * Action * result string)) : list string :=
  flat_map
    (fun a =>
       match a with
       | (_, _, Ret _) => []
       | (i, action, Raise e) => [error_entry i action e]
       end) l.

End Agent.

Arguments execute_action {B}.
Arguments run_loop {B}.
Arguments run {B}.
Arguments attempts {B}.

(** A browser for concrete runs: its state is the list of pages visited, every
    selector but ["#missing"] is present, and text comes back as ["text"]. *)
Definition present (sel : pyval) : bool := negb (eq_str sel "#missing").

Definition on_selector {A : Type} (a : A) (sel : pyval) (b : list pyval)
  : result A * list pyval :=
  if present sel then (Ret a, b) else (Raise (Exc OtherError "Timeout 15000ms exceeded"), b).

Definition log_browser : BrowserManager (list pyval) :=
  {| start := fun b => (Ret tt, b);
     stop := fun b => (Ret tt, b);
     goto := fun url b => (Ret tt, b ++ [url]);
     wait_for_selector := on_selector tt;
     fill := fun sel _ => on_selector tt sel;
     click := on_selector tt;
     extract_text := on_selector "text"%string;
     screenshot := fun _ b => (Ret "artifacts/web/page.png"%string, b) |}.

Definition digit_str (v : pyval) : string :=
  match v with
  | PyStr s => s
  | PyInt 0 => "0"
  | PyInt 1 => "1"
  | PyInt 2 => "2"
  | PyInt 3 => "3"
  | PyNone => "None"
  | _ => "?"
  end.

Definition sample_steps : list Action :=
  [ [("type", PyStr "goto"); ("url", PyStr "https://example.org")];
    [("type", PyStr "click"); ("selector", PyStr "#missing")];
    [("type", PyStr "scroll")];
    [("type", PyStr "extract_text"); ("selector", PyStr "h1")] ]%string.

Example sample_run :
  fst (run log_browser digit_str sample_steps [])
  = Ret {| results :=
             [ mkStepResult 0 (PyStr "goto") "";
               mkStepResult 3 (PyStr "extract_text") "text" ];
           errors :=
             [ "step 1 (click): Timeout 15000ms exceeded";
               "step 2 (scroll): 未知动作类型: scroll" ] |}%string.
Proof. reflexivity. Qed.

(** The same browser when it cannot be launched, and when it cannot be
    closed. *)
Definition launch_failure : exc :=
  Exc OtherError "BrowserType.launch: Executable doesn't exist".

Definition close_failure : exc :=
  Exc OtherError "Browser.close: Target page, context or browser has been closed".

Definition dead_browser : BrowserManager (list pyval) :=
  {| start := fun b => (Raise launch_failure, b);
     stop := stop log_browser;
     goto := goto log_browser;
     wait_for_selector := wait_for_selector log_browser;
     fill := fill log_browser;
     click := click log_browser;
     extract_text := extract_text log_browser;
     screenshot := screenshot log_browser |}.

Definition jammed_browser : BrowserManager (list pyval) :=
  {| start := start log_browser;
     stop := fun b => (Raise close_failure, b);
     goto := goto log_browser;
     wait_for_selector := wait_for_selector log_browser;
     fill := fill log_browser;
     click := click log_browser;
     extract_text := extract_text log_browser;
     screenshot := screenshot log_browser |}.

Section AgentFacts.

Variable B : Type.
Variable browser : BrowserManager B.
Variable py_str : pyval -> string.

Abbreviation loop := (run_loop browser py_str).
Abbreviation tries := (attempts browser py_str).

Lemma run_loop_attempts steps : forall i rs es b,
  fst (fst (loop steps i rs es b)) = rs ++ result_entries (tries steps i b) /\
  snd (fst (loop steps i rs es b)) = es ++ error_entries py_str (tries steps i b).
Proof.
  induction steps as [|action rest IH]; intros i rs es b; simpl.
  - now rewrite !app_nil_r.
  - destruct (execute_action browser py_str action b) as [[out|e] b'] eqn:E; simpl.
    + destruct (IH (i + 1) (rs ++ [mkStepResult i (get action "type" PyNone) out]) es b')
        as [H1 H2].
      rewrite H1, H2, <- app_assoc. split; reflexivity.
    + destruct (IH (i + 1) rs (es ++ [error_entry py_str i action e]) b') as [H1 H2].
      rewrite H1, H2, <- app_assoc. split; reflexivity.
Qed.

Lemma attempts_indexed steps : forall i b,
  map (fun a => (fst (fst a), snd (fst a))) (tries steps i b)
  = combine (map (fun k => i + Z.of_nat k) (seq 0 (List.length steps))) steps.
Proof.
  induction steps as [|action rest IH]; intros i b; simpl.
  - reflexivity.
  - rewrite Z.add_0_r. f_equal. rewrite IH. f_equal.
    rewrite <- seq_shift, map_map. apply map_ext. intros k. lia.
Qed.

Lemma entries_count (l : list (Z * Action * result string)) :
  (List.length (result_entries l) + List.length (error_entries py_str l))%nat
  = List.length l.
Proof.
  induction l as [|[[i action] [out|e]] l IH]; simpl; lia.
Qed.

Lemma attempts_length steps : forall i b,
  List.length (tries steps i b) = List.length steps.
Proof.
  induction steps as [|action rest IH]; intros i b; simpl; [reflexivity|].
  now rewrite IH.
Qed.

Lemma result_entries_from steps : forall i b,
  Forall (fun r => i <= step r) (result_entries (tries steps i b)).
Proof.
  induction steps as [|action rest IH]; intros i b; simpl; [constructor|].
  assert (Hrest : Forall (fun r => i <= step r)
                    (result_entries
                       (tries rest (i + 1) (snd (execute_action browser py_str action b))))).
  { eapply Forall_impl; [|apply IH]. simpl. intros r Hr. lia. }
  destruct (fst (execute_action browser py_str action b)); simpl.
  - constructor; [simpl; lia | exact Hrest].
  - exact Hrest.
Qed.

Lemma result_entries_increasing steps : forall i b,
  StronglySorted Z.lt (map step (result_entries (tries steps i b))).
Proof.
  induction steps as [|action rest IH]; intros i b; simpl; [constructor|].
  destruct (fst (execute_action browser py_str action b)); simpl.
  - constructor; [apply IH|].
    rewrite Forall_map. eapply Forall_impl; [|apply result_entries_from].
    simpl. intros r Hr. lia.
  - apply IH.
Qed.

(** C10 (amended). When the browser starts and stops, [run] returns, and its
    output accounts for every step exactly once: the steps are attempted in order,
    each on the browser its predecessors left, whatever they did; a step whose
    [execute_action] returned gives one entry of [results], tagged with its
    index and type, a step whose [execute_action] raised gives one entry of
    [errors]; both lists are in step order and
    [len(results) + len(errors) == len(steps)]. *)
Theorem run_accounts_for_every_step :
  forall (steps : list Action) (b : B),
    returns (fst (start browser b)) = true ->
    returns (fst (stop browser (snd (loop steps 0 [] [] (snd (start browser b))))))
    = true ->
    exists out,
      fst (run browser py_str steps b) = Ret out /\
      map (fun a => (fst (fst a), snd (fst a))) (tries steps 0 (snd (start browser b)))
      = combine (map Z.of_nat (seq 0 (List.length steps))) steps /\
      results out = result_entries (tries steps 0 (snd (start browser b))) /\
      errors out = error_entries py_str (tries steps 0 (snd (start browser b))) /\
      (List.length (results out) + List.length (errors out))%nat = List.length steps /\
      StronglySorted Z.lt (map step (results out)).
Proof.
  intros steps b Hstart Hstop.
  unfold run.
  destruct (start browser b) as [[u|e] b1]; [|discriminate]. simpl in *.
  destruct (run_loop_attempts steps 0 [] [] b1) as [Hr He]. simpl in Hr, He.
  destruct (loop steps 0 [] [] b1) as [[rs es] b2]. simpl in *.
  destruct (stop browser b2) as [[u'|e] b3]; [|discriminate]. simpl.
  exists (mkRunOutput rs es). simpl. subst rs es.
  repeat split.
  - rewrite attempts_indexed. f_equal.
  - rewrite entries_count. apply attempts_length.
  - apply result_entries_increasing.
Qed.

End AgentFacts.

Lemma run_accounts_for_every_step_witness :
  exists out,
    fst (run log_browser digit_str sample_steps []) = Ret out /\
    (List.length (results out) + List.length (errors out))%nat = 4%nat.
Proof.
  destruct (run_accounts_for_every_step (list pyval) log_browser digit_str
              sample_steps [] eq_refl eq_refl)
    as (out & Hrun & _ & _ & _ & Hcount & _).
  exists out. split; [exact Hrun | exact Hcount].
Defined.

(** C10 as stated fails for some lists of steps and browsers: when
    [browser.start()] raises, [run] raises before any step is attempted, and
    when [browser.stop()] raises, [run] raises after the steps were attempted;
    either way there are no [results] and [errors] to account for the four
    steps. *)
Lemma run_accounts_for_no_step_when_browser_fails :
  run dead_browser digit_str sample_steps [] = (Raise launch_failure, []) /\
  run jammed_browser digit_str sample_steps []
  = (Raise close_failure, [PyStr "https://example.org"%string]) /\
  ~ (exists out,
        fst (run dead_browser digit_str sample_steps []) = Ret out /\
        (List.length (results out) + List.length (errors out))%nat
        = List.length sample_steps) /\
  ~ (exists out,
        fst (run jammed_browser digit_str sample_steps []) = Ret out /\
        (List.length (results out) + List.length (errors out))%nat
        = List.length sample_steps).
Proof.
  split; [reflexivity|]. split; [reflexivity|].
  split; intros (out & Hrun & _); discriminate.
Qed.

End Web.

(* ===================================================================== *)
(** * llm.py: what the client returns                                     *)
(* ===================================================================== *)

Module LLM.
Import Py.

(** A tool call of the model, [tc.function.name] and [tc.function.arguments]. *)
Record ToolCall : Type := mkToolCall {
  tc_name : string;
  tc_arguments : option string
}.

(** The dict [function_call_chat] returns: both keys are always present,
    [content] may be [None], [tool_calls] is a list. *)
Record FcResp : Type := mkFcResp {
  fc_content : option string;
  fc_tool_calls : list ToolCall
}.

Definition has_tool_calls (r : FcResp) : bool :=
  match fc_tool_calls r with
  | [] => false
  | _ => true
  end.

End LLM.

(* ===================================================================== *)
(** * tools/__init__.py, tools/web_search.py, tools/web_fetch.py          *)
(* ===================================================================== *)

Module Tools.
Import Py.

(** A dict with string keys, in insertion order. *)
Definition Dict : Type := list (string * pyval).

Definition get (d : Dict) (key : string) (default : pyval) : pyval :=
  match assoc key d with
  | Some v => v
  | None => default
  end.

Definition string_property (description : string) : pyval :=
  PyDict [("type", PyStr "string"); ("description", PyStr description)]%string.

Definition integer_property (description : string) : pyval :=
  PyDict [("type", PyStr "integer"); ("description", PyStr description)]%string.

Definition function_schema (name description : string)
  (properties : list (string * pyval)) (required : list string) : pyval :=
  PyDict
    [ ("type", PyStr "function");
      ("function",
       PyDict
         [ ("name", PyStr name);
           ("description", PyStr description);
           ("parameters",
            PyDict
              [ ("type", PyStr "object");
                ("properties", PyDict properties);
                ("required", PyList (map PyStr required)) ]) ]) ]%string.

(** [list_tool_schemas]. *)
Definition list_tool_schemas : list pyval :=
  [ function_schema "evaluate_expression"
      "安全计算器：计算四则运算表达式，支持括号与浮点数。"
      [("expression", string_property "数学表达式，如 '(12 + 5) * 3'")]
      ["expression"];
    function_schema "web_search"
      "DuckDuckGo 简易搜索，返回前若干条结果的标题与链接。"
      [("query", string_property "搜索关键词");
       ("max_results", integer_property "返回结果数量（默认 5）")]
      ["query"];
    function_schema "web_fetch"
      "抓取URL并返回截断后的纯文本内容。"
      [("url", string_property "目标地址");
       ("max_chars", integer_property "最大字符数，默认1000")]
      ["url"] ]%string.

(** [schema["function"]["name"]]. *)
Definition schema_name (schema : pyval) : option string :=
  match schema with
  | PyDict d =>
      match assoc "function" d with
      | Some (PyDict f) =>
          match assoc "name" f with
          | Some (PyStr name) => Some name
          | _ => None
          end
      | _ => None
      end
  | _ => None
  end.

(** A [str] whose characters the code counts or cuts is the sequence of its
    code points: [len] counts them and a slice cuts between them. (Where the
    code only compares, joins or passes a [str] on, it is kept as the
    [string] of its UTF-8 bytes, which agrees with it on those operations.) *)
Definition codepoint : Type := N.
Definition pystr : Type := list codepoint.

(** A literal of ASCII characters. *)
Definition ascii_text (literal : string) : pystr :=
  map N_of_ascii (list_ascii_of_string literal).

(** [len(s)], and [s[start:stop]] and [s[:stop]] with Python's reading of
    negative and out-of-range bounds. *)
Definition py_len {A : Type} (s : list A) : Z := Z.of_nat (List.length s).

Definition clamp (len i : Z) : Z :=
  if i <? 0 then Z.max 0 (len + i) else Z.min i len.

Definition slice {A : Type} (s : list A) (start stop : Z) : list A :=
  let len := py_len s in
  let a := clamp len start in
  let b := clamp len stop in
  firstn (Z.to_nat (b - a)) (skipn (Z.to_nat a) s).

Definition slice_to {A : Type} (s : list A) (stop : Z) : list A := slice s 0 stop.

(** Two Chinese characters: six bytes in UTF-8, two characters to [len] and
    to a slice. *)
Example slice_counts_characters :
  py_len [20320%N; 22909%N] = 2 /\ slice_to [20320%N; 22909%N] 1 = [20320%N].
Proof. split; reflexivity. Qed.

Section WebSearch.

(** [DDGS().text(query, max_results=...)]: a list of result dicts, or
    [None]. *)
Variable ddgs_text : pyval -> Z -> result (option (list Dict)).

(** The [for item in results or []] loop. *)
Definition map_results (results : option (list Dict)) : list Dict :=
  fold_left
    (fun mapped item =>
       mapped ++ [[("title", get item "title" (PyStr ""));
                   ("link", get item "href" (PyStr ""))]%string])
    (match results with Some l => l | None => [] end)
    [].

(** [web_search]; [max_results] defaults to 5. *)
Definition web_search (query : pyval) (max_results : Z) : result (list Dict) :=
  match ddgs_text query max_results with
  | Raise exc => Raise (Exc RuntimeError ("搜索失败: " ++ exc_str exc)%string)
  | Ret results => Ret (map_results results)
  end.

End WebSearch.

(** What [requests.get] returns, as far as [web_fetch] reads it. *)
Record Response : Type := mkResponse { status_code : Z; text : pystr }.

(** What [web_fetch] returns, [{"url": url, "text": text[:max_chars]}]. *)
Record Fetched : Type := mkFetched { fetched_url : pyval; fetched_text : pystr }.

Section WebFetch.

(** [requests.get(url, timeout=...)], [re.sub(pattern, repl, string, flags)]
    with [ignore_case] for [re.I], [str.strip] and [str(v)]. *)
Variable requests_get : pyval -> Z -> result Response.
Variable re_sub : string -> pystr -> pystr -> bool -> pystr.
Variable strip : pystr -> pystr.
Variable py_str : pyval -> string.

Definition _strip_html (html : pystr) : pystr :=
  let text := re_sub "<script[\s\S]*?</script>" (ascii_text " ") html true in
  let text := re_sub "<style[\s\S]*?</style>" (ascii_text " ") text true in
  let text := re_sub "<[^>]+>" (ascii_text " ") text false in
  strip (re_sub "\s+" (ascii_text " ") text false).

(** [web_fetch]; [max_chars] defaults to 1000. The status check raises inside
    the [try], so its [RuntimeError] is caught and wrapped like any other
    failure. *)
Definition web_fetch (url : pyval) (max_chars : Z) : result Fetched :=
  try_except
    (resp <- requests_get url 12 ;;
     if status_code resp >=? 300 then
       Raise (Exc RuntimeError ("HTTP状态码: " ++ py_str (PyInt (status_code resp)))%string)
     else
       let stripped := _strip_html (text resp) in
       Ret (mkFetched url (slice_to stripped max_chars)))
    (fun exc => Raise (Exc RuntimeError ("抓取失败: " ++ exc_str exc)%string)).

End WebFetch.

(** ** Facts *)

Lemma slice_to_length (A : Type) (s : list A) (stop : Z) :
  0 <= stop -> py_len (slice_to s stop) = Z.min stop (py_len s).
Proof.
  intros Hstop. unfold slice_to, slice, clamp, py_len.
  replace (0 <? 0) with false by reflexivity.
  destruct (stop <? 0) eqn:E; [apply Z.ltb_lt in E; lia|].
  replace (Z.min 0 (Z.of_nat (List.length s))) with 0 by lia.
  cbn [Z.to_nat skipn]. rewrite length_firstn. lia.
Qed.

Lemma slice_to_prefix (A : Type) (s : list A) (stop : Z) :
  exists rest, s = slice_to s stop ++ rest.
Proof.
  unfold slice_to, slice.
  set (k := Z.to_nat _).
  replace (Z.to_nat (clamp (py_len s) 0)) with O
    by (unfold clamp, py_len; replace (0 <? 0) with false by reflexivity; lia).
  cbn [skipn]. exists (skipn k s). now rewrite firstn_skipn.
Qed.

Section SearchFacts.

Variable ddgs_text : pyval -> Z -> result (option (list Dict)).

Lemma map_results_from (l : list Dict) : forall acc,
  fold_left
    (fun mapped item =>
       mapped ++ [[("title", get item "title" (PyStr ""));
                   ("link", get item "href" (PyStr ""))]%string])
    l acc
  = acc ++ map (fun item =>
                  [("title", get item "title" (PyStr ""));
                   ("link", get item "href" (PyStr ""))]%string) l.
Proof.
  induction l as [|item l IH]; intros acc; cbn.
  - now rewrite app_nil_r.
  - rewrite IH, <- app_assoc. reflexivity.
Qed.

(** X18. [web_search] returns one dict per result of the search, in order,
    each with exactly the keys [title] and [link]: the result's [title] and
    [href], or the empty string where the result has none; [None] from the
    library gives the empty list; a failure of the search is raised as a
    [RuntimeError]. *)
Theorem web_search_maps_every_result :
  forall (query : pyval) (max_results : Z),
    match web_search ddgs_text query max_results with
    | Ret mapped =>
        exists results,
          ddgs_text query max_results = Ret results /\
          List.length mapped
          = List.length (match results with Some l => l | None => [] end) /\
          Forall (fun d => map fst d = ["title"; "link"]%string) mapped /\
          forall i item,
            nth_error (match results with Some l => l | None => [] end) i = Some item ->
            exists d,
              nth_error mapped i = Some d /\
              get d "title" PyNone = get item "title" (PyStr "") /\
              get d "link" PyNone = get item "href" (PyStr "")
    | Raise e =>
        exists exc,
          ddgs_text query max_results = Raise exc /\
          e = Exc RuntimeError ("搜索失败: " ++ exc_str exc)%string
    end.
Proof.
  intros query max_results. unfold web_search.
  destruct (ddgs_text query max_results) as [results|exc]; [|now exists exc].
  exists results. split; [reflexivity|].
  unfold map_results. rewrite map_results_from. cbn [app].
  set (l := match results with Some l => l | None => [] end).
  split; [now rewrite length_map|]. split.
  - apply Forall_forall. intros d Hd. apply in_map_iff in Hd.
    destruct Hd as (item & Hd & _). now subst d.
  - intros i item Hitem. eexists. split.
    + rewrite nth_error_map, Hitem. reflexivity.
    + split; reflexivity.
Qed.

End SearchFacts.

Section FetchFacts.

Variable requests_get : pyval -> Z -> result Response.
Variable re_sub : string -> pystr -> pystr -> bool -> pystr.
Variable strip : pystr -> pystr.
Variable py_str : pyval -> string.

Abbreviation fetch := (web_fetch requests_get re_sub strip py_str).
Abbreviation stripped_of := (_strip_html re_sub strip).

(** X19. [web_fetch] returns only for a response with a status below 300,
    and then gives back the url and a prefix of the stripped page text, of
    [min(max_chars, len)] characters for [max_chars >= 0]; every failure is a
    [RuntimeError] whose message starts with the fetch prefix, and a status
    of 300 or more is reported through it as well, wrapped a second time. *)
Theorem web_fetch_truncates_or_raises :
  forall (url : pyval) (max_chars : Z),
    match fetch url max_chars with
    | Ret d =>
        exists resp,
          requests_get url 12 = Ret resp /\ status_code resp < 300 /\
          d = mkFetched url (slice_to (stripped_of (text resp)) max_chars) /\
          (exists rest,
              stripped_of (text resp)
              = slice_to (stripped_of (text resp)) max_chars ++ rest) /\
          (0 <= max_chars ->
           py_len (slice_to (stripped_of (text resp)) max_chars)
           = Z.min max_chars (py_len (stripped_of (text resp))))
    | Raise e =>
        exc_type e = RuntimeError /\
        (exists exc,
            requests_get url 12 = Raise exc /\
            exc_str e = ("抓取失败: " ++ exc_str exc)%string)
        \/
        exc_type e = RuntimeError /\
        (exists resp,
            requests_get url 12 = Ret resp /\ 300 <= status_code resp /\
            exc_str e
            = ("抓取失败: " ++ "HTTP状态码: " ++ py_str (PyInt (status_code resp)))%string)
    end.
Proof.
  intros url max_chars. unfold web_fetch.
  destruct (requests_get url 12) as [resp|exc]; cbn [bind try_except].
  - destruct (status_code resp >=? 300) eqn:E; cbn [try_except].
    + rewrite Z.geb_leb, Z.leb_le in E. right. split; [reflexivity|].
      exists resp. repeat split. exact E.
    + rewrite Z.geb_leb, Z.leb_gt in E. exists resp.
      split; [reflexivity|]. split; [exact E|]. split; [reflexivity|].
      split; [apply slice_to_prefix | apply slice_to_length].
  - left. split; [reflexivity|]. now exists exc.
Qed.

End FetchFacts.

(** A page of two Chinese characters, fetched with [max_chars = 1]: one
    character comes back. *)
Example web_fetch_one_character :
  web_fetch (fun _ _ => Ret (mkResponse 200 [20320%N; 22909%N]))
    (fun _ _ s _ => s) (fun s => s) (fun _ => EmptyString) (PyStr "u") 1
  = Ret (mkFetched (PyStr "u") [20320%N]).
Proof. reflexivity. Qed.

End Tools.

(* ===================================================================== *)
(** * agents/base_qa.py                                                   *)
(* ===================================================================== *)

Module BaseQA.
Import Py LLM.

Record BaseQAAgent : Type := mkAgent {
  stm : Memory.ShortTermMemory;
  vmem : option Memory.VectorStore;
  max_tool_steps : Z
}.

(** What [ask] can change outside the agent: the vector store and the log, and
    the number of function-calling rounds the LLM has served. *)
Record World : Type := mkWorld {
  mem_env : Memory.Env;
  llm_rounds : nat
}.

Definition served_round (w : World) : World :=
  {| mem_env := mem_env w; llm_rounds := S (llm_rounds w) |}.

(** What reading the local [result] raises before any round has bound it. *)
Definition unbound_result : exc :=
  Exc UnboundLocalError
    "cannot access local variable 'result' where it is not associated with a value".

(** The agent with its short-term memory as a call left it. *)
Definition with_stm (self : BaseQAAgent) (m : Memory.ShortTermMemory) : BaseQAAgent :=
  mkAgent m (vmem self) (max_tool_steps self).

Section Ask.

(** The tokenizer behind the short-term memory. *)
Variable encoding_for_model : string -> result Memory.Encoding.
Variable get_encoding : string -> result Memory.Encoding.

(** [LLMClient.function_call_chat]: the answer to the [n]-th round on the
    given messages, or the [RuntimeError] it raises. *)
Variable function_call_chat : nat -> list Msg -> result FcResp.

(** The JSON codec, [int(...)], [str.strip] and the two tools. *)
Variable json_loads : string -> result pyval.
Variable json_dumps : pyval -> string.
Variable py_int : pyval -> result Z.
Variable strip : string -> string.
Variable evaluate_expression : pyval -> result pyfloat.
Variable web_search : pyval -> Z -> result pyval.

Definition tool_message (payload : pyval) : Msg :=
  mkMsg "tool" (json_dumps payload).

(** The body of the [try] around one tool call: the message it appends. *)
Definition run_tool (name : string) (args : pyval) : result Msg :=
  if String.eqb name "evaluate_expression" then
    expression <- dict_get args "expression" (PyStr "") ;;
    calc_res <- evaluate_expression expression ;;
    Ret (tool_message (PyDict [("name", PyStr name); ("result", PyFloat calc_res)]%string))
  else if String.eqb name "web_search" then
    query <- dict_get args "query" (PyStr "") ;;
    max_results <- dict_get args "max_results" (PyInt 5) ;;
    n <- py_int (py_or max_results (PyInt 5)) ;;
    results <- web_search query n ;;
    Ret (tool_message (PyDict [("name", PyStr name); ("result", results)]%string))
  else
    Ret (tool_message (PyDict [("name", PyStr name); ("error", PyStr "未知工具")]%string)).

(** One iteration of [for tc in tool_calls]: [json.loads] stands before the
    [try], so its exception leaves the loop. *)
Definition handle_tool_call (tc : ToolCall) (messages : list Msg)
  : result (list Msg) :=
  let name := tc_name tc in
  args <- json_loads (str_or (tc_arguments tc) "{}") ;;
  msg <- try_except (run_tool name args)
           (fun exc =>
              Ret (tool_message
                     (PyDict [("name", PyStr name); ("error", PyStr (exc_str exc))]%string))) ;;
  Ret (messages ++ [msg]).

Fixpoint handle_tool_calls (tool_calls : list ToolCall) (messages : list Msg)
  : result (list Msg) :=
  match tool_calls with
  | [] => Ret messages
  | tc :: rest =>
      messages' <- handle_tool_call tc messages ;;
      handle_tool_calls rest messages'
  end.

(** Writing the final answer to the long-term memory, when there is one; the
    surrounding [try ... except Exception: pass] discards a failure. *)
Definition remember (self : BaseQAAgent) (final_answer : string) (w : World) : World :=
  match vmem self with
  | None => w
  | Some vs =>
      {| mem_env :=
           snd (Memory.cvm_add vs [final_answer]
                  (Some [PyDict [("source", PyStr "final_answer")]%string]) (mem_env w));
         llm_rounds := llm_rounds w |}
  end.

(** The [for step in range(self.max_tool_steps)] loop with [remaining]
    iterations to go, and the statement after it. [last] is the variable
    [result]: unbound until the first round has answered. Since the key
    [content] is always present, [result.get("content", default)] is the
    content, [None] included. *)
Fixpoint tool_loop (self : BaseQAAgent) (remaining : nat) (messages : list Msg)
  (last : option FcResp) (w : World) : result (option string) * World :=
  match remaining with
  | O =>
      match last with
      | None => (Raise unbound_result, w)
      | Some r => (Ret (fc_content r), w)
      end
  | S remaining' =>
      match function_call_chat (llm_rounds w) messages with
      | Raise e => (Raise e, served_round w)
      | Ret r =>
          let w1 := served_round w in
          if has_tool_calls r then
            match handle_tool_calls (fc_tool_calls r) messages with
            | Raise e => (Raise e, w1)
            | Ret messages' => tool_loop self remaining' messages' (Some r) w1
            end
          else
            let final_answer := strip (str_or (fc_content r) "") in
            if String.eqb final_answer "" then
              (Raise (Exc RuntimeError "LLM 未返回有效答案"), w1)
            else (Ret (Some final_answer), remember self final_answer w1)
      end
  end.

Definition system_context : string :=
  "你是一个具备工具使用能力的助理，善用函数进行计算与搜索。".

Abbreviation stm_add := (Memory.stm_add encoding_for_model get_encoding).

(** The retrieval step of [ask]: the memories found are added as one system
    message. *)
Definition recall (self : BaseQAAgent) (question : string)
  (m : Memory.ShortTermMemory) (w : World)
  : result unit * Memory.ShortTermMemory * World :=
  match vmem self with
  | None => (Ret tt, m, w)
  | Some vs =>
      match Memory.cvm_search vs question 3 (mem_env w) with
      | (Raise e, env') => (Raise e, m, {| mem_env := env'; llm_rounds := llm_rounds w |})
      | (Ret memories, env') =>
          let w' := {| mem_env := env'; llm_rounds := llm_rounds w |} in
          match memories with
          | [] => (Ret tt, m, w')
          | _ =>
              let memo_text := String.concat nl (map Memory.hit_text memories) in
              (stm_add m "system" ("相关记忆: " ++ nl ++ memo_text)%string, w')
          end
      end
  end.

(** The first part of [ask], up to [messages = self.stm.get()]: the prompt is
    written to the short-term memory. An [add] that raises leaves [ask] with
    the message already appended. *)
Definition prepare (self : BaseQAAgent) (question : string) (w : World)
  : result (list Msg) * BaseQAAgent * World :=
  match stm_add (stm self) "system" system_context with
  | (Raise e, m0) => (Raise e, with_stm self m0, w)
  | (Ret _, m0) =>
      match stm_add m0 "user" question with
      | (Raise e, m1) => (Raise e, with_stm self m1, w)
      | (Ret _, m1) =>
          match recall self question m1 w with
          | (Raise e, m2, w') => (Raise e, with_stm self m2, w')
          | (Ret _, m2, w') => (Ret (Memory.stm_get m2), with_stm self m2, w')
          end
      end
  end.

(** [BaseQAAgent.ask]: the answer (a string, or [None] when the last round
    had no content), the agent with its updated short-term memory, and the
    world. *)
Definition ask (self : BaseQAAgent) (question : string) (w : World)
  : result (option string) * BaseQAAgent * World :=
  match prepare self question w with
  | (Raise e, self', w') => (Raise e, self', w')
  | (Ret messages, self', w') =>
      match tool_loop self' (Z.to_nat (max_tool_steps self)) messages None w' with
      | (answer, w'') => (answer, self', w'')
      end
  end.

(** The rounds served to one call of [ask]. *)
Definition rounds_of (self : BaseQAAgent) (question : string) (w : World) : nat :=
  (llm_rounds (snd (ask self question w)) - llm_rounds w)%nat.

End Ask.

(** Stand-ins for concrete runs: a JSON codec that knows the empty object, an
    LLM that asks for the calculator in every round, and tools that answer. *)
Definition tiny_json_loads (text : string) : result pyval :=
  if String.eqb text "{}" then Ret (PyDict [])
  else Raise (Exc JSONDecodeError "Expecting value: line 1 column 1 (char 0)").

Definition tiny_json_dumps (v : pyval) : string :=
  match v with
  | PyDict (("name", PyStr name) :: _) => name
  | _ => "null"
  end%string.

Definition tiny_int (v : pyval) : result Z :=
  match v with
  | PyInt z => Ret z
  | _ => Raise (Exc TypeError "int() argument must be a string or a real number")
  end.

Definition tiny_evaluate (v : pyval) : result pyfloat :=
  Raise (Exc ValueError "表达式非法: invalid syntax").

Definition tiny_web_search (query : pyval) (max_results : Z) : result pyval :=
  Ret (PyList []).

Definition calculator_call (arguments : string) : ToolCall :=
  mkToolCall "evaluate_expression" (Some arguments).

(** Every round: "thinking" and one calculator call with the given
    arguments. *)
Definition always_tool_calls (arguments : string) (n : nat) (messages : list Msg)
  : result FcResp :=
  Ret (mkFcResp (Some "thinking"%string) [calculator_call arguments]).

Definition fresh_agent (steps : Z) : BaseQAAgent :=
  mkAgent (Memory.stm_init Memory.default_settings None None) None steps.

Definition fresh_world : World := mkWorld Memory.empty_env 0.

Definition tiny_ask (arguments : string) (steps : Z) :=
  ask Memory.byte_encoding_for_model Memory.byte_get_encoding
    (always_tool_calls arguments) tiny_json_loads tiny_json_dumps tiny_int
    (fun s => s) tiny_evaluate tiny_web_search
    (fresh_agent steps) "1+1?" fresh_world.

Example tiny_ask_three_rounds :
  fst (fst (tiny_ask "{}" 3)) = Ret (Some "thinking"%string) /\
  llm_rounds (snd (tiny_ask "{}" 3)) = 3%nat.
Proof. split; reflexivity. Qed.

Section AskFacts.

Variable encoding_for_model : string -> result Memory.Encoding.
Variable get_encoding : string -> result Memory.Encoding.
Variable function_call_chat : nat -> list Msg -> result FcResp.
Variable json_loads : string -> result pyval.
Variable json_dumps : pyval -> string.
Variable py_int : pyval -> result Z.
Variable strip : string -> string.
Variable evaluate_expression : pyval -> result pyfloat.
Variable web_search : pyval -> Z -> result pyval.

Abbreviation the_loop :=
  (tool_loop function_call_chat json_loads json_dumps py_int strip
     evaluate_expression web_search).
Abbreviation the_ask :=
  (ask encoding_for_model get_encoding function_call_chat json_loads json_dumps
     py_int strip evaluate_expression web_search).
Abbreviation the_rounds :=
  (rounds_of encoding_for_model get_encoding function_call_chat json_loads
     json_dumps py_int strip evaluate_expression web_search).
Abbreviation the_calls :=
  (handle_tool_calls json_loads json_dumps py_int evaluate_expression web_search).
Abbreviation the_prepare := (prepare encoding_for_model get_encoding).
Abbreviation the_recall := (recall encoding_for_model get_encoding).
Abbreviation enc_of := (Memory.select_encoding encoding_for_model get_encoding).

(** The prompt of [ask] was written: every [add] on the way returned. *)
Definition prompt_built (self : BaseQAAgent) (question : string) (w : World) : Prop :=
  exists messages, fst (fst (the_prepare self question w)) = Ret messages.

Lemma remember_rounds self answer w :
  llm_rounds (remember self answer w) = llm_rounds w.
Proof. unfold remember. destruct (vmem self); reflexivity. Qed.

(** The loop serves at most [remaining] rounds. *)
Lemma tool_loop_rounds self remaining : forall messages last w,
  (llm_rounds w <= llm_rounds (snd (the_loop self remaining messages last w))
   <= llm_rounds w + remaining)%nat.
Proof.
  induction remaining as [|k IH]; intros messages last w; simpl.
  - destruct last; simpl; lia.
  - destruct (function_call_chat (llm_rounds w) messages) as [r|e]; simpl; [|lia].
    destruct (has_tool_calls r).
    + destruct (the_calls (fc_tool_calls r) messages) as [messages'|e]; simpl; [|lia].
      specialize (IH messages' (Some r) (served_round w)). simpl in IH. lia.
    + destruct (String.eqb _ _); simpl; [lia|]. rewrite remember_rounds. simpl. lia.
Qed.

(** Writing the prompt never calls the LLM. *)
Lemma recall_rounds self question m w :
  llm_rounds (snd (the_recall self question m w)) = llm_rounds w.
Proof.
  unfold recall. destruct (vmem self) as [vs|]; [|reflexivity].
  destruct (Memory.cvm_search vs question 3 (mem_env w)) as [[memories|e] env'];
    [|reflexivity].
  destruct memories; reflexivity.
Qed.

Lemma prepare_rounds self question w :
  llm_rounds (snd (the_prepare self question w)) = llm_rounds w.
Proof.
  unfold prepare.
  destruct (Memory.stm_add _ _ (stm self) _ _) as [[u|e] m0]; [|reflexivity].
  destruct (Memory.stm_add _ _ m0 _ _) as [[u'|e] m1]; [|reflexivity].
  pose proof (recall_rounds self question m1 w) as H.
  destruct (the_recall self question m1 w) as [[[u''|e] m2] w']; exact H.
Qed.

(** [ask] once the prompt is written. *)
Lemma ask_after_prepare self question w messages self' w' :
  the_prepare self question w = (Ret messages, self', w') ->
  the_ask self question w
  = (fst (the_loop self' (Z.to_nat (max_tool_steps self)) messages None w'),
     self',
     snd (the_loop self' (Z.to_nat (max_tool_steps self)) messages None w')).
Proof.
  intros H. unfold ask. rewrite H.
  destruct (the_loop _ _ _ _ _); reflexivity.
Qed.

Lemma prompt_built_inv self question w :
  prompt_built self question w ->
  exists messages self' w',
    the_prepare self question w = (Ret messages, self', w') /\
    llm_rounds w' = llm_rounds w.
Proof.
  intros [messages H]. pose proof (prepare_rounds self question w) as Hr.
  destruct (the_prepare self question w) as [[out self'] w']. cbn in *. subst out.
  now exists messages, self', w'.
Qed.

(** A tokenizer that refuses no text lets every prompt be written. *)
Lemma prompt_built_when_tokenizer_returns self question w enc :
  enc_of (Memory.stm_model (stm self)) = Ret enc ->
  Memory.never_refuses enc ->
  prompt_built self question w.
Proof.
  intros Henc Htotal. unfold prompt_built, prepare.
  pose proof (Memory.stm_add_returns _ _ (stm self) "system" system_context enc
                Henc Htotal) as H0.
  destruct (Memory.stm_add_fields encoding_for_model get_encoding (stm self)
              "system" system_context) as [_ Hm0].
  destruct (Memory.stm_add _ _ (stm self) _ _) as [[[]|e] m0]; [|discriminate].
  cbn [snd] in Hm0. rewrite <- Hm0 in Henc.
  pose proof (Memory.stm_add_returns _ _ m0 "user" question enc Henc Htotal) as H1.
  destruct (Memory.stm_add_fields encoding_for_model get_encoding m0
              "user" question) as [_ Hm1].
  destruct (Memory.stm_add _ _ m0 _ _) as [[[]|e] m1]; [|discriminate].
  cbn [snd] in Hm1. rewrite <- Hm1 in Henc.
  unfold recall. destruct (vmem self) as [vs|]; [|eexists; reflexivity].
  unfold Memory.cvm_search.
  destruct (Memory.call_similarity_search vs question 3 (mem_env w))
    as [[docs|e] env']; [|eexists; reflexivity].
  destruct (Memory.collect_hits docs) as [|hit hits]; [eexists; reflexivity|].
  match goal with
  | |- context [Memory.stm_add _ _ m1 ?r ?c] =>
      pose proof (Memory.stm_add_returns _ _ m1 r c enc Henc Htotal) as H2;
      destruct (Memory.stm_add encoding_for_model get_encoding m1 r c)
        as [[[]|e] m2]; [|discriminate]
  end.
  eexists; reflexivity.
Qed.

Lemma ask_rounds_bound self question w :
  (the_rounds self question w <= Z.to_nat (max_tool_steps self))%nat.
Proof.
  unfold rounds_of, ask.
  pose proof (prepare_rounds self question w) as Hr.
  destruct (the_prepare self question w) as [[[messages|e] self'] w']; cbn in Hr.
  - pose proof (tool_loop_rounds self' (Z.to_nat (max_tool_steps self)) messages None w')
      as Hb.
    destruct (the_loop _ _ _ _ _) as [answer w'']. cbn in *. lia.
  - cbn. lia.
Qed.

(** Every round answers with at least one tool call, and every tool call's
    arguments decode. *)
Definition tool_calls_forever : Prop :=
  forall n messages,
    exists r,
      function_call_chat n messages = Ret r /\
      has_tool_calls r = true /\
      Forall (fun tc => exists args, json_loads (str_or (tc_arguments tc) "{}") = Ret args)
             (fc_tool_calls r).

Lemma handle_tool_calls_returns tool_calls : forall messages,
  Forall (fun tc => exists args, json_loads (str_or (tc_arguments tc) "{}") = Ret args)
         tool_calls ->
  exists messages', the_calls tool_calls messages = Ret messages'.
Proof.
  induction tool_calls as [|tc rest IH]; intros messages Hall; simpl.
  - eauto.
  - inversion Hall as [|tc' rest' [args Hargs] Hrest]; subst.
    unfold handle_tool_call. rewrite Hargs. simpl.
    destruct (run_tool json_dumps py_int evaluate_expression web_search
                (tc_name tc) args); simpl; apply IH; assumption.
Qed.

(** With tool calls in every round the loop runs all its iterations; it then
    returns the content of the response of the last round, if there was
    one. *)
Lemma tool_loop_exhausts self :
  tool_calls_forever ->
  forall remaining messages last w,
    llm_rounds (snd (the_loop self remaining messages last w))
    = (llm_rounds w + remaining)%nat /\
    match remaining, last with
    | O, None => fst (the_loop self remaining messages last w) = Raise unbound_result
    | O, Some r => fst (the_loop self remaining messages last w) = Ret (fc_content r)
    | S _, _ =>
        exists messages' r,
          function_call_chat (llm_rounds w + remaining - 1)%nat messages' = Ret r /\
          fst (the_loop self remaining messages last w) = Ret (fc_content r)
    end.
Proof.
  intros Hforever.
  induction remaining as [|k IH]; intros messages last w.
  - simpl. destruct last; simpl; split; (lia || reflexivity).
  - cbn [tool_loop].
    destruct (Hforever (llm_rounds w) messages) as (r & Hr & Hcalls & Hdec).
    rewrite Hr, Hcalls.
    destruct (handle_tool_calls_returns (fc_tool_calls r) messages Hdec)
      as [messages1 Hm]. rewrite Hm.
    destruct (IH messages1 (Some r) (served_round w)) as [Hrounds Hanswer].
    split; [rewrite Hrounds; simpl; lia|].
    destruct k as [|k'].
    + exists messages, r. split; [|exact Hanswer].
      now replace (llm_rounds w + 1 - 1)%nat with (llm_rounds w) by lia.
    + destruct Hanswer as (messages' & r' & Hfc & Hret).
      exists messages', r'. split; [|exact Hret].
      replace (llm_rounds w + S (S k') - 1)%nat
        with (llm_rounds (served_round w) + S k' - 1)%nat by (simpl; lia).
      exact Hfc.
Qed.

(** For [max_tool_steps >= 1], tool calls in every round and decodable
    arguments, [ask], once its prompt is written, serves exactly
    [max_tool_steps] rounds and returns the content of the last response. *)
Lemma ask_tool_calls_forever self question w :
  1 <= max_tool_steps self ->
  tool_calls_forever ->
  prompt_built self question w ->
  the_rounds self question w = Z.to_nat (max_tool_steps self) /\
  exists messages r,
    function_call_chat (llm_rounds w + Z.to_nat (max_tool_steps self) - 1)%nat messages
    = Ret r /\
    fst (fst (the_ask self question w)) = Ret (fc_content r).
Proof.
  intros Hsteps Hforever Hbuilt. unfold rounds_of.
  destruct (prompt_built_inv self question w Hbuilt)
    as (messages & self' & w' & Hprepare & Hw').
  rewrite (ask_after_prepare _ _ _ _ _ _ Hprepare). cbn [fst snd].
  destruct (tool_loop_exhausts self' Hforever (Z.to_nat (max_tool_steps self))
              messages None w') as [Hrounds Hanswer].
  split; [lia|].
  destruct (Z.to_nat (max_tool_steps self)) as [|k] eqn:Hk; [lia|].
  destruct Hanswer as (messages' & r & Hfc & Hret).
  exists messages', r. split; [|exact Hret]. now rewrite <- Hw'.
Qed.

(** C7. [ask] serves at most [max_tool_steps] rounds, but once its prompt is
    written it can raise where the claim has it return: with
    [max_tool_steps <= 0] the loop body never runs and the final
    [result.get(...)] reads an unbound local; and with [max_tool_steps >= 1],
    a first round whose first tool call carries arguments [json.loads] rejects
    makes that exception leave [ask], since the decoding stands outside the
    [try] that guards the tools. *)
Theorem ask_raises_despite_step_bound :
  forall (self : BaseQAAgent) (question : string) (w : World),
    (the_rounds self question w <= Z.to_nat (max_tool_steps self))%nat /\
    (max_tool_steps self <= 0 ->
     prompt_built self question w ->
     fst (fst (the_ask self question w)) = Raise unbound_result /\
     the_rounds self question w = 0%nat) /\
    (forall r tc rest e,
        1 <= max_tool_steps self ->
        (forall messages, function_call_chat (llm_rounds w) messages = Ret r) ->
        fc_tool_calls r = tc :: rest ->
        json_loads (str_or (tc_arguments tc) "{}") = Raise e ->
        prompt_built self question w ->
        fst (fst (the_ask self question w)) = Raise e /\
        the_rounds self question w = 1%nat).
Proof.
  intros self question w. split; [apply ask_rounds_bound|]. split.
  - intros Hsteps Hbuilt. unfold rounds_of.
    destruct (prompt_built_inv self question w Hbuilt)
      as (messages & self' & w' & Hprepare & Hw').
    rewrite (ask_after_prepare _ _ _ _ _ _ Hprepare).
    replace (Z.to_nat (max_tool_steps self)) with O by lia. cbn.
    split; [reflexivity | lia].
  - intros r tc rest e Hsteps Hfc Hcalls Hjson Hbuilt. unfold rounds_of.
    destruct (prompt_built_inv self question w Hbuilt)
      as (messages & self' & w' & Hprepare & Hw').
    rewrite (ask_after_prepare _ _ _ _ _ _ Hprepare).
    destruct (Z.to_nat (max_tool_steps self)) as [|k] eqn:Hk; [lia|].
    cbn [tool_loop]. rewrite Hw', Hfc.
    unfold has_tool_calls. rewrite Hcalls. cbn [handle_tool_calls].
    unfold handle_tool_call. rewrite Hjson. cbn [bind fst snd llm_rounds served_round].
    split; [reflexivity | lia].
Qed.

End AskFacts.

Lemma ask_raises_despite_step_bound_witness :
  fst (fst (tiny_ask "{expression: 1+1" 3))
  = Raise (Exc JSONDecodeError "Expecting value: line 1 column 1 (char 0)") /\
  fst (fst (tiny_ask "{}" 0)) = Raise unbound_result.
Proof.
  split.
  - apply (ask_raises_despite_step_bound Memory.byte_encoding_for_model
             Memory.byte_get_encoding (always_tool_calls "{expression: 1+1")
             tiny_json_loads tiny_json_dumps tiny_int (fun s => s) tiny_evaluate
             tiny_web_search (fresh_agent 3) "1+1?" fresh_world)
      with (r := mkFcResp (Some "thinking"%string) [calculator_call "{expression: 1+1"])
           (tc := calculator_call "{expression: 1+1") (rest := []);
      [simpl; lia | reflexivity | reflexivity | reflexivity
       | eexists; reflexivity].
  - apply (ask_raises_despite_step_bound Memory.byte_encoding_for_model
             Memory.byte_get_encoding (always_tool_calls "{}")
             tiny_json_loads tiny_json_dumps tiny_int (fun s => s) tiny_evaluate
             tiny_web_search (fresh_agent 0) "1+1?" fresh_world);
      [simpl; lia | eexists; reflexivity].
Defined.

End BaseQA.

(* ===================================================================== *)
(** * planner/planner.py and executor/langgraph_app.py                    *)
(* ===================================================================== *)

Module Executor.
Import Py LLM.

(** An entry of [tool_outputs], [{"name": name, "result": result}]. *)
Record ToolOutput : Type := mkToolOutput {
  to_name : string;
  to_result : pyval
}.

(** [AgentState]. *)
Record AgentState : Type := mkState {
  question : string;
  plan : list pyval;
  step_index : Z;
  tool_outputs : list ToolOutput;
  final_answer : option string;
  completed : bool;
  error : option string;
  messages : list Msg;
  pending_tool_calls : list ToolCall
}.

(** The keys of the [TypedDict]. *)
Definition AgentState_keys : list string :=
  [ "question"; "plan"; "step_index"; "tool_outputs"; "final_answer";
    "completed"; "error"; "messages"; "pending_tool_calls" ]%string.

(** What the outside answers while one node runs: the two entry points of
    the LLM client and the two web tools (the tools also see the position of
    the call in the pending list). *)
Record Oracle : Type := mkOracle {
  chat : list Msg -> result string;
  function_call_chat : list Msg -> result FcResp;
  web_search : nat -> pyval -> Z -> result pyval;
  web_fetch : nat -> pyval -> Z -> result pyval
}.

(** A node of the graph, a method of the app: it may raise. *)
Definition Node : Type := Oracle -> AgentState -> result AgentState.

(** ** The graph library

    What [_build_graph] uses of [langgraph.graph]: a builder that records the
    nodes and edges it is given, checking each as it comes, and [compile],
    which validates the whole before it hands out a runnable graph. *)

Definition START : string := "__start__".
Definition END : string := "__end__".

(** [StateGraph]: the keys of its state schema, named nodes, fixed edges, and
    conditional edges given by a routing function and a mapping from its
    answers to targets. *)
Record StateGraph : Type := mkGraph {
  channels : list string;
  nodes : list (string * Node);
  edges : list (string * string);
  branches : list (string * ((AgentState -> string) * list (string * string)))
}.

(** Releases of the library differ in one check that matters here: the later
    ones refuse a node whose name is also a key of the state. *)
Record Library : Type := mkLibrary { reserves_state_keys : bool }.

Definition mem (name : string) (l : list string) : bool :=
  existsb (String.eqb name) l.

Fixpoint lookup {A : Type} (key : string) (l : list (string * A)) : option A :=
  match l with
  | [] => None
  | (k, v) :: l' => if String.eqb key k then Some v else lookup key l'
  end.

(** [StateGraph(schema)]. *)
Definition new_graph (schema : list string) : StateGraph :=
  {| channels := schema; nodes := []; edges := []; branches := [] |}.

Definition add_node (lib : Library) (g : StateGraph) (name : string) (f : Node)
  : result StateGraph :=
  if reserves_state_keys lib && mem name (channels g) then
    Raise (Exc ValueError ("'" ++ name ++ "' is already being used as a state key"))
  else if mem name (map fst (nodes g)) then
    Raise (Exc ValueError ("Node `" ++ name ++ "` already present."))
  else if String.eqb name END || String.eqb name START then
    Raise (Exc ValueError ("Node `" ++ name ++ "` is reserved."))
  else
    Ret {| channels := channels g; nodes := nodes g ++ [(name, f)];
           edges := edges g; branches := branches g |}.

Definition add_edge (g : StateGraph) (source target : string) : result StateGraph :=
  if String.eqb source END then Raise (Exc ValueError "END cannot be a start node")
  else if String.eqb target START then Raise (Exc ValueError "START cannot be an end node")
  else
    Ret {| channels := channels g; nodes := nodes g;
           edges := edges g ++ [(source, target)]; branches := branches g |}.

Definition add_conditional_edges (g : StateGraph) (source : string)
  (path : AgentState -> string) (path_map : list (string * string))
  : result StateGraph :=
  Ret {| channels := channels g; nodes := nodes g; edges := edges g;
         branches := branches g ++ [(source, (path, path_map))] |}.

(** [set_entry_point(key)], which the app never calls. *)
Definition set_entry_point (g : StateGraph) (key : string) : result StateGraph :=
  add_edge g START key.

(** Where edges start and where they end. *)
Definition sources (g : StateGraph) : list string :=
  map fst (edges g) ++ map fst (branches g).

Definition targets (g : StateGraph) : list string :=
  map snd (edges g) ++ flat_map (fun b => map snd (snd (snd b))) (branches g).

Definition unknown_source (g : StateGraph) (name : string) : bool :=
  negb (mem name (map fst (nodes g))) && negb (String.eqb name START).

Definition unknown_target (g : StateGraph) (name : string) : bool :=
  negb (mem name (map fst (nodes g))) && negb (String.eqb name END).

Definition no_entry_point : exc :=
  Exc ValueError
    "Graph must have an entrypoint: add at least one edge from START to another node".

(** [validate]: every edge starts at a node or at [START], some edge starts
    at [START], and every edge ends at a node or at [END]. *)
Definition validate (g : StateGraph) : result unit :=
  match find (unknown_source g) (sources g) with
  | Some name =>
      Raise (Exc ValueError ("Found edge starting at unknown node '" ++ name ++ "'"))
  | None =>
      if negb (mem START (sources g)) then Raise no_entry_point
      else
        match find (unknown_target g) (targets g) with
        | Some name =>
            Raise (Exc ValueError ("Found edge ending at unknown node `" ++ name ++ "`"))
        | None => Ret tt
        end
  end.

(** A compiled graph: the builder it was made from. *)
Record CompiledGraph : Type := mkCompiled { builder : StateGraph }.

Definition compile (g : StateGraph) : result CompiledGraph :=
  _ <- validate g ;; Ret (mkCompiled g).

(** The dict [run] returns. *)
Record RunResult : Type := mkRunResult {
  r_final_answer : option string;
  r_plan : list pyval;
  r_tool_outputs : list ToolOutput;
  r_error : option string
}.

(** [PlannerExecutorApp]: the planner and the LLM client are the objects
    behind an [Oracle]; the instance holds the tool schemas and the graph. *)
Record PlannerExecutorApp : Type := mkApp {
  tools : list pyval;
  graph : CompiledGraph
}.

Section Graph.

(** The JSON codec, [int(...)] and the calculator tool. *)
Variable json_loads : string -> result pyval.
Variable json_dumps : pyval -> string.
Variable py_int : pyval -> result Z.
Variable evaluate_expression : pyval -> result pyfloat.

(** [CompiledGraph.invoke], which belongs to the library: given the state to
    start from and what the outside answers, the state the graph ends in. *)
Variable invoke : CompiledGraph -> (nat -> Oracle) -> AgentState -> result AgentState.

(** [Planner.plan]. *)
Definition planner_system_msg : string :=
  "你是一个善于分解任务的Planner。将用户任务分解为3-5个可执行步骤，优先使用已有工具（calculator、web_search、web_fetch），并输出严格的JSON数组，每个元素包含: goal(目标), action(动作描述)。不要输出除JSON以外的内容。".

Definition planner_plan (o : Oracle) (question_ : string) : result (list pyval) :=
  text <- chat o [mkMsg "system" planner_system_msg; mkMsg "user" question_] ;;
  try_except
    (plan_ <- json_loads text ;;
     match plan_ with
     | PyList steps => Ret steps
     | _ => Raise (Exc ValueError "非数组结构")
     end)
    (fun exc =>
       Raise (Exc RuntimeError
                ("Planner 输出不可解析: " ++ exc_str exc ++ nl ++ "原始: " ++ text)%string)).

Definition _node_plan : Node := fun o state =>
  match planner_plan o (question state) with
  | Raise exc =>
      Ret {| question := question state; plan := plan state;
             step_index := step_index state; tool_outputs := tool_outputs state;
             final_answer := final_answer state;
             completed := true;
             error := Some ("规划失败: " ++ exc_str exc)%string;
             messages := messages state;
             pending_tool_calls := pending_tool_calls state |}
  | Ret plan_ =>
      Ret {| question := question state; plan := plan_;
             step_index := 0; tool_outputs := [];
             final_answer := final_answer state;
             completed := completed state;
             error := error state;
             messages :=
               [ mkMsg "system" "你是一个执行器。按计划逐步完成任务，必要时调用工具。";
                 mkMsg "user" (question state);
                 mkMsg "system" ("当前计划: " ++ json_dumps (PyList plan_))%string ];
             pending_tool_calls := pending_tool_calls state |}
  end.

Definition summary_request : Msg := mkMsg "user" "汇总前述信息，给出最终答案。".

Definition current_step_msg (current : pyval) : Msg :=
  mkMsg "system" ("当前步骤: " ++ json_dumps current)%string.

(** [_node_choose]. The list [messages] is the one held by the state, so the
    messages appended to it are in every state the node returns. *)
Definition _node_choose : Node := fun o state =>
  if step_index state >=? Z.of_nat (List.length (plan state)) then
    match chat o (messages state ++ [summary_request]) with
    | Raise exc =>
        Ret {| question := question state; plan := plan state;
               step_index := step_index state; tool_outputs := tool_outputs state;
               final_answer := final_answer state;
               completed := true;
               error := Some ("汇总失败: " ++ exc_str exc)%string;
               messages := messages state;
               pending_tool_calls := pending_tool_calls state |}
    | Ret resp =>
        Ret {| question := question state; plan := plan state;
               step_index := step_index state; tool_outputs := tool_outputs state;
               final_answer := Some resp;
               completed := true;
               error := error state;
               messages := messages state;
               pending_tool_calls := pending_tool_calls state |}
    end
  else
    current <- list_index (plan state) (step_index state) ;;
    let messages1 := messages state ++ [current_step_msg current] in
    match function_call_chat o messages1 with
    | Raise exc =>
        Ret {| question := question state; plan := plan state;
               step_index := step_index state; tool_outputs := tool_outputs state;
               final_answer := final_answer state;
               completed := true;
               error := Some ("选择工具失败: " ++ exc_str exc)%string;
               messages := messages1;
               pending_tool_calls := pending_tool_calls state |}
    | Ret resp =>
        if has_tool_calls resp then
          Ret {| question := question state; plan := plan state;
                 step_index := step_index state; tool_outputs := tool_outputs state;
                 final_answer := final_answer state;
                 completed := completed state;
                 error := error state;
                 messages := messages1;
                 pending_tool_calls := fc_tool_calls resp |}
        else
          Ret {| question := question state; plan := plan state;
                 step_index := step_index state + 1;
                 tool_outputs := tool_outputs state;
                 final_answer := final_answer state;
                 completed := completed state;
                 error := error state;
                 messages := messages1 ++ [mkMsg "assistant" (str_or (fc_content resp) "")];
                 pending_tool_calls := pending_tool_calls state |}
    end.

(** The body of the [try] in [_node_execute], for the call at position [i]. *)
Definition dispatch (o : Oracle) (i : nat) (name : string) (args : pyval)
  : result pyval :=
  if String.eqb name "evaluate_expression" then
    expression <- dict_get args "expression" (PyStr "") ;;
    value <- evaluate_expression expression ;;
    Ret (PyFloat value)
  else if String.eqb name "web_search" then
    query <- dict_get args "query" (PyStr "") ;;
    max_results <- dict_get args "max_results" (PyInt 5) ;;
    n <- py_int (py_or max_results (PyInt 5)) ;;
    web_search o i query n
  else if String.eqb name "web_fetch" then
    url <- dict_get args "url" (PyStr "") ;;
    max_chars <- dict_get args "max_chars" (PyInt 1000) ;;
    n <- py_int (py_or max_chars (PyInt 1000)) ;;
    web_fetch o i url n
  else Ret (PyDict [("error", PyStr ("未知工具: " ++ name))]%string).

(** The [for tc in calls] loop of [_node_execute], from position [i] on;
    [json.loads] stands before the [try]. *)
Fixpoint execute_calls (o : Oracle) (i : nat) (calls : list ToolCall)
  (messages_ : list Msg) (tool_outputs_ : list ToolOutput)
  : result (list Msg * list ToolOutput) :=
  match calls with
  | [] => Ret (messages_, tool_outputs_)
  | tc :: rest =>
      let name := tc_name tc in
      args <- json_loads (str_or (tc_arguments tc) "{}") ;;
      result_ <- try_except (dispatch o i name args)
                   (fun exc => Ret (PyDict [("error", PyStr (exc_str exc))]%string)) ;;
      execute_calls o (S i) rest
        (messages_ ++
           [mkMsg "tool"
              (json_dumps (PyDict [("name", PyStr name); ("result", result_)]%string))])
        (tool_outputs_ ++ [mkToolOutput name result_])
  end.

Definition _node_execute : Node := fun o state =>
  out <- execute_calls o 0 (pending_tool_calls state) (messages state)
           (tool_outputs state) ;;
  Ret {| question := question state; plan := plan state;
         step_index := step_index state;
         tool_outputs := snd out;
         final_answer := final_answer state;
         completed := completed state;
         error := error state;
         messages := fst out;
         pending_tool_calls := [] |}.

Definition _route_from_choose (state : AgentState) : string :=
  if completed state then "end"
  else
    match pending_tool_calls state with
    | _ :: _ => "execute"
    | [] =>
        if step_index state <? Z.of_nat (List.length (plan state))
        then "execute" else "end"
    end.

(** Lines 62 to 74 of [_build_graph]: what is declared to the builder. *)
Definition graph_declarations (lib : Library) : result StateGraph :=
  let graph := new_graph AgentState_keys in
  graph <- add_node lib graph "plan" _node_plan ;;
  graph <- add_node lib graph "choose" _node_choose ;;
  graph <- add_node lib graph "execute" _node_execute ;;
  graph <- add_edge graph "plan" "choose" ;;
  graph <- add_conditional_edges graph "choose" _route_from_choose
             [("execute", "execute"); ("end", END)]%string ;;
  add_edge graph "execute" "choose".

Definition _build_graph (lib : Library) : result CompiledGraph :=
  graph <- graph_declarations lib ;;
  compile graph.

(** [PlannerExecutorApp.__init__]; [new_planner] and [new_llm] are the
    outcomes of [Planner()] and [LLMClient()]. *)
Definition init (lib : Library) (new_planner new_llm : result unit)
  : result PlannerExecutorApp :=
  _ <- new_planner ;;
  _ <- new_llm ;;
  let tools_ := Tools.list_tool_schemas in
  graph_ <- _build_graph lib ;;
  Ret {| tools := tools_; graph := graph_ |}.

(** The state [run] starts from. *)
Definition initial (question_ : string) : AgentState :=
  {| question := question_; plan := []; step_index := 0; tool_outputs := [];
     final_answer := None; completed := false; error := None;
     messages := []; pending_tool_calls := [] |}.

(** What [run] makes of the state the graph ended in. *)
Definition run_result (result_state : AgentState) : RunResult :=
  {| r_final_answer := final_answer result_state;
     r_plan := plan result_state;
     r_tool_outputs := tool_outputs result_state;
     r_error := error result_state |}.

(** [PlannerExecutorApp.run]. *)
Definition run (self : PlannerExecutorApp) (os : nat -> Oracle) (question_ : string)
  : result RunResult :=
  result_state <- invoke (graph self) os (initial question_) ;;
  Ret (run_result result_state).

(** [PlannerExecutorApp().run(question)], as the demo script and the HTTP
    endpoint call it. *)
Definition construct_and_run (lib : Library) (new_planner new_llm : result unit)
  (os : nat -> Oracle) (question_ : string) : result RunResult :=
  app <- init lib new_planner new_llm ;;
  run app os question_.

(** The two nodes of the cycle one after the other, as the edges
    [choose -> execute -> choose] chain them, and [n] such rounds. *)
Definition choose_then_execute (o : Oracle) (state : AgentState) : result AgentState :=
  state1 <- _node_choose o state ;;
  _node_execute o state1.

Fixpoint tool_rounds (n : nat) (o : Oracle) (state : AgentState) : result AgentState :=
  match n with
  | O => Ret state
  | S n' =>
      state' <- choose_then_execute o state ;;
      tool_rounds n' o state'
  end.

End Graph.

(** Stand-ins for concrete runs: a JSON codec that knows three texts, and
    three ways the outside can answer. *)
Definition demo_json_loads (text : string) : result pyval :=
  if String.eqb text "{}" then Ret (PyDict [])
  else if String.eqb text "[1]" then Ret (PyList [PyInt 1])
  else if String.eqb text "[1, 2]" then Ret (PyList [PyInt 1; PyInt 2])
  else Raise (Exc JSONDecodeError "Expecting value: line 1 column 1 (char 0)").

Definition demo_json_dumps (v : pyval) : string :=
  match v with
  | PyInt 1 => "1"
  | PyInt 2 => "2"
  | PyList _ => "[...]"
  | PyDict _ => "{...}"
  | _ => "null"
  end.

Definition no_web (i : nat) (arg : pyval) (limit : Z) : result pyval :=
  Ret (PyList []).

(** The LLM plans one step and then asks for the calculator, every time. *)
Definition insisting : Oracle :=
  {| chat := fun _ => Ret "[1]"%string;
     function_call_chat := fun _ =>
       Ret (mkFcResp (Some "thinking"%string) [BaseQA.calculator_call "{}"]);
     web_search := no_web;
     web_fetch := no_web |}.

(** The LLM plans two steps and answers each one in text. *)
Definition compliant : Oracle :=
  {| chat := fun _ => Ret "[1, 2]"%string;
     function_call_chat := fun _ => Ret (mkFcResp (Some "done"%string) []);
     web_search := no_web;
     web_fetch := no_web |}.


Definition demo_node_plan : Node := _node_plan demo_json_loads demo_json_dumps.

Definition demo_node_choose : Node := _node_choose demo_json_dumps.

Definition demo_node_execute : Node :=
  _node_execute demo_json_loads demo_json_dumps BaseQA.tiny_int BaseQA.tiny_evaluate.

Definition demo_declarations : Library -> result StateGraph :=
  graph_declarations demo_json_loads demo_json_dumps BaseQA.tiny_int BaseQA.tiny_evaluate.

Definition demo_tool_rounds : nat -> Oracle -> AgentState -> result AgentState :=
  tool_rounds demo_json_loads demo_json_dumps BaseQA.tiny_int BaseQA.tiny_evaluate.

(** The state the plan node returns for the question ["q"] and a planner
    text that decodes to [steps]. *)
Definition planned (steps : list pyval) : AgentState :=
  {| question := "q"; plan := steps; step_index := 0; tool_outputs := [];
     final_answer := None; completed := false; error := None;
     messages :=
       [ mkMsg "system" "你是一个执行器。按计划逐步完成任务，必要时调用工具。";
         mkMsg "user" "q";
         mkMsg "system" "当前计划: [...]" ];
     pending_tool_calls := [] |}.

Example plan_node_on_the_initial_state :
  demo_node_plan compliant (initial "q") = Ret (planned [PyInt 1; PyInt 2]) /\
  demo_node_plan insisting (initial "q") = Ret (planned [PyInt 1]).
Proof. split; reflexivity. Qed.

(** With an entry point the same declarations compile, in a release that
    accepts the node names. *)
Example declarations_compile_with_an_entry_point :
  returns (g <- demo_declarations (mkLibrary false) ;;
           g <- set_entry_point g "plan" ;;
           compile g) = true.
Proof. reflexivity. Qed.

Section GraphFacts.

Variable json_loads : string -> result pyval.
Variable json_dumps : pyval -> string.
Variable py_int : pyval -> result Z.
Variable evaluate_expression : pyval -> result pyfloat.
Variable invoke : CompiledGraph -> (nat -> Oracle) -> AgentState -> result AgentState.

Abbreviation declarations :=
  (graph_declarations json_loads json_dumps py_int evaluate_expression).
Abbreviation build := (_build_graph json_loads json_dumps py_int evaluate_expression).
Abbreviation the_init := (init json_loads json_dumps py_int evaluate_expression).
Abbreviation node_plan := (_node_plan json_loads json_dumps).
Abbreviation node_choose := (_node_choose json_dumps).
Abbreviation node_execute := (_node_execute json_loads json_dumps py_int evaluate_expression).
Abbreviation calls_from := (execute_calls json_loads json_dumps py_int evaluate_expression).
Abbreviation the_rounds := (tool_rounds json_loads json_dumps py_int evaluate_expression).
Abbreviation the_program :=
  (construct_and_run json_loads json_dumps py_int evaluate_expression invoke).

Definition plan_len (s : AgentState) : Z := Z.of_nat (List.length (plan s)).

(** ** The routing function *)

Lemma route_cases s :
  _route_from_choose s = "execute"%string \/ _route_from_choose s = "end"%string.
Proof.
  unfold _route_from_choose.
  destruct (completed s); [now right|].
  destruct (pending_tool_calls s); [|now left].
  destruct (_ <? _); [now left | now right].
Qed.

Lemma route_end_iff s :
  _route_from_choose s = "end"%string <->
  completed s = true \/ (pending_tool_calls s = [] /\ plan_len s <= step_index s).
Proof.
  unfold _route_from_choose, plan_len.
  destruct (completed s).
  - split; [now left | reflexivity].
  - destruct (pending_tool_calls s) as [|tc rest].
    + destruct (step_index s <? Z.of_nat (List.length (plan s))) eqn:E.
      * apply Z.ltb_lt in E. split; [discriminate|].
        intros [H|[_ H]]; [discriminate | lia].
      * apply Z.ltb_ge in E. split; [|reflexivity].
        intros _. right. now split.
    + split; [discriminate|]. intros [H|[H _]]; discriminate.
Qed.

(** ** The graph as it is declared, and its compilation *)

Lemma declarations_strict lib :
  reserves_state_keys lib = true ->
  declarations lib
  = Raise (Exc ValueError "'plan' is already being used as a state key").
Proof.
  intros H. unfold graph_declarations, add_node. rewrite H. reflexivity.
Qed.

(** The builder after the seven declarations. *)
Definition declared : StateGraph :=
  {| channels := AgentState_keys;
     nodes := [("plan", node_plan); ("choose", node_choose); ("execute", node_execute)]%string;
     edges := [("plan", "choose"); ("execute", "choose")]%string;
     branches :=
       [("choose", (_route_from_choose, [("execute", "execute"); ("end", END)]))]%string |}.

Lemma declarations_lenient lib :
  reserves_state_keys lib = false -> declarations lib = Ret declared.
Proof.
  intros H. unfold graph_declarations, add_node. rewrite H. reflexivity.
Qed.

Lemma compile_declared : compile declared = Raise no_entry_point.
Proof. reflexivity. Qed.

Lemma build_raises lib : exists e, build lib = Raise e /\ exc_type e = ValueError.
Proof.
  unfold _build_graph. destruct (reserves_state_keys lib) eqn:H.
  - rewrite (declarations_strict lib H). eexists. split; reflexivity.
  - rewrite (declarations_lenient lib H). cbn [bind]. rewrite compile_declared.
    eexists. split; reflexivity.
Qed.

Lemma init_raises lib new_planner new_llm :
  exists e,
    the_init lib new_planner new_llm = Raise e /\
    (new_planner = Ret tt -> new_llm = Ret tt -> exc_type e = ValueError).
Proof.
  unfold init. destruct (build_raises lib) as (e & Hbuild & Hclass).
  destruct new_planner as [[]|e1]; cbn [bind]; [|exists e1; split; [reflexivity | discriminate]].
  destruct new_llm as [[]|e2]; cbn [bind]; [|exists e2; split; [reflexivity | discriminate]].
  rewrite Hbuild. exists e. now split.
Qed.

Lemma program_raises lib new_planner new_llm os q :
  exists e,
    the_program lib new_planner new_llm os q = Raise e /\
    (new_planner = Ret tt -> new_llm = Ret tt -> exc_type e = ValueError).
Proof.
  unfold construct_and_run.
  destruct (init_raises lib new_planner new_llm) as (e & Hinit & Hclass).
  rewrite Hinit. exists e. now split.
Qed.

(** C2. The app declares the three-state machine of the claim: the nodes
    plan, choose and execute, bound to [_node_plan], [_node_choose] and
    [_node_execute]; a fixed edge from plan to choose and one from execute
    back to choose; and from choose the routing function, which answers
    execute or end, and end exactly when the state is completed or nothing
    is pending and the step counter has reached the plan length. But it
    declares no entry point, and it names a node like the state key [plan]:
    [compile] (or already [add_node], in a release that reserves the state
    keys) raises [ValueError], so [_build_graph] never returns the graph and
    the constructor of the app never returns an instance. *)
Theorem graph_is_declared_but_never_compiled :
  forall lib : Library,
    (exists e, build lib = Raise e /\ exc_type e = ValueError) /\
    (forall new_planner new_llm : result unit,
        returns (the_init lib new_planner new_llm) = false) /\
    (reserves_state_keys lib = true ->
     add_node lib (new_graph AgentState_keys) "plan" node_plan
     = Raise (Exc ValueError "'plan' is already being used as a state key") /\
     declarations lib
     = Raise (Exc ValueError "'plan' is already being used as a state key")) /\
    (reserves_state_keys lib = false ->
     exists g,
       declarations lib = Ret g /\
       map fst (nodes g) = ["plan"; "choose"; "execute"]%string /\
       lookup "plan" (nodes g) = Some node_plan /\
       lookup "choose" (nodes g) = Some node_choose /\
       lookup "execute" (nodes g) = Some node_execute /\
       edges g = [("plan", "choose"); ("execute", "choose")]%string /\
       branches g
       = [("choose", (_route_from_choose, [("execute", "execute"); ("end", END)]))]%string /\
       mem START (sources g) = false /\
       compile g = Raise no_entry_point) /\
    forall s : AgentState,
      (_route_from_choose s = "execute"%string \/ _route_from_choose s = "end"%string) /\
      (_route_from_choose s = "end"%string <->
       completed s = true \/
       (pending_tool_calls s = [] /\ plan_len s <= step_index s)).
Proof.
  intros lib. split; [apply build_raises|]. split; [|split; [|split]].
  - intros new_planner new_llm.
    destruct (init_raises lib new_planner new_llm) as (e & He & _). now rewrite He.
  - intros H. split; [|now apply declarations_strict].
    unfold add_node. rewrite H. reflexivity.
  - intros H. exists declared. split; [now apply declarations_lenient|].
    repeat (split; [reflexivity|]). reflexivity.
  - intros s. split; [apply route_cases | apply route_end_iff].
Qed.

(** ** The nodes, one at a time *)

Lemma list_index_in_range (l : list pyval) (i : Z) :
  0 <= i < Z.of_nat (List.length l) ->
  list_index l i = Ret (nth (Z.to_nat i) l PyNone).
Proof.
  intros H. unfold list_index.
  destruct (0 <=? i) eqn:E1; [|apply Z.leb_gt in E1; lia].
  destruct (i <? Z.of_nat (List.length l)) eqn:E2; [|apply Z.ltb_ge in E2; lia].
  reflexivity.
Qed.

Lemma has_tool_calls_cons (r : FcResp) :
  has_tool_calls r = true -> exists tc rest, fc_tool_calls r = tc :: rest.
Proof.
  unfold has_tool_calls. destruct (fc_tool_calls r) as [|tc rest]; [discriminate|].
  eauto.
Qed.

Lemma has_tool_calls_nil (r : FcResp) :
  has_tool_calls r = false <-> fc_tool_calls r = [].
Proof.
  unfold has_tool_calls. destruct (fc_tool_calls r); split; congruence.
Qed.

(** The arguments of a tool call are accepted by [json.loads]. *)
Definition decodable (tc : ToolCall) : Prop :=
  exists args, json_loads (str_or (tc_arguments tc) "{}") = Ret args.

Lemma execute_calls_accounts o calls : forall i messages_ tool_outputs_,
  match calls_from o i calls messages_ tool_outputs_ with
  | Ret out =>
      exists new_messages new_outputs,
        fst out = messages_ ++ new_messages /\
        snd out = tool_outputs_ ++ new_outputs /\
        map to_name new_outputs = map tc_name calls /\
        List.length new_messages = List.length calls /\
        Forall (fun m => role m = "tool"%string) new_messages
  | Raise e =>
      exists tc, In tc calls /\ json_loads (str_or (tc_arguments tc) "{}") = Raise e
  end.
Proof.
  induction calls as [|tc rest IH]; intros i messages_ tool_outputs_.
  - cbn. exists [], []. rewrite !app_nil_r. repeat split. constructor.
  - cbn [execute_calls].
    destruct (json_loads (str_or (tc_arguments tc) "{}")) as [args|e] eqn:Hargs;
      cbn [bind]; [|exists tc; split; [now left | exact Hargs]].
    set (result_ :=
           match try_except (dispatch py_int evaluate_expression o i (tc_name tc) args)
                   (fun exc => Ret (PyDict [("error"%string, PyStr (exc_str exc))]))
           with Ret v => v | Raise _ => PyNone end).
    assert (Htry :
              try_except (dispatch py_int evaluate_expression o i (tc_name tc) args)
                (fun exc => Ret (PyDict [("error"%string, PyStr (exc_str exc))]))
              = Ret result_).
    { unfold result_.
      destruct (dispatch py_int evaluate_expression o i (tc_name tc) args); reflexivity. }
    rewrite Htry. cbn [bind].
    specialize (IH (S i)
                  (messages_ ++
                     [mkMsg "tool"
                        (json_dumps
                           (PyDict [("name"%string, PyStr (tc_name tc));
                                    ("result"%string, result_)]))])
                  (tool_outputs_ ++ [mkToolOutput (tc_name tc) result_])).
    destruct (calls_from o (S i) rest _ _) as [out|e].
    + destruct IH as (new_messages & new_outputs & Hm & Ho & Hnames & Hlen & Hroles).
      eexists (_ :: new_messages), (_ :: new_outputs).
      rewrite Hm, Ho, <- !app_assoc. cbn.
      split; [reflexivity|]. split; [reflexivity|].
      split; [now rewrite Hnames|]. split; [now rewrite Hlen|].
      constructor; [reflexivity | exact Hroles].
    + destruct IH as (tc' & Hin & Hraise). exists tc'. split; [now right | exact Hraise].
Qed.

(** What [_node_execute] keeps: everything but the messages, the tool
    outputs and the pending calls, which it empties. *)
Lemma node_execute_keeps o s :
  match node_execute o s with
  | Ret s' =>
      pending_tool_calls s' = [] /\
      question s' = question s /\ plan s' = plan s /\
      step_index s' = step_index s /\ final_answer s' = final_answer s /\
      completed s' = completed s /\ error s' = error s
  | Raise e =>
      exists tc,
        In tc (pending_tool_calls s) /\
        json_loads (str_or (tc_arguments tc) "{}") = Raise e
  end.
Proof.
  unfold _node_execute.
  pose proof (execute_calls_accounts o (pending_tool_calls s) 0%nat (messages s)
                (tool_outputs s)) as H.
  destruct (calls_from o 0%nat (pending_tool_calls s) (messages s) (tool_outputs s))
    as [out|e]; cbn [bind]; [|exact H].
  cbn. repeat split.
Qed.

(** With nothing pending, [_node_execute] hands the state back as it is. *)
Lemma node_execute_idle o s :
  pending_tool_calls s = [] -> node_execute o s = Ret s.
Proof.
  intros H. unfold _node_execute. rewrite H. cbn [execute_calls bind fst snd].
  destruct s. cbn in *. now subst.
Qed.

(** The messages the tool-selection call is made on. *)
Definition next_messages (s : AgentState) : list Msg :=
  messages s ++
  [current_step_msg json_dumps (nth (Z.to_nat (step_index s)) (plan s) PyNone)].

(** A state as the choose node receives it while the plan is worked on:
    nothing pending, not completed, the counter within the plan. *)
Definition in_loop (s : AgentState) : Prop :=
  pending_tool_calls s = [] /\ completed s = false /\
  0 <= step_index s <= plan_len s.

(** ** Progress through the plan *)

(** C1 (amended). The loop ends by the step counter and by nothing else. On
    a state with nothing pending, not completed and the counter within the
    plan, the choose node returns, keeps the plan, and does one of four
    things: with the plan exhausted it asks for the summary, completes the
    state and is routed to the end; when the tool-selection call fails it
    completes the state and is routed to the end; when the call returns no
    tool calls the counter grows by one, the state is routed to the end
    exactly when the counter has reached the plan length, and the execute
    node hands it back unchanged; when the call returns tool calls the
    counter stays, the state is routed to execute, and the execute node
    either raises, on arguments [json.loads] rejects, or hands back a state
    of the same kind with the same plan and counter. *)
Theorem loop_ends_by_the_step_counter_only :
  forall (o o' : Oracle) (s : AgentState),
    in_loop s ->
    exists s1,
      node_choose o s = Ret s1 /\ plan s1 = plan s /\
      (step_index s = plan_len s /\
       completed s1 = true /\ _route_from_choose s1 = "end"%string
       \/
       step_index s < plan_len s /\
       (exists e, function_call_chat o (next_messages s) = Raise e) /\
       completed s1 = true /\ _route_from_choose s1 = "end"%string
       \/
       step_index s < plan_len s /\
       (exists r, function_call_chat o (next_messages s) = Ret r /\
                  fc_tool_calls r = []) /\
       step_index s1 = step_index s + 1 /\ in_loop s1 /\
       (_route_from_choose s1 = "end"%string <-> step_index s1 = plan_len s1) /\
       node_execute o' s1 = Ret s1
       \/
       step_index s < plan_len s /\
       (exists r, function_call_chat o (next_messages s) = Ret r /\
                  fc_tool_calls r <> [] /\ pending_tool_calls s1 = fc_tool_calls r) /\
       step_index s1 = step_index s /\ _route_from_choose s1 = "execute"%string /\
       match node_execute o' s1 with
       | Ret s2 => in_loop s2 /\ step_index s2 = step_index s /\ plan s2 = plan s
       | Raise e =>
           exists tc,
             In tc (pending_tool_calls s1) /\
             json_loads (str_or (tc_arguments tc) "{}") = Raise e
       end).
Proof.
  intros o o' s (Hpend & Hdone & Hbounds).
  unfold _node_choose. fold (plan_len s).
  destruct (step_index s >=? plan_len s) eqn:E.
  - rewrite Z.geb_leb, Z.leb_le in E.
    destruct (chat o _) as [resp|exc]; eexists; (split; [reflexivity|]);
      (split; [reflexivity|]); left; (split; [lia|]); (split; [reflexivity|]);
      apply route_end_iff; now left.
  - rewrite Z.geb_leb, Z.leb_gt in E.
    rewrite list_index_in_range by (unfold plan_len in E; lia). cbn [bind].
    fold (current_step_msg json_dumps (nth (Z.to_nat (step_index s)) (plan s) PyNone)).
    change (messages s ++
              [current_step_msg json_dumps (nth (Z.to_nat (step_index s)) (plan s) PyNone)])
      with (next_messages s).
    destruct (function_call_chat o (next_messages s)) as [r|exc] eqn:Hfc.
    + destruct (has_tool_calls r) eqn:Htc.
      * destruct (has_tool_calls_cons r Htc) as (tc & rest & Hcalls).
        eexists. split; [reflexivity|]. split; [reflexivity|].
        right; right; right. split; [exact E|].
        split; [exists r; split; [reflexivity|]; split; [congruence | reflexivity]|].
        split; [reflexivity|].
        split; [unfold _route_from_choose; cbn; now rewrite Hdone, Hcalls|].
        match goal with |- match node_execute o' ?s1 with _ => _ end =>
          pose proof (node_execute_keeps o' s1) as Hkeeps;
          destruct (node_execute o' s1) as [s2|exc]; [|exact Hkeeps]
        end.
        cbn in Hkeeps.
        destruct Hkeeps as (Hp2 & _ & Hplan2 & Hidx2 & _ & Hdone2 & _).
        unfold in_loop, plan_len. rewrite Hp2, Hplan2, Hidx2, Hdone2.
        unfold plan_len in *. repeat split; try assumption; lia.
      * apply has_tool_calls_nil in Htc.
        eexists. split; [reflexivity|]. split; [reflexivity|].
        right; right; left. split; [exact E|].
        split; [exists r; now split|]. split; [reflexivity|].
        split; [unfold in_loop, plan_len in *; cbn; repeat split; try assumption; lia|].
        split.
        -- rewrite route_end_iff. unfold plan_len. cbn. rewrite Hdone, Hpend.
           unfold plan_len in *. split.
           ++ intros [H|[_ H]]; [discriminate | lia].
           ++ intros H. right. split; [reflexivity | lia].
        -- apply node_execute_idle. exact Hpend.
    + eexists. split; [reflexivity|]. split; [reflexivity|].
      right; left. split; [exact E|]. split; [now exists exc|].
      split; [reflexivity|]. apply route_end_iff. now left.
Qed.

(** ** The step counter *)

(** A choose step in which the tool-selection call of the LLM returns
    without tool calls. *)
Definition chooses_no_tool (o : Oracle) (s : AgentState) : Prop :=
  step_index s < plan_len s /\
  exists r, function_call_chat o (next_messages s) = Ret r /\ fc_tool_calls r = [].

(** C4. [run] starts from [step_index = 0] and an empty plan; every
    transition of the graph is one of the three nodes, and each keeps
    [0 <= step_index <= len(plan)]: the plan node, to which no declared edge
    leads back, leaves the counter at 0, the choose node adds exactly 1 when
    the LLM returns no tool calls and leaves it unchanged otherwise, and the
    execute node leaves it unchanged; so the counter never decreases. *)
Theorem step_counter_is_the_progress :
  forall (o : Oracle) (q : string) (s : AgentState),
    (step_index (initial q) = 0 /\ plan_len (initial q) = 0) /\
    (forall lib g, declarations lib = Ret g -> ~ In "plan"%string (targets g)) /\
    (exists s',
        node_plan o (initial q) = Ret s' /\
        step_index s' = step_index (initial q) /\
        0 <= step_index s' <= plan_len s') /\
    (exists s',
        node_plan o s = Ret s' /\
        (step_index s' = 0 \/ step_index s' = step_index s /\ plan s' = plan s)) /\
    (0 <= step_index s <= plan_len s ->
     exists s',
       node_choose o s = Ret s' /\
       0 <= step_index s' <= plan_len s' /\
       step_index s <= step_index s' /\
       (chooses_no_tool o s -> step_index s' = step_index s + 1) /\
       (~ chooses_no_tool o s -> step_index s' = step_index s)) /\
    (forall s',
        node_execute o s = Ret s' ->
        step_index s' = step_index s /\ plan s' = plan s).
Proof.
  intros o q s. split; [split; reflexivity|]. split; [|split; [|split; [|split]]].
  - intros lib g Hg. destruct (reserves_state_keys lib) eqn:Hlib.
    + rewrite (declarations_strict lib Hlib) in Hg. discriminate.
    + rewrite (declarations_lenient lib Hlib) in Hg. inversion Hg; subst g.
      cbn. intros [H|[H|[H|[H|[]]]]]; discriminate.
  - unfold _node_plan. cbn [question initial].
    destruct (planner_plan json_loads o q) as [steps|exc]; eexists;
      (split; [reflexivity|]); unfold plan_len; cbn; split; try reflexivity; lia.
  - unfold _node_plan.
    destruct (planner_plan json_loads o (question s)) as [steps|exc]; eexists;
      (split; [reflexivity|]); cbn; [now left | right; now split].
  - intros Hbounds. unfold _node_choose, chooses_no_tool. fold (plan_len s).
    destruct (step_index s >=? plan_len s) eqn:E.
    + rewrite Z.geb_leb, Z.leb_le in E.
      destruct (chat o _) as [resp|exc]; eexists; (split; [reflexivity|]);
        unfold plan_len in *; cbn; (split; [lia|]); (split; [lia|]);
        (split; [intros [Hlt _]; lia | reflexivity]).
    + rewrite Z.geb_leb, Z.leb_gt in E.
      rewrite list_index_in_range by (unfold plan_len in E; lia). cbn [bind].
      change (messages s ++
                [current_step_msg json_dumps (nth (Z.to_nat (step_index s)) (plan s) PyNone)])
        with (next_messages s).
      destruct (function_call_chat o (next_messages s)) as [r|exc] eqn:Hfc.
      * destruct (has_tool_calls r) eqn:Htc; eexists; (split; [reflexivity|]);
          unfold plan_len in *; cbn; (split; [lia|]); (split; [lia|]).
        -- split; [|reflexivity].
           intros (_ & r' & Hr' & Hnil). inversion Hr'; subst r'.
           apply has_tool_calls_nil in Hnil. congruence.
        -- split; [reflexivity|]. intros Hno. exfalso. apply Hno.
           split; [exact E|]. exists r. split; [reflexivity|].
           now apply has_tool_calls_nil.
      * eexists. split; [reflexivity|]. unfold plan_len in *. cbn.
        split; [lia|]. split; [lia|]. split; [|reflexivity].
        intros (_ & r' & Hr' & _). discriminate.
  - intros s' Hs'. pose proof (node_execute_keeps o s) as H. rewrite Hs' in H.
    destruct H as (_ & _ & Hplan & Hidx & _). now split.
Qed.

(** ** Failures of the planner and of the LLM *)


(** An LLM failure in the choose node completes the state with the error
    recorded and no final answer written, and the routing function sends it
    to the end. *)
Lemma choose_failure_is_routed_to_end o s :
  0 <= step_index s ->
  (forall e,
      plan_len s <= step_index s ->
      chat o (messages s ++ [summary_request]) = Raise e ->
      exists s',
        node_choose o s = Ret s' /\ completed s' = true /\
        final_answer s' = final_answer s /\
        error s' = Some ("汇总失败: " ++ exc_str e)%string /\
        _route_from_choose s' = "end"%string) /\
  (forall e,
      step_index s < plan_len s ->
      function_call_chat o (next_messages s) = Raise e ->
      exists s',
        node_choose o s = Ret s' /\ completed s' = true /\
        final_answer s' = final_answer s /\
        error s' = Some ("选择工具失败: " ++ exc_str e)%string /\
        _route_from_choose s' = "end"%string).
Proof.
  intros Hge. unfold _node_choose. fold (plan_len s).
  destruct (step_index s >=? plan_len s) eqn:E.
  - rewrite Z.geb_leb, Z.leb_le in E. split; [|intros e Hlt; lia].
    intros e _ Hchat. rewrite Hchat. eexists. split; [reflexivity|].
    repeat split.
  - rewrite Z.geb_leb, Z.leb_gt in E. split; [intros e Hle; lia|].
    intros e _ Hfc.
    rewrite list_index_in_range by (unfold plan_len in E; lia). cbn [bind].
    change (messages s ++
              [current_step_msg json_dumps (nth (Z.to_nat (step_index s)) (plan s) PyNone)])
      with (next_messages s).
    rewrite Hfc. eexists. split; [reflexivity|]. repeat split.
Qed.


End GraphFacts.

Lemma loop_ends_by_the_step_counter_only_witness :
  pending_tool_calls (planned [PyInt 1; PyInt 2]) = [] /\
  exists s1,
    demo_node_choose compliant (planned [PyInt 1; PyInt 2]) = Ret s1 /\
    plan s1 = [PyInt 1; PyInt 2].
Proof.
  split; [reflexivity|].
  destruct (loop_ends_by_the_step_counter_only demo_json_loads demo_json_dumps
              BaseQA.tiny_int BaseQA.tiny_evaluate compliant compliant
              (planned [PyInt 1; PyInt 2]))
    as (s1 & Hchoose & Hplan & _).
  - unfold in_loop, plan_len. simpl. repeat split; lia.
  - exists s1. split; [exact Hchoose | exact Hplan].
Defined.

(** What holds of every state of the cycle when the LLM keeps asking for a
    tool: the plan has its one step, the counter stays at 0, nothing
    completes. *)
Definition stuck (s : AgentState) : Prop :=
  plan s = [PyInt 1] /\ step_index s = 0 /\ completed s = false /\
  pending_tool_calls s = [].

Lemma stuck_round s :
  stuck s ->
  exists s',
    choose_then_execute demo_json_loads demo_json_dumps BaseQA.tiny_int
      BaseQA.tiny_evaluate insisting s = Ret s' /\
    stuck s'.
Proof.
  destruct s as [q0 plan0 idx outs fa done err msgs pend].
  intros (Hplan & Hidx & Hdone & Hpend). cbn in *. subst.
  eexists. split; [reflexivity|]. repeat split.
Qed.

Lemma stuck_rounds n : forall s,
  stuck s -> exists s', demo_tool_rounds n insisting s = Ret s' /\ stuck s'.
Proof.
  induction n as [|n IH]; intros s Hs.
  - exists s. now split.
  - destruct (stuck_round s Hs) as (s1 & Hround & Hs1).
    destruct (IH s1 Hs1) as (s' & Hrounds & Hs').
    exists s'. split; [|exact Hs'].
    unfold demo_tool_rounds in *. cbn [tool_rounds]. rewrite Hround. exact Hrounds.
Qed.

(** C1 as stated fails: when the tool-selection LLM returns a tool call at
    every choose step of a one-step plan, every round of choose and execute
    hands back a state with the counter at 0, and the choose step that
    follows is routed to execute again, never to the end. (As the app is
    written no round is run at all: constructing it raises.) *)
Lemma tool_calls_at_every_choose_never_reach_end :
  demo_node_plan insisting (initial "q") = Ret (planned [PyInt 1]) /\
  (forall n : nat,
      exists s s1,
        demo_tool_rounds n insisting (planned [PyInt 1]) = Ret s /\
        step_index s = 0 /\ plan s = [PyInt 1] /\
        demo_node_choose insisting s = Ret s1 /\
        _route_from_choose s1 = "execute"%string /\
        _route_from_choose s1 <> "end"%string) /\
  (forall lib invoke,
      exists e,
        construct_and_run demo_json_loads demo_json_dumps BaseQA.tiny_int
          BaseQA.tiny_evaluate invoke lib (Ret tt) (Ret tt) (fun _ => insisting) "q"
        = Raise e /\
        exc_type e = ValueError).
Proof.
  split; [reflexivity|]. split.
  - intros n.
    destruct (stuck_rounds n (planned [PyInt 1])) as (s & Hrounds & Hs);
      [repeat split|].
    destruct s as [q0 plan0 idx outs fa done err msgs pend].
    destruct Hs as (Hplan & Hidx & Hdone & Hpend). cbn in *. subst.
    eexists _, _. split; [exact Hrounds|].
    repeat (split; [reflexivity|]). discriminate.
  - intros lib invoke.
    destruct (program_raises demo_json_loads demo_json_dumps BaseQA.tiny_int
                BaseQA.tiny_evaluate invoke lib (Ret tt) (Ret tt)
                (fun _ => insisting) "q"%string) as (e & He & Hclass).
    exists e. split; [exact He | now apply Hclass].
Qed.

Lemma step_counter_is_the_progress_witness :
  exists s',
    demo_node_choose compliant (planned [PyInt 1; PyInt 2]) = Ret s' /\
    step_index s' = step_index (planned [PyInt 1; PyInt 2]) + 1.
Proof.
  destruct (step_counter_is_the_progress demo_json_loads demo_json_dumps
              BaseQA.tiny_int BaseQA.tiny_evaluate compliant "q"
              (planned [PyInt 1; PyInt 2]))
    as (_ & _ & _ & _ & Hchoose & _).
  destruct Hchoose as (s' & Hs' & _ & _ & Hinc & _).
  - unfold plan_len. simpl. lia.
  - exists s'. split; [exact Hs'|]. apply Hinc.
    split; [unfold plan_len; simpl; lia|].
    exists (mkFcResp (Some "done"%string) []). split; reflexivity.
Defined.


End Executor.

(* ===================================================================== *)
(** * memory.py, further properties                                       *)
(* ===================================================================== *)

Module MemoryExtra.
Import Py Memory.

Section Truncation.

Variable encoding_for_model : string -> result Encoding.
Variable get_encoding : string -> result Encoding.

Abbreviation add := (stm_add encoding_for_model get_encoding).
Abbreviation truncate := (_truncate_if_needed encoding_for_model get_encoding).
Abbreviation enc_of := (select_encoding encoding_for_model get_encoding).

Lemma app_self_nil (A : Type) (d l : list A) : l = d ++ l -> d = [].
Proof.
  intros H. apply (f_equal (@List.length A)) in H. rewrite length_app in H.
  destruct d; [reflexivity | simpl in H; lia].
Qed.

(** Every message the loop dropped was dropped on a count over the budget:
    the loop measured each suffix longer than the one it left. *)
Lemma truncate_loop_minimal enc budget msgs : forall d1 d2,
  msgs = d1 ++ d2 ++ snd (truncate_loop enc budget msgs) ->
  d2 <> [] ->
  exists n,
    tokens_of_messages enc (d2 ++ snd (truncate_loop enc budget msgs)) = Ret n /\
    n > budget.
Proof.
  induction msgs as [|m rest IH]; intros d1 d2 Hsplit Hd2.
  - destruct d1, d2; simpl in Hsplit; congruence.
  - cbn [truncate_loop] in *.
    destruct (tokens_of_messages enc (m :: rest)) as [n|e] eqn:Hn.
    + destruct (n >? budget) eqn:Hover.
      * destruct d1 as [|x d1].
        -- simpl in Hsplit. rewrite <- Hsplit. exists n. split; [exact Hn|].
           now apply Z.gtb_gt.
        -- simpl in Hsplit. injection Hsplit as _ Hrest. now apply (IH d1 d2).
      * exfalso. cbn [snd] in Hsplit. rewrite app_assoc in Hsplit.
        apply app_self_nil in Hsplit. destruct d1, d2; simpl in Hsplit; congruence.
    + exfalso. cbn [snd] in Hsplit. rewrite app_assoc in Hsplit.
      apply app_self_nil in Hsplit. destruct d1, d2; simpl in Hsplit; congruence.
Qed.

(** X1. [add] drops as few of the oldest messages as it can: keeping even one
    more of the dropped messages in front of the retained ones would exceed
    the budget, by the tokenizer's own count. (An [add] on which the
    tokenizer raises before any count is over the budget drops nothing.) *)
Theorem stm_add_drops_no_more_than_needed :
  forall (self : ShortTermMemory) (r c : string) (d1 d2 : list Msg),
    stm_messages self ++ [mkMsg r c]
    = d1 ++ d2 ++ stm_messages (snd (add self r c)) ->
    d2 <> [] ->
    exists enc n,
      enc_of (stm_model self) = Ret enc /\
      tokens_of_messages enc (d2 ++ stm_messages (snd (add self r c))) = Ret n /\
      n > stm_max_tokens self.
Proof.
  intros self r c d1 d2. unfold stm_add, _truncate_if_needed.
  cbn [stm_messages stm_model stm_max_tokens with_messages].
  destruct (enc_of (stm_model self)) as [enc|e];
    cbn [snd stm_messages with_messages]; intros Hsplit Hd2.
  - destruct (truncate_loop_minimal enc (stm_max_tokens self) _ d1 d2 Hsplit Hd2)
      as (n & Hn & Hover).
    now exists enc, n.
  - exfalso. rewrite app_assoc in Hsplit. apply app_self_nil in Hsplit.
    destruct d1, d2; simpl in Hsplit; congruence.
Qed.

Lemma suffix_last (l kept : list Msg) (m : Msg) :
  suffix_of kept (l ++ [m]) -> kept = [] \/ exists front, kept = front ++ [m].
Proof.
  intros [dropped Hd].
  destruct kept as [|k front _] using rev_ind; [now left|]. right.
  rewrite app_assoc in Hd. apply app_inj_tail in Hd. destruct Hd as [_ Hm].
  subst. now exists front.
Qed.

(** X2. After [add], returned or raised, whatever is retained ends with the
    message just added; when the old messages together with the new one fit
    the budget, [add] returns and nothing is dropped; and when no tokenizer
    can be had, [add] raises with the new message appended and nothing
    dropped. *)
Theorem stm_add_keeps_newest :
  forall (self : ShortTermMemory) (r c : string),
    (stm_messages (snd (add self r c)) = [] \/
     exists front, stm_messages (snd (add self r c)) = front ++ [mkMsg r c]) /\
    (forall enc n,
        enc_of (stm_model self) = Ret enc ->
        tokens_of_messages enc (stm_messages self ++ [mkMsg r c]) = Ret n ->
        n <= stm_max_tokens self ->
        add self r c
        = (Ret tt, with_messages self (stm_messages self ++ [mkMsg r c]))) /\
    (forall e,
        enc_of (stm_model self) = Raise e ->
        add self r c
        = (Raise e, with_messages self (stm_messages self ++ [mkMsg r c]))).
Proof.
  intros self r c. split; [|split].
  - apply (suffix_last (stm_messages self)).
    apply (stm_add_suffix encoding_for_model get_encoding self r c (stm_messages self)).
    exists []. reflexivity.
  - intros enc n Henc Hn Hfit. unfold stm_add, _truncate_if_needed.
    cbn [stm_messages stm_model stm_max_tokens with_messages]. rewrite Henc.
    destruct (stm_messages self ++ [mkMsg r c]) as [|m rest] eqn:E; [reflexivity|].
    cbn [truncate_loop]. rewrite Hn.
    destruct (n >? stm_max_tokens self) eqn:Hover;
      [apply Z.gtb_gt in Hover; lia | reflexivity].
  - intros e Henc. unfold stm_add, _truncate_if_needed.
    cbn [stm_messages stm_model stm_max_tokens with_messages]. now rewrite Henc.
Qed.

Lemma truncate_loop_idempotent enc budget msgs :
  truncate_loop enc budget (snd (truncate_loop enc budget msgs))
  = truncate_loop enc budget msgs.
Proof.
  induction msgs as [|m rest IH]; [reflexivity|].
  cbn [truncate_loop].
  destruct (tokens_of_messages enc (m :: rest)) as [n|e] eqn:Hn.
  - destruct (n >? budget) eqn:Hover; [exact IH|].
    cbn [snd truncate_loop]. now rewrite Hn, Hover.
  - cbn [snd truncate_loop]. now rewrite Hn.
Qed.

(** X3. Truncation is stable: running [_truncate_if_needed] on a memory that
    was just truncated changes nothing and ends as the first run did, so a
    message that survived an [add] is only ever dropped by a later [add]. *)
Theorem truncate_is_idempotent :
  forall self : ShortTermMemory, truncate (snd (truncate self)) = truncate self.
Proof.
  intros self. unfold _truncate_if_needed.
  destruct (enc_of (stm_model self)) as [enc|e] eqn:Henc;
    cbn [snd stm_model stm_max_tokens stm_messages with_messages]; rewrite Henc.
  - now rewrite truncate_loop_idempotent.
  - reflexivity.
Qed.

End Truncation.

(** A memory holding one message, with a budget of [budget] tokens. *)
Definition one_hello (budget : Z) : ShortTermMemory :=
  snd (stm_adds byte_encoding_for_model byte_get_encoding
         (stm_init default_settings (Some budget) None) [("u", "hello")]%string).

Lemma stm_add_drops_no_more_than_needed_witness :
  stm_messages
    (snd (stm_add byte_encoding_for_model byte_get_encoding (one_hello 8) "u" "hey"))
  = [mkMsg "u" "hey"] /\
  exists enc n,
    byte_encoding_for_model "gpt-4o-mini" = Ret enc /\
    tokens_of_messages enc [mkMsg "u" "hello"; mkMsg "u" "hey"] = Ret n /\
    n > 8.
Proof.
  split; [reflexivity|].
  apply (stm_add_drops_no_more_than_needed byte_encoding_for_model byte_get_encoding
           (one_hello 8) "u" "hey" [] [mkMsg "u" "hello"]);
    [reflexivity | discriminate].
Defined.

Lemma stm_add_keeps_newest_witness :
  stm_add byte_encoding_for_model byte_get_encoding (one_hello 20) "u" "hey"
  = (Ret tt, mkSTM 20 "gpt-4o-mini" [mkMsg "u" "hello"; mkMsg "u" "hey"]).
Proof.
  apply (stm_add_keeps_newest byte_encoding_for_model byte_get_encoding
           (one_hello 20) "u" "hey") with (enc := byte_encoding) (n := 9);
    [reflexivity | reflexivity | vm_compute; discriminate].
Defined.

Section Store.

Variable vs : VectorStore.

(** X4. [add] calls [persist] exactly when [add_texts] returned: the store
    receives [add_texts] and then [persist], or, when [add_texts] raised,
    [add_texts] alone; and the log gains one record exactly when one of the
    two calls raised. *)
Theorem cvm_add_persists_only_after_write :
  forall (env : Env) (texts : list string) (metadatas : option (list pyval)),
    vs_calls (snd (cvm_add vs texts metadatas env))
    = vs_calls env ++
        AddTexts texts metadatas ::
        (if returns (vs_add_texts vs (vs_calls env) texts metadatas)
         then [Persist] else []) /\
    List.length (error_log (snd (cvm_add vs texts metadatas env)))
    = (List.length (error_log env) +
       (if returns (vs_add_texts vs (vs_calls env) texts metadatas) &&
           returns (vs_persist vs (vs_calls env ++ [AddTexts texts metadatas]))
        then 0 else 1))%nat.
Proof.
  intros env texts metadatas.
  unfold cvm_add, try_exceptM, bindM, call_add_texts, call_persist, logger_error.
  destruct (vs_add_texts vs (vs_calls env) texts metadatas) as [ids|e]; simpl.
  - destruct (vs_persist vs (vs_calls env ++ [AddTexts texts metadatas])) as [u|e];
      simpl; rewrite <- app_assoc; split; try reflexivity;
      rewrite ?length_app; simpl; lia.
  - split; [reflexivity|]. rewrite length_app. simpl. lia.
Qed.

End Store.

End MemoryExtra.

(* ===================================================================== *)
(** * llm.py: the client                                                  *)
(* ===================================================================== *)

Module Client.
Import Py LLM.

(** The parts of an OpenAI chat completion the client reads. *)
Record ChatMessage : Type := mkChatMessage {
  message_content : option string;
  message_tool_calls : option (list ToolCall)
}.

Record Choice : Type := mkChoice { message : ChatMessage }.

Record Completion : Type := mkCompletion { choices : list Choice }.

(** The keyword arguments of [client.chat.completions.create]. *)
Record Request : Type := mkRequest {
  req_model : string;
  req_messages : list Msg;
  req_tools : option (list pyval);
  req_tool_choice : option string;
  req_timeout : Z
}.

Record LLMClient : Type := mkClient {
  api_key : string;
  model : string;
  timeout_seconds : Z
}.

(** [LLMClient.__init__]; [settings] is what [load_settings()] returned. *)
Definition init (settings : Memory.Settings) (api_key_ model_ : option string)
  (timeout_seconds_ : option Z) : LLMClient :=
  {| api_key := str_or api_key_ (Memory.openai_api_key settings);
     model := str_or model_ (Memory.chat_model settings);
     timeout_seconds := int_or timeout_seconds_ (Memory.request_timeout_seconds settings) |}.

Section Calls.

(** [self.client.chat.completions.create]. *)
Variable create : Request -> result Completion.

(** A call returns its outcome and the records it wrote with [logger.error]. *)
Definition chat (self : LLMClient) (messages : list Msg)
  : result string * list string :=
  match create {| req_model := model self; req_messages := messages;
                  req_tools := None; req_tool_choice := None;
                  req_timeout := timeout_seconds self |} with
  | Raise exc =>
      (Raise (Exc RuntimeError "LLM chat 请求失败"),
       [("LLM chat 请求失败: " ++ exc_str exc)%string])
  | Ret resp =>
      let content :=
        match choices resp with
        | c :: _ => message_content (message c)
        | [] => None
        end in
      match content with
      | Some text =>
          if String.eqb text "" then (Raise (Exc RuntimeError "LLM 返回为空"), [])
          else (Ret text, [])
      | None => (Raise (Exc RuntimeError "LLM 返回为空"), [])
      end
  end.

(** [message.tool_calls or []]. *)
Definition tool_calls_or_empty (calls : option (list ToolCall)) : list ToolCall :=
  match calls with
  | Some l => l
  | None => []
  end.

Definition function_call_chat (self : LLMClient) (messages : list Msg)
  (tools : list pyval) : result FcResp * list string :=
  match create {| req_model := model self; req_messages := messages;
                  req_tools := Some tools; req_tool_choice := Some "auto"%string;
                  req_timeout := timeout_seconds self |} with
  | Raise exc =>
      (Raise (Exc RuntimeError "LLM function_call 请求失败"),
       [("LLM function_call 请求失败: " ++ exc_str exc)%string])
  | Ret resp =>
      match choices resp with
      | [] => (Raise (Exc RuntimeError "LLM 返回为空"), [])
      | c :: _ =>
          (Ret {| fc_content := message_content (message c);
                  fc_tool_calls := tool_calls_or_empty (message_tool_calls (message c)) |},
           [])
      end
  end.

(** X5. [chat] never returns an empty string: it returns the content of the
    first choice when that is a non-empty string, and otherwise raises a
    [RuntimeError] (a failed request, no choices, or no content), logging
    only the failed request. *)
Theorem chat_returns_nonempty_or_RuntimeError :
  forall (self : LLMClient) (messages : list Msg),
    match chat self messages with
    | (Ret text, log) =>
        text <> EmptyString /\ log = [] /\
        exists resp c rest,
          create (mkRequest (model self) messages None None (timeout_seconds self))
          = Ret resp /\
          choices resp = c :: rest /\ message_content (message c) = Some text
    | (Raise e, log) =>
        exc_type e = RuntimeError /\
        (returns (create (mkRequest (model self) messages None None (timeout_seconds self)))
         = false /\ exc_str e = "LLM chat 请求失败"%string /\ List.length log = 1%nat
         \/
         returns (create (mkRequest (model self) messages None None (timeout_seconds self)))
         = true /\ exc_str e = "LLM 返回为空"%string /\ log = [])
    end.
Proof.
  intros self messages. unfold chat.
  destruct (create _) as [resp|exc] eqn:Hcreate.
  - destruct (choices resp) as [|c rest] eqn:Hchoices.
    + split; [reflexivity|]. right. repeat split.
    + destruct (message_content (message c)) as [text|] eqn:Hcontent.
      * destruct (String.eqb text "") eqn:Hempty.
        -- split; [reflexivity|]. right. repeat split.
        -- apply String.eqb_neq in Hempty. split; [exact Hempty|].
           split; [reflexivity|]. exists resp, c, rest. repeat split; assumption.
      * split; [reflexivity|]. right. repeat split.
  - split; [reflexivity|]. left. repeat split.
Qed.

(** X6. [function_call_chat] asks with the given tools and [tool_choice =
    "auto"]; when the request returns at least one choice it returns the
    first choice's content unchanged, [None] and the empty string included,
    and its tool calls as a list, [None] becoming the empty list; it raises
    only [RuntimeError]. *)
Theorem function_call_chat_passes_first_choice :
  forall (self : LLMClient) (messages : list Msg) (tools : list pyval),
    match function_call_chat self messages tools with
    | (Ret r, log) =>
        log = [] /\
        exists resp c rest,
          create (mkRequest (model self) messages (Some tools) (Some "auto"%string)
                    (timeout_seconds self)) = Ret resp /\
          choices resp = c :: rest /\
          fc_content r = message_content (message c) /\
          (message_tool_calls (message c) = None -> fc_tool_calls r = []) /\
          (forall l, message_tool_calls (message c) = Some l -> fc_tool_calls r = l)
    | (Raise e, log) =>
        exc_type e = RuntimeError /\
        (exc_str e = "LLM function_call 请求失败"%string \/
         exc_str e = "LLM 返回为空"%string)
    end.
Proof.
  intros self messages tools. unfold function_call_chat.
  destruct (create _) as [resp|exc] eqn:Hcreate.
  - destruct (choices resp) as [|c rest] eqn:Hchoices.
    + split; [reflexivity | now right].
    + split; [reflexivity|]. exists resp, c, rest. cbn [fc_content fc_tool_calls].
      repeat split; try assumption.
      * intros H. now rewrite H.
      * intros l H. now rewrite H.
  - split; [reflexivity | now left].
Qed.

End Calls.

(** An API that answers every request with one choice holding [content] and
    no tool calls. *)
Definition answering (content : option string) (request : Request) : result Completion :=
  Ret (mkCompletion [mkChoice (mkChatMessage content None)]).

Example chat_on_empty_content :
  fst (chat (answering (Some ""%string))
         (init Memory.default_settings None None None) [])
  = Raise (Exc RuntimeError "LLM 返回为空").
Proof. reflexivity. Qed.

Example function_call_chat_on_empty_content :
  fst (function_call_chat (answering None)
         (init Memory.default_settings None None None) [] [])
  = Ret (mkFcResp None []).
Proof. reflexivity. Qed.

End Client.

(* ===================================================================== *)
(** * planner.py and langgraph_app.py, further properties                 *)
(* ===================================================================== *)

Module ExecutorExtra.
Import Py LLM Executor.

Section Facts.

Variable json_loads : string -> result pyval.
Variable json_dumps : pyval -> string.
Variable py_int : pyval -> result Z.
Variable evaluate_expression : pyval -> result pyfloat.

Abbreviation node_plan := (_node_plan json_loads json_dumps).
Abbreviation node_choose := (_node_choose json_dumps).
Abbreviation node_execute := (_node_execute json_loads json_dumps py_int evaluate_expression).
Abbreviation calls_from := (execute_calls json_loads json_dumps py_int evaluate_expression).
Abbreviation calls_account :=
  (execute_calls_accounts json_loads json_dumps py_int evaluate_expression).
Abbreviation len s := (plan_len s).

Definition planner_messages (q : string) : list Msg :=
  [mkMsg "system" planner_system_msg; mkMsg "user" q].

(** X7. [Planner.plan] returns a list exactly when the LLM's text decodes to
    a JSON array, and then returns that array; a failure of the LLM call
    passes through unchanged, and a text that does not decode, or decodes to
    something else, gives a [RuntimeError] that quotes the text. *)
Theorem planner_returns_the_decoded_array :
  forall (o : Oracle) (q : string),
    match planner_plan json_loads o q with
    | Ret steps =>
        exists text,
          chat o (planner_messages q) = Ret text /\
          json_loads text = Ret (PyList steps)
    | Raise e =>
        chat o (planner_messages q) = Raise e \/
        exists text inner,
          chat o (planner_messages q) = Ret text /\
          (forall steps, json_loads text <> Ret (PyList steps)) /\
          e = Exc RuntimeError
                ("Planner 输出不可解析: " ++ inner ++ nl ++ "原始: " ++ text)%string
    end.
Proof.
  intros o q. unfold planner_plan, planner_messages.
  destruct (chat o _) as [text|e] eqn:Hchat; cbn [bind]; [|now left].
  destruct (json_loads text) as [v|e] eqn:Hjson; cbn [bind try_except].
  - destruct v as [| | | | |steps|]; cbn [bind try_except];
      try (right; exists text; eexists; split; [reflexivity|];
           split; [intros steps' H; congruence | reflexivity]).
    exists text. now split.
  - right. exists text, (exc_str e). split; [reflexivity|].
    split; [intros steps H; congruence | reflexivity].
Qed.

(** ** The execute node *)

(** X8. When [_node_execute] returns, it has appended exactly one tool
    message and one [tool_outputs] entry per pending call, in call order and
    under the call's name, after everything that was there, has emptied
    [pending_tool_calls], and has changed nothing else; a tool that raises
    becomes an entry, so the node raises only when [json.loads] rejects the
    arguments of a pending call. *)
Theorem execute_appends_one_entry_per_call :
  forall (o : Oracle) (s : AgentState),
    match node_execute o s with
    | Ret s' =>
        pending_tool_calls s' = [] /\
        question s' = question s /\ plan s' = plan s /\
        step_index s' = step_index s /\ final_answer s' = final_answer s /\
        completed s' = completed s /\ error s' = error s /\
        exists new_messages new_outputs,
          messages s' = messages s ++ new_messages /\
          tool_outputs s' = tool_outputs s ++ new_outputs /\
          map to_name new_outputs = map tc_name (pending_tool_calls s) /\
          List.length new_messages = List.length (pending_tool_calls s) /\
          Forall (fun m => role m = "tool"%string) new_messages
    | Raise e =>
        exists tc,
          In tc (pending_tool_calls s) /\
          json_loads (str_or (tc_arguments tc) "{}") = Raise e
    end.
Proof.
  intros o s. unfold _node_execute.
  pose proof (calls_account o (pending_tool_calls s) 0%nat (messages s)
                (tool_outputs s)) as H.
  destruct (calls_from o 0%nat (pending_tool_calls s) (messages s) (tool_outputs s))
    as [out|e]; cbn [bind]; [|exact H].
  cbn. repeat (split; [reflexivity|]). exact H.
Qed.

(** ** What the nodes keep *)

(** What a node leaves alone, and what it only extends. *)
Definition extends (s s' : AgentState) : Prop :=
  question s' = question s /\
  (exists new, messages s' = messages s ++ new) /\
  (exists new, tool_outputs s' = tool_outputs s ++ new).

Ltac solve_extends :=
  unfold extends; cbn;
  repeat split;
  first [ reflexivity
        | exists []; now rewrite app_nil_r
        | eexists; reflexivity
        | eexists; rewrite <- app_assoc; reflexivity ].

Lemma node_plan_extends o q s' :
  node_plan o (initial q) = Ret s' -> extends (initial q) s'.
Proof.
  unfold _node_plan. destruct (planner_plan json_loads o _); intros H;
    inversion H; subst; solve_extends.
Qed.

Lemma node_choose_extends o s s' :
  node_choose o s = Ret s' -> extends s s' /\ plan s' = plan s.
Proof.
  unfold _node_choose.
  destruct (step_index s >=? _).
  - destruct (chat o _); intros H; inversion H; subst; (split; [solve_extends | reflexivity]).
  - destruct (list_index (plan s) (step_index s)) as [current|e]; cbn [bind];
      [|discriminate].
    destruct (function_call_chat o _) as [r|exc]; [destruct (has_tool_calls r)|];
      intros H; inversion H; subst; (split; [solve_extends | reflexivity]).
Qed.

Lemma node_execute_extends o s s' :
  node_execute o s = Ret s' -> extends s s' /\ plan s' = plan s.
Proof.
  unfold _node_execute.
  pose proof (calls_account o (pending_tool_calls s) 0%nat (messages s)
                (tool_outputs s)) as H.
  destruct (calls_from o 0%nat _ _ _) as [out|e]; cbn [bind]; [|discriminate].
  destruct H as (new_messages & new_outputs & Hm & Ho & _).
  intros Hs'. inversion Hs'; subst. unfold extends. cbn.
  split; [|reflexivity]. split; [reflexivity|]. split; eauto.
Qed.

(** X9. No node rewrites what is there: the choose node and the execute node
    keep the question and the plan and only append to the message list and
    to [tool_outputs]; the plan node keeps the question whatever state it is
    given, and on the state [run] starts from, where both lists are empty,
    it too only appends. *)
Theorem nodes_only_append :
  forall (o : Oracle) (q : string) (s s' : AgentState),
    (node_plan o (initial q) = Ret s' -> extends (initial q) s') /\
    (node_plan o s = Ret s' -> question s' = question s) /\
    (node_choose o s = Ret s' -> extends s s' /\ plan s' = plan s) /\
    (node_execute o s = Ret s' -> extends s s' /\ plan s' = plan s).
Proof.
  intros o q s s'. split; [apply node_plan_extends|].
  split; [|split; [apply node_choose_extends | apply node_execute_extends]].
  unfold _node_plan. destruct (planner_plan json_loads o _); intros H;
    inversion H; reflexivity.
Qed.

(** ** The final answer *)

(** The choose node outside its summary branch leaves the final answer
    alone. *)
Lemma choose_keeps_final_answer o s s' :
  step_index s < len s ->
  node_choose o s = Ret s' -> final_answer s' = final_answer s.
Proof.
  intros Hlt. unfold _node_choose. fold (len s).
  replace (step_index s >=? len s) with false
    by (symmetry; rewrite Z.geb_leb; apply Z.leb_gt; exact Hlt).
  destruct (list_index (plan s) (step_index s)) as [current|e]; cbn [bind];
    [|discriminate].
  destruct (function_call_chat o _) as [r|exc]; [destruct (has_tool_calls r)|];
    intros H; inversion H; reflexivity.
Qed.

(** A state that the choose node returns and the routing function sends on
    to execute has steps left, whether or not the LLM asked for tools. *)
Lemma routed_to_execute_has_steps_left o s s1 :
  pending_tool_calls s = [] ->
  node_choose o s = Ret s1 ->
  _route_from_choose s1 = "execute"%string ->
  step_index s < len s /\ step_index s1 < len s1 /\ completed s1 = false.
Proof.
  intros Hpend. unfold _node_choose. fold (len s).
  destruct (step_index s >=? len s) eqn:E.
  - destruct (chat o _); intros H; inversion H; subst s1; discriminate.
  - rewrite Z.geb_leb, Z.leb_gt in E.
    destruct (list_index (plan s) (step_index s)) as [current|e]; cbn [bind];
      [|discriminate].
    destruct (function_call_chat o _) as [r|exc]; [destruct (has_tool_calls r)|];
      intros H; inversion H; subst s1; clear H;
      unfold _route_from_choose, plan_len in *; cbn; try discriminate.
    + destruct (completed s); [discriminate|]. intros _. repeat split; assumption.
    + rewrite Hpend. destruct (completed s); [discriminate|].
      destruct (step_index s + 1 <? Z.of_nat (List.length (plan s))) eqn:E2;
        [|discriminate].
      apply Z.ltb_lt in E2. intros _. repeat split; assumption.
Qed.

(** X10. A final answer is written only for a plan without steps: the
    summary branch of the choose node, the one place that writes
    [final_answer], is taken only with the step counter at the plan length;
    the choose step that follows a plan node that produced steps does not
    take it; and a state that the routing function sent on to execute comes
    back with steps left, so the choose step after an execute step never
    takes it either. *)
Theorem final_answer_only_for_empty_plan :
  forall (o o1 o2 : Oracle) (q : string) (s : AgentState),
    (forall s',
        node_choose o s = Ret s' -> final_answer s' <> final_answer s ->
        len s <= step_index s /\ completed s' = true) /\
    (forall steps s2,
        planner_plan json_loads o q = Ret steps -> steps <> [] ->
        exists s1,
          node_plan o (initial q) = Ret s1 /\
          (node_choose o1 s1 = Ret s2 -> final_answer s2 = None)) /\
    (forall s1 s2 s3,
        pending_tool_calls s = [] ->
        node_choose o s = Ret s1 ->
        _route_from_choose s1 = "execute"%string ->
        node_execute o1 s1 = Ret s2 ->
        node_choose o2 s2 = Ret s3 ->
        step_index s2 < len s2 /\ final_answer s3 = final_answer s).
Proof.
  intros o o1 o2 q s. split; [|split].
  - intros s' Hs' Hchanged.
    destruct (Z_lt_dec (step_index s) (len s)) as [Hlt|Hge].
    + exfalso. apply Hchanged. now apply (choose_keeps_final_answer o).
    + split; [lia|]. revert Hs'. unfold _node_choose. fold (len s).
      replace (step_index s >=? len s) with true
        by (symmetry; rewrite Z.geb_leb; apply Z.leb_le; lia).
      destruct (chat o _); intros H; inversion H; reflexivity.
  - intros steps s2 Hplan Hne. unfold _node_plan. cbn [question initial].
    rewrite Hplan. eexists. split; [reflexivity|].
    intros Hchoose.
    apply choose_keeps_final_answer in Hchoose; [exact Hchoose|].
    unfold plan_len. cbn. destruct steps; [congruence | cbn; lia].
  - intros s1 s2 s3 Hpend Hs1 Hroute Hs2 Hs3.
    destruct (routed_to_execute_has_steps_left o s s1 Hpend Hs1 Hroute)
      as (Hlt & Hlt1 & _).
    pose proof (node_execute_keeps json_loads json_dumps py_int evaluate_expression
                  o1 s1) as Hkeeps.
    rewrite Hs2 in Hkeeps.
    destruct Hkeeps as (_ & _ & Hplan2 & Hidx2 & Hfa2 & _).
    assert (Hlt2 : step_index s2 < len s2)
      by (unfold plan_len in *; rewrite Hidx2, Hplan2; exact Hlt1).
    split; [exact Hlt2|].
    rewrite (choose_keeps_final_answer o2 s2 s3 Hlt2 Hs3), Hfa2.
    now apply (choose_keeps_final_answer o s s1).
Qed.

(** ** Rounds in which the LLM never asks for a tool *)

Lemma text_only_choose o s :
  in_loop s -> step_index s < len s ->
  (forall messages_,
      exists r, function_call_chat o messages_ = Ret r /\ fc_tool_calls r = []) ->
  exists s1,
    node_choose o s = Ret s1 /\ in_loop s1 /\
    step_index s1 = step_index s + 1 /\
    plan s1 = plan s /\ tool_outputs s1 = tool_outputs s /\
    (_route_from_choose s1 = "end"%string <-> step_index s1 = len s1).
Proof.
  intros (Hpend & Hdone & Hbounds) Hlt Htext.
  unfold _node_choose. fold (len s).
  replace (step_index s >=? len s) with false
    by (symmetry; rewrite Z.geb_leb; apply Z.leb_gt; exact Hlt).
  rewrite list_index_in_range by (unfold plan_len in Hlt; lia). cbn [bind].
  destruct (Htext (messages s ++
                     [current_step_msg json_dumps
                        (nth (Z.to_nat (step_index s)) (plan s) PyNone)]))
    as (r & Hfc & Hnil).
  rewrite Hfc. apply has_tool_calls_nil in Hnil. rewrite Hnil.
  eexists. split; [reflexivity|].
  split; [unfold in_loop, plan_len in *; cbn; repeat split; try assumption; lia|].
  split; [reflexivity|]. split; [reflexivity|]. split; [reflexivity|].
  rewrite (route_end_iff). unfold plan_len in *. cbn. rewrite Hdone, Hpend. split.
  - intros [H|[_ H]]; [discriminate | lia].
  - intros H. right. split; [reflexivity | lia].
Qed.

(** X11. With an LLM that answers every tool-selection call in text, each
    round of choose and execute advances the step counter by one and leaves
    the plan and [tool_outputs] alone, and a choose step is routed to the end
    exactly when it has advanced the counter to the plan length: from a
    state with [k] steps left, that is the [k]-th choose step. *)
Theorem text_only_rounds_advance_the_counter :
  forall (o : Oracle) (s : AgentState) (n : nat),
    in_loop s ->
    (forall messages_,
        exists r, function_call_chat o messages_ = Ret r /\ fc_tool_calls r = []) ->
    step_index s + Z.of_nat n < len s ->
    exists s' s1,
      tool_rounds json_loads json_dumps py_int evaluate_expression n o s = Ret s' /\
      step_index s' = step_index s + Z.of_nat n /\
      plan s' = plan s /\ tool_outputs s' = tool_outputs s /\
      node_choose o s' = Ret s1 /\
      step_index s1 = step_index s + Z.of_nat n + 1 /\
      (_route_from_choose s1 = "end"%string <-> step_index s1 = len s).
Proof.
  intros o s n Hloop Htext. revert s Hloop.
  induction n as [|n IH]; intros s Hloop Hlt.
  - destruct (text_only_choose o s Hloop) as (s1 & Hs1 & _ & Hidx & Hplan & _ & Hroute);
      [lia | exact Htext |].
    exists s, s1. cbn [tool_rounds]. rewrite Z.add_0_r.
    repeat (split; [reflexivity|]). split; [exact Hs1|]. split; [exact Hidx|].
    unfold plan_len in *. now rewrite <- Hplan.
  - destruct (text_only_choose o s Hloop) as (s1 & Hs1 & Hloop1 & Hidx & Hplan & Hout & _);
      [lia | exact Htext |].
    destruct (IH s1 Hloop1) as (s' & s2 & Hrounds & Hidx' & Hplan' & Hout' & Hs2 & Hidx2 & Hroute).
    { unfold plan_len in *. rewrite Hidx, Hplan. lia. }
    exists s', s2. cbn [tool_rounds]. unfold choose_then_execute. rewrite Hs1. cbn [bind].
    rewrite (node_execute_idle json_loads json_dumps py_int evaluate_expression o s1)
      by apply Hloop1.
    cbn [bind]. split; [exact Hrounds|].
    split; [lia|]. split; [congruence|]. split; [congruence|].
    split; [exact Hs2|]. split; [lia|].
    unfold plan_len in *. now rewrite <- Hplan.
Qed.

End Facts.

Lemma text_only_rounds_advance_the_counter_witness :
  exists s' s1,
    demo_tool_rounds 1 compliant (planned [PyInt 1; PyInt 2]) = Ret s' /\
    demo_node_choose compliant s' = Ret s1 /\
    step_index s1 = 2 /\
    _route_from_choose s1 = "end"%string.
Proof.
  destruct (text_only_rounds_advance_the_counter demo_json_loads demo_json_dumps
              BaseQA.tiny_int BaseQA.tiny_evaluate compliant
              (planned [PyInt 1; PyInt 2]) 1)
    as (s' & s1 & Hrounds & _ & _ & _ & Hchoose & Hidx & Hroute).
  - unfold in_loop, plan_len. simpl. repeat split; lia.
  - intros messages_. exists (mkFcResp (Some "done"%string) []). now split.
  - unfold plan_len. simpl. lia.
  - exists s', s1. split; [exact Hrounds|]. split; [exact Hchoose|].
    split; [exact Hidx|]. apply Hroute. rewrite Hidx. reflexivity.
Defined.

End ExecutorExtra.

(* ===================================================================== *)
(** * tools/calculator.py, further properties                             *)
(* ===================================================================== *)

Module CalculatorExtra.
Import Py Calculator.

(** The expressions the calculator is meant to accept: int, float and bool
    constants under [+], [-], [*], [/], [**] and unary minus. *)
Fixpoint arithmetic_only (n : node) : bool :=
  match n with
  | Constant (CInt _) | Constant (CFloat _) | Constant (CBool _) => true
  | Constant _ => false
  | BinOp l (Add | Sub | Mult | Div | Pow) r => arithmetic_only l && arithmetic_only r
  | BinOp _ _ _ => false
  | UnaryOp USub e => arithmetic_only e
  | UnaryOp _ _ => false
  | Expr v => arithmetic_only v
  | Unsupported _ => false
  end.

Section Whitelist.

Variable ast_parse : string -> result Expression.
Variable float_of_int : Z -> result pyfloat.
Variable binary : callable -> num -> num -> result num.
Variable unary : callable -> num -> result num.

Abbreviation eval := (_eval float_of_int binary unary).
Abbreviation evaluate := (evaluate_expression ast_parse float_of_int binary unary).

Lemma eval_arithmetic_only (n : node) :
  forall v, eval n = Ret v -> arithmetic_only n = true.
Proof.
  induction n as [c | l IHl o r IHr | u e IHe | v IHv | name]; intros x Hx.
  - destruct c; cbn in Hx; try discriminate; reflexivity.
  - cbn [_eval] in Hx.
    destruct (_OPS (BinOpClass o)) as [f|] eqn:Hop; [|discriminate].
    destruct (eval l) as [a|e] eqn:Hl; cbn [bind] in Hx; [|discriminate].
    destruct (eval r) as [b|e] eqn:Hr; cbn [bind] in Hx; [|discriminate].
    cbn [arithmetic_only]. rewrite (IHl a eq_refl), (IHr b eq_refl).
    destruct o; try discriminate; reflexivity.
  - cbn [_eval] in Hx.
    destruct (_OPS (UnaryOpClass u)) as [f|] eqn:Hop; [|discriminate].
    destruct (eval e) as [a|e'] eqn:He; cbn [bind] in Hx; [|discriminate].
    cbn [arithmetic_only]. rewrite (IHe a eq_refl).
    destruct u; try discriminate; reflexivity.
  - cbn [_eval] in Hx. cbn [arithmetic_only]. now apply (IHv x).
  - discriminate.
Qed.

(** X12. The calculator evaluates nothing but arithmetic: whenever
    [evaluate_expression] returns a number, the parsed expression consists
    only of int, float and bool constants combined by [+], [-], [*], [/],
    [**] and unary minus; names, calls, strings, complex literals and every
    other operator, anywhere in the expression, make it raise. *)
Theorem evaluate_expression_accepts_only_arithmetic :
  forall (expression : string) (f : pyfloat),
    evaluate expression = Ret f ->
    exists tree,
      ast_parse expression = Ret tree /\ arithmetic_only (body tree) = true.
Proof.
  intros expression f H. unfold evaluate_expression, evaluate_body in H.
  destruct (ast_parse expression) as [tree|e]; cbn [bind try_except] in H;
    [|discriminate].
  exists tree. split; [reflexivity|].
  destruct (eval (body tree)) as [x|e] eqn:Hx; cbn [bind try_except] in H;
    [|discriminate].
  now apply (eval_arithmetic_only _ x).
Qed.

End Whitelist.

Lemma evaluate_expression_accepts_only_arithmetic_witness :
  exists tree,
    small_parse "(12 + 5) * 3" = Ret tree /\ arithmetic_only (body tree) = true.
Proof.
  apply (evaluate_expression_accepts_only_arithmetic small_parse small_float_of_int
           small_binary small_unary "(12 + 5) * 3" (Float 51)).
  reflexivity.
Defined.

End CalculatorExtra.

(* ===================================================================== *)
(** * web/actions.py and web/agent.py, further properties                 *)
(* ===================================================================== *)

Module WebExtra.
Import Py Web.

(** The checks [execute_action] makes before it touches the browser: the
    type is one it knows and the argument it requires is present and
    truthy. *)
Definition passes_validation (action : Action) : bool :=
  let t := get action "type" PyNone in
  if eq_str t "goto" then truthy (get action "url" PyNone)
  else if eq_str t "wait_for_selector" then truthy (get action "selector" PyNone)
  else if eq_str t "fill" then truthy (get action "selector" PyNone)
  else if eq_str t "click" then truthy (get action "selector" PyNone)
  else if eq_str t "extract_text" then truthy (get action "selector" PyNone)
  else if eq_str t "screenshot" then true
  else false.

Section Validation.

Variable B : Type.
Variable browser : BrowserManager B.
Variable py_str : pyval -> string.

Lemma rejected_action (action : Action) (b : B) :
  passes_validation action = false ->
  exists msg, execute_action browser py_str action b = (Raise (Exc ValueError msg), b).
Proof.
  unfold passes_validation, execute_action.
  destruct (eq_str (get action "type" PyNone) "goto");
    [intros H; rewrite H; cbn; eauto|].
  destruct (eq_str (get action "type" PyNone) "wait_for_selector");
    [intros H; rewrite H; cbn; eauto|].
  destruct (eq_str (get action "type" PyNone) "fill");
    [intros H; rewrite H; cbn; eauto|].
  destruct (eq_str (get action "type" PyNone) "click");
    [intros H; rewrite H; cbn; eauto|].
  destruct (eq_str (get action "type" PyNone) "extract_text");
    [intros H; rewrite H; cbn; eauto|].
  destruct (eq_str (get action "type" PyNone) "screenshot"); [discriminate|].
  eauto.
Qed.

(** X13. Steps that fail validation (an unknown type, or a missing or empty
    [url] or [selector]) never reach the browser: each of them yields a
    [ValueError] entry in [errors], none yields a result, and the loop leaves
    the browser exactly as it found it. *)
Theorem rejected_steps_leave_browser_alone :
  forall (steps : list Action) (i : Z) (rs : list StepResult) (es : list string) (b : B),
    Forall (fun action => passes_validation action = false) steps ->
    snd (run_loop browser py_str steps i rs es b) = b /\
    fst (fst (run_loop browser py_str steps i rs es b)) = rs /\
    List.length (snd (fst (run_loop browser py_str steps i rs es b)))
    = (List.length es + List.length steps)%nat.
Proof.
  induction steps as [|action rest IH]; intros i rs es b Hall.
  - cbn. repeat split. lia.
  - inversion Hall as [|a l Hbad Hrest]; subst.
    destruct (rejected_action action b Hbad) as [msg Hexec].
    cbn [run_loop]. rewrite Hexec.
    destruct (IH (i + 1) rs (es ++ [error_entry py_str i action (Exc ValueError msg)]) b Hrest)
      as (Hb & Hr & He).
    rewrite Hb, Hr, He, length_app. cbn. repeat split. lia.
Qed.

End Validation.

Lemma rejected_steps_leave_browser_alone_witness :
  snd (run_loop log_browser digit_str
         [ [("type", PyStr "goto")]; [("type", PyStr "scroll")];
           [("type", PyStr "click"); ("selector", PyStr "")] ]%string
         0 [] [] [PyStr "https://example.org"])
  = [PyStr "https://example.org"].
Proof.
  apply (rejected_steps_leave_browser_alone (list pyval) log_browser digit_str).
  repeat constructor.
Defined.

End WebExtra.

(* ===================================================================== *)
(** * web/browser.py                                                      *)
(* ===================================================================== *)

Module Browser.
Import Py Web.

(** The calls [BrowserManager] makes on Playwright. *)
Inductive PwCall : Type :=
| PwStart
| Launch (headless_ : bool)
| NewContext
| NewPage
| BrowserClose
| PwStop
| PageGoto (url : pyval) (wait_until : string) (timeout : Z)
| PageClick (selector : pyval) (timeout : Z)
| PageFill (selector text : pyval) (timeout : Z)
| PageWaitForSelector (selector : pyval) (timeout : Z)
| QuerySelectorAll (selector : pyval)
| PageScreenshot (path : string) (full_page : bool).

(** Playwright: whether a call returns, given the calls served before; and,
    for [query_selector_all], the elements found, each with what reading its
    [inner_text()] gives. *)
Record Playwright : Type := mkPlaywright {
  outcome : list PwCall -> PwCall -> result unit;
  elements : list PwCall -> pyval -> list (result string)
}.

(** A [BrowserManager]: which of [_pw], [browser] and [page] are set, the
    calls made on Playwright so far, and the records written with
    [logger.info]. *)
Record Manager : Type := mkManager {
  pw_set : bool;
  browser_set : bool;
  page_set : bool;
  headless : bool;
  screenshots_dir : string;
  pw_calls : list PwCall;
  info_log : list string
}.

(** The manager [__init__] leaves behind. *)
Definition fresh (headless_ : bool) (screenshots_dir_ : option string) : Manager :=
  {| pw_set := false; browser_set := false; page_set := false;
     headless := headless_;
     screenshots_dir := str_or screenshots_dir_ "artifacts/web";
     pw_calls := []; info_log := [] |}.

(** The exception of a failed [assert self.page is not None, "浏览器未启动"]
    (an [AssertionError]). *)
Definition not_started : exc := Exc OtherError "浏览器未启动".

Section Methods.

Variable pw : Playwright.

(** [str.strip], [Path.__truediv__] followed by [str], and [str(v)]. *)
Variable strip : string -> string.
Variable path_join : string -> string -> string.
Variable py_str : pyval -> string.

Definition with_call (c : PwCall) (m : Manager) : Manager :=
  {| pw_set := pw_set m; browser_set := browser_set m; page_set := page_set m;
     headless := headless m; screenshots_dir := screenshots_dir m;
     pw_calls := pw_calls m ++ [c]; info_log := info_log m |}.

(** One call on Playwright. *)
Definition call (c : PwCall) (m : Manager) : result unit * Manager :=
  (outcome pw (pw_calls m) c, with_call c m).

Definition set_pw (m : Manager) : Manager :=
  {| pw_set := true; browser_set := browser_set m; page_set := page_set m;
     headless := headless m; screenshots_dir := screenshots_dir m;
     pw_calls := pw_calls m; info_log := info_log m |}.

Definition set_browser (m : Manager) : Manager :=
  {| pw_set := pw_set m; browser_set := true; page_set := page_set m;
     headless := headless m; screenshots_dir := screenshots_dir m;
     pw_calls := pw_calls m; info_log := info_log m |}.

Definition set_page (m : Manager) : Manager :=
  {| pw_set := pw_set m; browser_set := browser_set m; page_set := true;
     headless := headless m; screenshots_dir := screenshots_dir m;
     pw_calls := pw_calls m; info_log := info_log m |}.

Definition logger_info (record : string) (m : Manager) : Manager :=
  {| pw_set := pw_set m; browser_set := browser_set m; page_set := page_set m;
     headless := headless m; screenshots_dir := screenshots_dir m;
     pw_calls := pw_calls m; info_log := info_log m ++ [record] |}.

(** [BrowserManager.start]. *)
Definition start_ (m : Manager) : result unit * Manager :=
  match call PwStart m with
  | (Raise e, m1) => (Raise e, m1)
  | (Ret _, m1) =>
      match call (Launch (headless m)) (set_pw m1) with
      | (Raise e, m2) => (Raise e, m2)
      | (Ret _, m2) =>
          match call NewContext (set_browser m2) with
          | (Raise e, m3) => (Raise e, m3)
          | (Ret _, m3) =>
              match call NewPage m3 with
              | (Raise e, m4) => (Raise e, m4)
              | (Ret _, m4) =>
                  (Ret tt,
                   logger_info
                     ("浏览器已启动(headless=" ++ py_str (PyBool (headless m)) ++ ")")%string
                     (set_page m4))
              end
          end
      end
  end.

(** [BrowserManager.stop]: the [finally] block runs whatever the [try] did;
    an exception of the [finally] block replaces the one of the [try]. *)
Definition stop_ (m : Manager) : result unit * Manager :=
  let tried := if browser_set m then call BrowserClose m else (Ret tt, m) in
  let finished :=
    if pw_set (snd tried) then call PwStop (snd tried) else (Ret tt, snd tried) in
  match fst finished, fst tried with
  | Raise e, _ => (Raise e, snd finished)
  | Ret _, Raise e => (Raise e, snd finished)
  | Ret _, Ret _ => (Ret tt, logger_info "浏览器已关闭" (snd finished))
  end.

(** A page method: the assertion, then one call. *)
Definition on_page (c : PwCall) (m : Manager) : result unit * Manager :=
  if page_set m then call c m else (Raise not_started, m).

Definition goto_ (url : pyval) : Manager -> result unit * Manager :=
  on_page (PageGoto url "load" 15000).

Definition click_ (selector : pyval) : Manager -> result unit * Manager :=
  on_page (PageClick selector 15000).

Definition fill_ (selector text : pyval) : Manager -> result unit * Manager :=
  on_page (PageFill selector text 15000).

Definition wait_for_selector_ (selector : pyval) : Manager -> result unit * Manager :=
  on_page (PageWaitForSelector selector 15000).

(** [[e.inner_text() for e in elements]]: the first element that cannot be
    read ends the comprehension. *)
Fixpoint inner_texts (found : list (result string)) : result (list string) :=
  match found with
  | [] => Ret []
  | Ret t :: rest => texts <- inner_texts rest ;; Ret (t :: texts)
  | Raise e :: _ => Raise e
  end.

Definition extract_text_ (selector : pyval) (m : Manager) : result string * Manager :=
  if page_set m then
    match call (QuerySelectorAll selector) m with
    | (Raise e, m1) => (Raise e, m1)
    | (Ret _, m1) =>
        match inner_texts (elements pw (pw_calls m) selector) with
        | Raise e => (Raise e, m1)
        | Ret texts => (Ret (strip (String.concat nl texts)), m1)
        end
    end
  else (Raise not_started, m).

Definition screenshot_ (name : pyval) (m : Manager) : result string * Manager :=
  if page_set m then
    let file_path := path_join (screenshots_dir m) (py_str name ++ ".png")%string in
    match call (PageScreenshot file_path true) m with
    | (Raise e, m1) => (Raise e, m1)
    | (Ret _, m1) => (Ret file_path, m1)
    end
  else (Raise not_started, m).

(** The manager as [WebAgent] and [execute_action] use it. *)
Definition manager : BrowserManager Manager :=
  {| start := start_; stop := stop_; goto := goto_;
     wait_for_selector := wait_for_selector_; fill := fill_; click := click_;
     extract_text := extract_text_; screenshot := screenshot_ |}.

End Methods.

(** A Playwright for concrete runs: every call returns, except launching the
    browser when [launches] is false; pages hold one heading. *)
Definition toy_playwright (launches : bool) : Playwright :=
  {| outcome := fun _ c =>
       match c with
       | Launch _ =>
           if launches then Ret tt
           else Raise (Exc OtherError "Executable doesn't exist")
       | _ => Ret tt
       end;
     elements := fun _ _ => [Ret "Example Domain"%string] |}.

Definition toy_manager (launches : bool) : BrowserManager Manager :=
  manager (toy_playwright launches) (fun t => t)
    (fun dir name => (dir ++ "/" ++ name)%string) digit_str.

Example toy_run_calls :
  pw_calls (snd (run (toy_manager true) digit_str
                   [ [("type", PyStr "goto"); ("url", PyStr "https://example.org")];
                     [("type", PyStr "extract_text"); ("selector", PyStr "h1")] ]%string
                   (fresh true None)))
  = [ PwStart; Launch true; NewContext; NewPage;
      PageGoto (PyStr "https://example.org") "load" 15000;
      QuerySelectorAll (PyStr "h1");
      BrowserClose; PwStop ].
Proof. reflexivity. Qed.

Section MethodFacts.

Variable pw : Playwright.
Variable strip : string -> string.
Variable path_join : string -> string -> string.
Variable py_str : pyval -> string.

Abbreviation the_manager := (manager pw strip path_join py_str).
Abbreviation the_start := (start_ pw py_str).
Abbreviation the_stop := (stop_ pw).
Abbreviation act := (execute_action the_manager py_str).

(** X14. Before [start] has created the page, no action reaches Playwright:
    [execute_action] raises, for a valid action the failed assertion of the
    page method, and the manager is left unchanged, its call record
    included. *)
Theorem no_action_before_start :
  forall (m : Manager) (action : Action),
    page_set m = false ->
    exists e, act action m = (Raise e, m).
Proof.
  intros m action Hpage. unfold execute_action.
  cbn [goto wait_for_selector fill click extract_text screenshot manager].
  unfold goto_, wait_for_selector_, fill_, click_, extract_text_, screenshot_, on_page.
  rewrite Hpage.
  repeat match goal with
         | |- context [if ?b then _ else _] => destruct b
         end; cbn; eauto.
Qed.

(** The calls [stop] attempts. *)
Definition stop_calls (m : Manager) : list PwCall :=
  (if browser_set m then [BrowserClose] else []) ++
  (if pw_set m then [PwStop] else []).

Lemma stop_always_stops_playwright_calls (m : Manager) :
  pw_calls (snd (the_stop m)) = pw_calls m ++ stop_calls m.
Proof.
  unfold stop_, stop_calls, call.
  destruct (browser_set m) eqn:Hb; destruct (pw_set m) eqn:Hp;
    cbn [fst snd pw_set with_call pw_calls]; rewrite ?Hp; cbn [fst snd];
    repeat match goal with
           | |- context [outcome pw ?h ?c] => destruct (outcome pw h c)
           end;
    cbn; rewrite <- ?app_assoc, ?app_nil_r; reflexivity.
Qed.

(** X15. [stop] stops Playwright whenever it was started, whether or not
    closing the browser raised: it makes exactly the calls [close] (if a
    browser is set) and then [stop] (if Playwright is set), and it returns,
    logging the shutdown, exactly when every call it made returned. *)
Theorem stop_always_stops_playwright :
  forall m : Manager,
    pw_calls (snd (the_stop m)) = pw_calls m ++ stop_calls m /\
    (returns (fst (the_stop m)) = true <->
     (browser_set m = true -> returns (outcome pw (pw_calls m) BrowserClose) = true) /\
     (pw_set m = true ->
      returns (outcome pw (pw_calls m ++ (if browser_set m then [BrowserClose] else []))
                 PwStop) = true)) /\
    (returns (fst (the_stop m)) = true ->
     info_log (snd (the_stop m)) = info_log m ++ ["浏览器已关闭"%string]).
Proof.
  intros m. split; [apply stop_always_stops_playwright_calls|].
  unfold stop_, call.
  destruct (browser_set m) eqn:Hb; destruct (pw_set m) eqn:Hp;
    cbn [fst snd pw_set with_call pw_calls]; rewrite ?Hp; cbn [fst snd];
    rewrite ?app_nil_r;
    repeat match goal with
           | |- context [outcome pw ?h ?c] => destruct (outcome pw h c)
           end;
    cbn;
    (split;
     [ split;
       [ intros H; try discriminate H; split; intros; try reflexivity; try discriminate
       | intros [H1 H2]; try reflexivity;
         try (specialize (H1 eq_refl); discriminate H1);
         try (specialize (H2 eq_refl); discriminate H2) ]
     | intros H; try discriminate H; reflexivity ]).
Qed.

(** ** Clean-up in [WebAgent.run] *)

(** What actions keep: Playwright and the browser stay set, and the call
    record only grows. *)
Definition keeps (m m' : Manager) : Prop :=
  pw_set m' = pw_set m /\ browser_set m' = browser_set m /\
  exists new, pw_calls m' = pw_calls m ++ new.

Lemma keeps_refl m : keeps m m.
Proof. repeat split. exists []. now rewrite app_nil_r. Qed.

Lemma keeps_trans m1 m2 m3 : keeps m1 m2 -> keeps m2 m3 -> keeps m1 m3.
Proof.
  intros (Hp & Hb & n1 & H1) (Hp' & Hb' & n2 & H2).
  repeat split; try congruence. exists (n1 ++ n2). now rewrite H2, H1, app_assoc.
Qed.

Lemma keeps_call c m : keeps m (snd (call pw c m)).
Proof. repeat split. now exists [c]. Qed.

Lemma keeps_on_page c m : keeps m (snd (on_page pw c m)).
Proof.
  unfold on_page. destruct (page_set m); [apply keeps_call | apply keeps_refl].
Qed.

Lemma keeps_then_empty (r : result unit * Manager) m :
  keeps m (snd r) -> keeps m (snd (then_empty Manager r)).
Proof. destruct r as [[u|e] m']; exact (fun H => H). Qed.

Lemma keeps_action action m : keeps m (snd (act action m)).
Proof.
  unfold execute_action.
  cbn [goto wait_for_selector fill click extract_text screenshot manager].
  repeat match goal with
         | |- context [if ?b then _ else _] => destruct b
         end;
    try apply keeps_refl;
    try (apply keeps_then_empty; apply keeps_on_page).
  - unfold extract_text_. destruct (page_set m); [|apply keeps_refl].
    pose proof (keeps_call (QuerySelectorAll (get action "selector" PyNone)) m) as H.
    destruct (call pw _ m) as [[u|e] m1]; [|exact H].
    destruct (inner_texts _); exact H.
  - unfold screenshot_. destruct (page_set m); [|apply keeps_refl].
    match goal with
    | |- context [call pw ?c m] =>
        pose proof (keeps_call c m) as H; destruct (call pw c m) as [[u|e] m1]; exact H
    end.
Qed.

Lemma keeps_run_loop steps : forall i rs es m,
  keeps m (snd (run_loop the_manager py_str steps i rs es m)).
Proof.
  induction steps as [|action rest IH]; intros i rs es m; cbn [run_loop].
  - apply keeps_refl.
  - pose proof (keeps_action action m) as H.
    destruct (act action m) as [[out|e] m1]; cbn [snd] in H;
      (eapply keeps_trans; [exact H | apply IH]).
Qed.

Lemma start_returns m :
  returns (fst (the_start m)) = true ->
  pw_set (snd (the_start m)) = true /\
  browser_set (snd (the_start m)) = true /\
  page_set (snd (the_start m)) = true /\
  pw_calls (snd (the_start m))
  = pw_calls m ++ [PwStart; Launch (headless m); NewContext; NewPage].
Proof.
  unfold start_, call. cbn [with_call set_pw set_browser pw_calls headless fst snd].
  destruct (outcome pw (pw_calls m) PwStart); [|discriminate].
  destruct (outcome pw (pw_calls m ++ [PwStart]) (Launch (headless m))); [|discriminate].
  destruct (outcome pw ((pw_calls m ++ [PwStart]) ++ [Launch (headless m)]) NewContext);
    [|discriminate].
  destruct (outcome pw _ NewPage); [|discriminate].
  intros _. cbn. rewrite <- !app_assoc. repeat split.
Qed.

(** X16. Once [start] has returned, [WebAgent.run] always shuts down: after
    the calls of the start-up and of the steps, whatever the steps did, the
    last two calls on Playwright are closing the browser and stopping
    Playwright. *)
Theorem run_cleans_up_after_start :
  forall (steps : list Action) (m : Manager),
    returns (fst (the_start m)) = true ->
    exists during,
      pw_calls (snd (run the_manager py_str steps m))
      = pw_calls m ++ [PwStart; Launch (headless m); NewContext; NewPage] ++
        during ++ [BrowserClose; PwStop].
Proof.
  intros steps m Hstart.
  destruct (start_returns m Hstart) as (Hpw & Hbrowser & _ & Hcalls).
  unfold run. cbn [start stop manager].
  destruct (the_start m) as [[u|e] m1]; [|discriminate]. cbn [fst snd] in *.
  pose proof (keeps_run_loop steps 0 [] [] m1) as (Hpw2 & Hbrowser2 & during & Hduring).
  destruct (run_loop the_manager py_str steps 0 [] [] m1) as [[rs es] m2].
  cbn [snd] in *.
  pose proof (stop_always_stops_playwright_calls m2) as Hstop.
  exists during.
  assert (Hfinal : pw_calls (snd (the_stop m2)) = pw_calls m2 ++ [BrowserClose; PwStop]).
  { rewrite Hstop. unfold stop_calls. rewrite Hpw2, Hbrowser2, Hpw, Hbrowser. reflexivity. }
  destruct (the_stop m2) as [[u'|e] m3]; cbn [snd] in *;
    rewrite Hfinal, Hduring, Hcalls, <- !app_assoc; reflexivity.
Qed.

(** X17. When launching the browser fails after Playwright has started,
    [run] raises that exception and never stops Playwright: [start] stands
    outside the [try ... finally], so the call record ends with the failed
    launch although [_pw] is set. *)
Theorem failed_launch_leaves_playwright_running :
  forall (steps : list Action) (m : Manager) (e : exc),
    outcome pw (pw_calls m) PwStart = Ret tt ->
    outcome pw (pw_calls m ++ [PwStart]) (Launch (headless m)) = Raise e ->
    fst (run the_manager py_str steps m) = Raise e /\
    pw_set (snd (run the_manager py_str steps m)) = true /\
    pw_calls (snd (run the_manager py_str steps m))
    = pw_calls m ++ [PwStart; Launch (headless m)].
Proof.
  intros steps m e Hstart Hlaunch.
  unfold run. cbn [start stop manager]. unfold start_, call.
  cbn [with_call set_pw pw_calls headless]. rewrite Hstart, Hlaunch.
  cbn. rewrite <- app_assoc. repeat split.
Qed.

End MethodFacts.

Definition visit : list Action :=
  [ [("type", PyStr "goto"); ("url", PyStr "https://example.org")] ]%string.

Lemma no_action_before_start_witness :
  exists e,
    execute_action (toy_manager true) digit_str
      [("type", PyStr "goto"); ("url", PyStr "https://example.org")]%string
      (fresh true None)
    = (Raise e, fresh true None).
Proof.
  apply (no_action_before_start (toy_playwright true) (fun t => t)
           (fun dir name => (dir ++ "/" ++ name)%string) digit_str (fresh true None)).
  reflexivity.
Defined.

Lemma run_cleans_up_after_start_witness :
  exists during,
    pw_calls (snd (run (toy_manager true) digit_str visit (fresh true None)))
    = [] ++ [PwStart; Launch true; NewContext; NewPage] ++ during ++ [BrowserClose; PwStop].
Proof.
  apply (run_cleans_up_after_start (toy_playwright true) (fun t => t)
           (fun dir name => (dir ++ "/" ++ name)%string) digit_str visit
           (fresh true None)).
  reflexivity.
Defined.

Lemma failed_launch_leaves_playwright_running_witness :
  fst (run (toy_manager false) digit_str visit (fresh true None))
  = Raise (Exc OtherError "Executable doesn't exist") /\
  pw_set (snd (run (toy_manager false) digit_str visit (fresh true None))) = true /\
  pw_calls (snd (run (toy_manager false) digit_str visit (fresh true None)))
  = [] ++ [PwStart; Launch true].
Proof.
  apply (failed_launch_leaves_playwright_running (toy_playwright false) (fun t => t)
           (fun dir name => (dir ++ "/" ++ name)%string) digit_str visit
           (fresh true None));
    reflexivity.
Defined.

End Browser.

(* ===================================================================== *)
(** * tools/__init__.py, tools/web_search.py, tools/web_fetch.py          *)
(* ===================================================================== *)
(** * agents/base_qa.py, further properties                               *)
(* ===================================================================== *)

Module BaseQAExtra.
Import Py LLM BaseQA.

Section Facts.

Variable encoding_for_model : string -> result Memory.Encoding.
Variable get_encoding : string -> result Memory.Encoding.
Variable function_call_chat : nat -> list Msg -> result FcResp.
Variable json_loads : string -> result pyval.
Variable json_dumps : pyval -> string.
Variable py_int : pyval -> result Z.
Variable strip : string -> string.
Variable evaluate_expression : pyval -> result pyfloat.
Variable web_search : pyval -> Z -> result pyval.

Abbreviation the_loop :=
  (tool_loop function_call_chat json_loads json_dumps py_int strip
     evaluate_expression web_search).
Abbreviation the_ask :=
  (ask encoding_for_model get_encoding function_call_chat json_loads json_dumps
     py_int strip evaluate_expression web_search).
Abbreviation the_calls :=
  (handle_tool_calls json_loads json_dumps py_int evaluate_expression web_search).
Abbreviation the_tool := (run_tool json_dumps py_int evaluate_expression web_search).
Abbreviation the_recall := (recall encoding_for_model get_encoding).
Abbreviation the_prepare := (prepare encoding_for_model get_encoding).
Abbreviation add := (Memory.stm_add encoding_for_model get_encoding).
Abbreviation built := (prompt_built encoding_for_model get_encoding).
Abbreviation after_prepare :=
  (ask_after_prepare encoding_for_model get_encoding function_call_chat json_loads
     json_dumps py_int strip evaluate_expression web_search).

(** The metadata [ask] stores with a final answer. *)
Definition answer_metadata : option (list pyval) :=
  Some [PyDict [("source", PyStr "final_answer")]%string].

(** The calls the vector store has received beyond those in [w]. *)
Definition store_calls_since (w w' : World) (new : list Memory.VsCall) : Prop :=
  Memory.vs_calls (mem_env w') = Memory.vs_calls (mem_env w) ++ new.

(** The retrieval step searches the store once, when there is one, and
    writes at most one system message, whether or not that [add] returns. *)
Lemma recall_calls self question m w :
  llm_rounds (snd (the_recall self question m w)) = llm_rounds w /\
  store_calls_since w (snd (the_recall self question m w))
    (match vmem self with
     | Some _ => [Memory.SimilaritySearch question 3]
     | None => []
     end) /\
  (vmem self = None -> snd (the_recall self question m w) = w) /\
  (snd (fst (the_recall self question m w)) = m /\
   fst (fst (the_recall self question m w)) = Ret tt
   \/
   exists text,
     fst (the_recall self question m w) = add m "system" text).
Proof.
  unfold recall, store_calls_since. destruct (vmem self) as [vs|].
  - unfold Memory.cvm_search, Memory.call_similarity_search.
    destruct (Memory.vs_similarity_search vs _ question 3) as [docs|e]; cbn.
    + destruct (Memory.collect_hits docs) as [|hit hits] eqn:Hhits; cbn.
      * repeat split; [discriminate | left; now split].
      * repeat split; [discriminate | right; eauto].
    + repeat split; [discriminate | left; now split].
  - cbn. rewrite app_nil_r. repeat split. left; now split.
Qed.

(** Once the prompt is written, the store has been searched once, when there
    is one, and nothing else outside the agent has changed. *)
Lemma prepare_calls self question w messages self' w' :
  the_prepare self question w = (Ret messages, self', w') ->
  llm_rounds w' = llm_rounds w /\
  store_calls_since w w'
    (match vmem self with
     | Some _ => [Memory.SimilaritySearch question 3]
     | None => []
     end) /\
  (vmem self = None -> w' = w) /\
  vmem self' = vmem self.
Proof.
  unfold prepare.
  destruct (add (stm self) _ _) as [[u|e] m0]; [|discriminate].
  destruct (add m0 _ _) as [[u'|e] m1]; [|discriminate].
  destruct (recall_calls self question m1 w) as (Hr & Hc & Hs & _).
  destruct (the_recall self question m1 w) as [[[u''|e] m2] w1]; [|discriminate].
  intros H. inversion H; subst. cbn in *. repeat split; assumption.
Qed.

Lemma remember_calls self answer w :
  llm_rounds (remember self answer w) = llm_rounds w /\
  match vmem self with
  | None => remember self answer w = w
  | Some _ =>
      exists rest,
        store_calls_since w (remember self answer w)
          (Memory.AddTexts [answer] answer_metadata :: rest) /\
        (rest = [] \/ rest = [Memory.Persist])
  end.
Proof.
  unfold remember, store_calls_since. destruct (vmem self) as [vs|].
  - split; [reflexivity|]. cbn [mem_env].
    unfold Memory.cvm_add, Memory.try_exceptM, Memory.bindM, Memory.call_add_texts,
      Memory.call_persist, Memory.logger_error.
    destruct (Memory.vs_add_texts vs _ [answer] _) as [ids|e]; cbn.
    + exists [Memory.Persist]. split; [|now right].
      destruct (Memory.vs_persist vs _); cbn; now rewrite <- app_assoc.
    + exists []. split; [reflexivity | now left].
  - split; reflexivity.
Qed.

(** X20. When the prompt is written, the first round answers in text and the
    text is not blank, [ask] returns the stripped text after that single
    round and, if the vector memory is enabled, has searched the store once
    for the question and then written exactly this answer to it, tagged as a
    final answer; a failure of that write does not change the answer. *)
Theorem direct_answer_is_returned_and_stored :
  forall (self : BaseQAAgent) (question : string) (w : World) (r : FcResp),
    1 <= max_tool_steps self ->
    (forall messages, function_call_chat (llm_rounds w) messages = Ret r) ->
    has_tool_calls r = false ->
    strip (str_or (fc_content r) "") <> ""%string ->
    built self question w ->
    fst (fst (the_ask self question w)) = Ret (Some (strip (str_or (fc_content r) ""))) /\
    llm_rounds (snd (the_ask self question w)) = S (llm_rounds w) /\
    match vmem self with
    | None => mem_env (snd (the_ask self question w)) = mem_env w
    | Some _ =>
        exists rest,
          store_calls_since w (snd (the_ask self question w))
            (Memory.SimilaritySearch question 3 ::
             Memory.AddTexts [strip (str_or (fc_content r) "")] answer_metadata :: rest) /\
          (rest = [] \/ rest = [Memory.Persist])
    end.
Proof.
  intros self question w r Hsteps Hfc Htext Hanswer Hbuilt.
  destruct (prompt_built_inv _ _ self question w Hbuilt)
    as (messages & self' & w1 & Hprepare & _).
  destruct (prepare_calls _ _ _ _ _ _ Hprepare) as (Hrounds & Hcalls & Hsame & Hvmem).
  rewrite (after_prepare _ _ _ _ _ _ Hprepare).
  destruct (Z.to_nat (max_tool_steps self)) as [|k] eqn:Hk; [lia|].
  cbn [tool_loop]. rewrite Hrounds, Hfc, Htext.
  apply String.eqb_neq in Hanswer. rewrite Hanswer. cbn [fst snd].
  split; [reflexivity|].
  destruct (remember_calls self' (strip (str_or (fc_content r) "")) (served_round w1))
    as [Hr Hstore].
  split; [rewrite Hr; cbn; now rewrite Hrounds|].
  unfold store_calls_since in *. rewrite Hvmem in Hstore.
  destruct (vmem self) as [vs|].
  - destruct Hstore as (rest & Hadd & Hrest). exists rest. split; [|exact Hrest].
    rewrite Hadd. cbn [mem_env served_round]. rewrite Hcalls, <- app_assoc. reflexivity.
  - rewrite Hstore. cbn [mem_env served_round]. now rewrite (Hsame eq_refl).
Qed.

(** X21. When the prompt is written, the first round answers in text and the
    text is blank (no content, or nothing left after stripping), [ask] raises
    the [RuntimeError] for a missing answer after that single round, and
    writes nothing to the vector memory: at most the search has reached the
    store. *)
Theorem blank_answer_raises_and_stores_nothing :
  forall (self : BaseQAAgent) (question : string) (w : World) (r : FcResp),
    1 <= max_tool_steps self ->
    (forall messages, function_call_chat (llm_rounds w) messages = Ret r) ->
    has_tool_calls r = false ->
    strip (str_or (fc_content r) "") = ""%string ->
    built self question w ->
    fst (fst (the_ask self question w)) = Raise (Exc RuntimeError "LLM 未返回有效答案") /\
    llm_rounds (snd (the_ask self question w)) = S (llm_rounds w) /\
    store_calls_since w (snd (the_ask self question w))
      (match vmem self with
       | Some _ => [Memory.SimilaritySearch question 3]
       | None => []
       end).
Proof.
  intros self question w r Hsteps Hfc Htext Hanswer Hbuilt.
  destruct (prompt_built_inv _ _ self question w Hbuilt)
    as (messages & self' & w1 & Hprepare & _).
  destruct (prepare_calls _ _ _ _ _ _ Hprepare) as (Hrounds & Hcalls & _).
  rewrite (after_prepare _ _ _ _ _ _ Hprepare).
  destruct (Z.to_nat (max_tool_steps self)) as [|k] eqn:Hk; [lia|].
  cbn [tool_loop]. rewrite Hrounds, Hfc, Htext, Hanswer. cbn.
  split; [reflexivity|]. split; [now rewrite Hrounds | exact Hcalls].
Qed.

(** The messages of the prompt, before the memories found. *)
Definition prompt_head (question : string) : list Msg :=
  [mkMsg "system" system_context; mkMsg "user" question].

(** X22. [ask] writes nothing but its prompt into the short-term memory, in
    order: the system context, the question and, when memories were found,
    one system message with them. What the agent holds afterwards is a suffix
    of what it held followed by the part of the prompt that was written: all
    of it when every [add] returned, and the part up to and including the
    message on which [add] raised otherwise. The answer and the tool messages
    of the conversation are never kept. *)
Theorem ask_keeps_only_prompt_messages :
  forall (self : BaseQAAgent) (question : string) (w : World),
    exists recalled written rest,
      (recalled = [] \/ exists text, recalled = [mkMsg "system" text]) /\
      prompt_head question ++ recalled = written ++ rest /\
      Memory.suffix_of
        (Memory.stm_messages (stm (snd (fst (the_ask self question w)))))
        (Memory.stm_messages (stm self) ++ written) /\
      (built self question w -> rest = []).
Proof.
  intros self question w.
  assert (Hprep :
            exists recalled written rest,
              (recalled = [] \/ exists text, recalled = [mkMsg "system" text]) /\
              prompt_head question ++ recalled = written ++ rest /\
              Memory.suffix_of
                (Memory.stm_messages (stm (snd (fst (the_prepare self question w)))))
                (Memory.stm_messages (stm self) ++ written) /\
              (built self question w -> rest = [])).
  { unfold prompt_built, prepare, prompt_head.
    pose proof (Memory.stm_add_suffix encoding_for_model get_encoding (stm self)
                  "system" system_context (Memory.stm_messages (stm self))) as H0.
    destruct (add (stm self) "system" system_context) as [[u|e] m0]; cbn [snd] in H0.
    - pose proof (Memory.stm_add_suffix encoding_for_model get_encoding m0
                    "user" question _ (H0 (ex_intro _ [] eq_refl))) as H1.
      rewrite <- app_assoc in H1. cbn [app] in H1.
      destruct (add m0 "user" question) as [[u'|e] m1]; cbn [snd] in H1.
      + destruct (recall_calls self question m1 w) as (_ & _ & _ & Hm2).
        pose proof (fun text =>
                      Memory.stm_add_suffix encoding_for_model get_encoding m1
                        "system" text _ H1) as H2.
        destruct Hm2 as [[Hsame Hret] | [text Hadd]].
        * exists [], (prompt_head question), []. rewrite !app_nil_r.
          split; [now left|]. split; [reflexivity|].
          destruct (the_recall self question m1 w) as [[out m2] w1].
          cbn in Hsame, Hret. subst m2 out. cbn. split; [exact H1 | reflexivity].
        * specialize (H2 text). rewrite <- app_assoc in H2. cbn [app] in H2.
          exists [mkMsg "system" text], (prompt_head question ++ [mkMsg "system" text]), [].
          rewrite !app_nil_r. split; [right; eauto|]. split; [reflexivity|].
          destruct (the_recall self question m1 w) as [[out m2] w1].
          cbn in Hadd. rewrite <- Hadd in H2. cbn in H2.
          destruct out; cbn; (split; [exact H2 | reflexivity]).
      + exists [], (prompt_head question), []. rewrite !app_nil_r.
        split; [now left|]. split; [reflexivity|]. cbn.
        split; [exact H1 | reflexivity].
    - exists [], [mkMsg "system" system_context], [mkMsg "user" question]. cbn.
      split; [now left|]. split; [reflexivity|].
      split; [apply H0; now exists [] | intros [messages Hm]; discriminate]. }
  destruct Hprep as (recalled & written & rest & Hrec & Hsplit & Hsuffix & Hbuilt).
  exists recalled, written, rest. split; [exact Hrec|]. split; [exact Hsplit|].
  split; [|exact Hbuilt].
  unfold ask. destruct (the_prepare self question w) as [[[messages|e] self'] w1];
    cbn [fst snd] in *; [|exact Hsuffix].
  destruct (the_loop _ _ _ _ _) as [answer w2]. exact Hsuffix.
Qed.

Lemma handle_tool_calls_accounts tool_calls : forall messages,
  match the_calls tool_calls messages with
  | Ret messages' =>
      exists new,
        messages' = messages ++ new /\
        List.length new = List.length tool_calls /\
        Forall (fun m => role m = "tool"%string) new
  | Raise e =>
      exists tc,
        In tc tool_calls /\ json_loads (str_or (tc_arguments tc) "{}") = Raise e
  end.
Proof.
  induction tool_calls as [|tc rest IH]; intros messages.
  - cbn. exists []. rewrite app_nil_r. repeat split. constructor.
  - cbn [handle_tool_calls]. unfold handle_tool_call.
    destruct (json_loads (str_or (tc_arguments tc) "{}")) as [args|e] eqn:Hargs;
      cbn [bind]; [|exists tc; split; [now left | exact Hargs]].
    assert (Htry :
              exists msg,
                try_except (the_tool (tc_name tc) args)
                  (fun exc =>
                     Ret (tool_message json_dumps
                            (PyDict [("name"%string, PyStr (tc_name tc));
                                     ("error"%string, PyStr (exc_str exc))])))
                = Ret msg /\ role msg = "tool"%string).
    { unfold run_tool, tool_message.
      destruct (String.eqb (tc_name tc) "evaluate_expression").
      - destruct (dict_get args "expression" (PyStr "")) as [e1|x]; cbn; eauto.
        destruct (evaluate_expression e1); cbn; eauto.
      - destruct (String.eqb (tc_name tc) "web_search"); [|cbn; eauto].
        destruct (dict_get args "query" (PyStr "")) as [q1|x]; cbn; eauto.
        destruct (dict_get args "max_results" (PyInt 5)) as [m1|x]; cbn; eauto.
        destruct (py_int (py_or m1 (PyInt 5))) as [n1|x]; cbn; eauto.
        destruct (web_search q1 n1); cbn; eauto. }
    destruct Htry as (msg & Hmsg & Hrole). rewrite Hmsg. cbn [bind].
    specialize (IH (messages ++ [msg])).
    destruct (the_calls rest (messages ++ [msg])) as [messages'|e].
    + destruct IH as (new & Hnew & Hlen & Hroles).
      exists (msg :: new). rewrite Hnew, <- app_assoc. cbn.
      split; [reflexivity|]. split; [now rewrite Hlen|].
      constructor; assumption.
    + destruct IH as (tc' & Hin & Hraise). exists tc'. split; [now right | exact Hraise].
Qed.

(** X23. Executing the tool calls of a round appends exactly one tool
    message per call, in call order, after the messages already there; a
    tool that raises, an unknown tool, or arguments of the wrong shape each
    become such a message, so the only exception that can leave the loop is
    the one [json.loads] raises on some call's arguments. *)
Theorem tool_calls_append_one_message_each :
  forall (tool_calls : list ToolCall) (messages : list Msg),
    match the_calls tool_calls messages with
    | Ret messages' =>
        exists new,
          messages' = messages ++ new /\
          List.length new = List.length tool_calls /\
          Forall (fun m => role m = "tool"%string) new
    | Raise e =>
        exists tc,
          In tc tool_calls /\ json_loads (str_or (tc_arguments tc) "{}") = Raise e
    end.
Proof. intros tool_calls messages. apply handle_tool_calls_accounts. Qed.

(** X24. The agent runs two tools only: for every other tool name no tool
    is invoked and the message written back says the tool is unknown. This
    includes [web_fetch], although [list_tool_schemas], which [ask] sends to
    the LLM, offers it. *)
Theorem only_two_tools_are_run :
  (forall (name : string) (args : pyval),
      name <> "evaluate_expression"%string -> name <> "web_search"%string ->
      the_tool name args
      = Ret (tool_message json_dumps
               (PyDict [("name", PyStr name); ("error", PyStr "未知工具")]%string))) /\
  map Tools.schema_name Tools.list_tool_schemas
  = [Some "evaluate_expression"; Some "web_search"; Some "web_fetch"]%string /\
  forall args : pyval,
    the_tool "web_fetch" args
    = Ret (tool_message json_dumps
             (PyDict [("name", PyStr "web_fetch"); ("error", PyStr "未知工具")]%string)).
Proof.
  split; [|split; [reflexivity | reflexivity]].
  intros name args H1 H2. unfold run_tool.
  apply String.eqb_neq in H1, H2. now rewrite H1, H2.
Qed.

End Facts.

(** An LLM that answers every round with [content] and no tool call, and an
    agent with a vector memory. *)
Definition answering (content : option string) (n : nat) (messages : list Msg)
  : result FcResp :=
  Ret (mkFcResp content []).

Definition remembering_agent : BaseQAAgent :=
  mkAgent (Memory.stm_init Memory.default_settings None None)
    (Some Memory.list_store) 3.

Definition plain_ask (content : option string) :=
  ask Memory.byte_encoding_for_model Memory.byte_get_encoding (answering content)
    tiny_json_loads tiny_json_dumps tiny_int (fun t => t) tiny_evaluate
    tiny_web_search remembering_agent "1+1?" fresh_world.

Lemma direct_answer_is_returned_and_stored_witness :
  fst (fst (plain_ask (Some "2"%string))) = Ret (Some "2"%string) /\
  Memory.vs_calls (mem_env (snd (plain_ask (Some "2"%string))))
  = [ Memory.SimilaritySearch "1+1?" 3;
      Memory.AddTexts ["2"%string] answer_metadata;
      Memory.Persist ].
Proof.
  destruct (direct_answer_is_returned_and_stored Memory.byte_encoding_for_model
              Memory.byte_get_encoding (answering (Some "2"%string)) tiny_json_loads
              tiny_json_dumps tiny_int (fun t => t) tiny_evaluate tiny_web_search
              remembering_agent "1+1?" fresh_world (mkFcResp (Some "2"%string) []))
    as (Hanswer & _ & _).
  - simpl. lia.
  - reflexivity.
  - reflexivity.
  - discriminate.
  - eexists; reflexivity.
  - split; [exact Hanswer | reflexivity].
Defined.

Lemma blank_answer_raises_and_stores_nothing_witness :
  fst (fst (plain_ask None)) = Raise (Exc RuntimeError "LLM 未返回有效答案") /\
  Memory.vs_calls (mem_env (snd (plain_ask None))) = [Memory.SimilaritySearch "1+1?" 3].
Proof.
  destruct (blank_answer_raises_and_stores_nothing Memory.byte_encoding_for_model
              Memory.byte_get_encoding (answering None) tiny_json_loads
              tiny_json_dumps tiny_int (fun t => t) tiny_evaluate tiny_web_search
              remembering_agent "1+1?" fresh_world (mkFcResp None []))
    as (Hraise & _ & Hcalls).
  - simpl. lia.
  - reflexivity.
  - reflexivity.
  - reflexivity.
  - eexists; reflexivity.
  - split; [exact Hraise | exact Hcalls].
Defined.

(** A question the tokenizer refuses: [ask] raises before any round, and the
    agent is left holding the system context and the question. *)
Example ask_on_a_special_token :
  ask Memory.guarded_encoding_for_model Memory.guarded_get_encoding
    (answering (Some "2"%string)) tiny_json_loads tiny_json_dumps tiny_int
    (fun t => t) tiny_evaluate tiny_web_search (fresh_agent 3) "<|endoftext|>"
    fresh_world
  = (Raise (Exc ValueError "Encountered text corresponding to disallowed special token '<|endoftext|>'."),
     with_stm (fresh_agent 3)
       (Memory.mkSTM 4000 "gpt-4o-mini"
          [mkMsg "system" system_context; mkMsg "user" "<|endoftext|>"]),
     fresh_world).
Proof. reflexivity. Qed.

End BaseQAExtra.

(* ===================================================================== *)
(** * research/pdf_parser.py: chunk_text                                  *)
(* ===================================================================== *)

Module Research.
Import Py Tools.

(** The [while cursor < len(text)] loop of [chunk_text], given [fuel]
    iterations: [None] when they do not suffice. The text is the sequence of
    its characters. *)
Fixpoint chunk_loop (fuel : nat) (text : pystr) (max_chars cursor : Z)
  (chunks : list pystr) : option (list pystr) :=
  match fuel with
  | O => None
  | S fuel' =>
      if cursor <? py_len text then
        let end_ := Z.min (cursor + max_chars) (py_len text) in
        chunk_loop fuel' text max_chars end_ (chunks ++ [slice text cursor end_])
      else Some chunks
  end.

(** [chunk_text]; [max_chars] defaults to 4000. *)
Definition chunk_text (fuel : nat) (text : pystr) (max_chars : Z)
  : option (list pystr) :=
  chunk_loop fuel text max_chars 0 [].

Example chunk_text_three :
  chunk_text 10 (ascii_text "abcdefgh") 3
  = Some [ascii_text "abc"; ascii_text "def"; ascii_text "gh"].
Proof. reflexivity. Qed.

(** Two Chinese characters in chunks of one: two chunks of one character. *)
Example chunk_text_counts_characters :
  chunk_text 10 [20320%N; 22909%N] 1 = Some [[20320%N]; [22909%N]].
Proof. reflexivity. Qed.

Lemma slice_inside (A : Type) (s : list A) (a b : Z) :
  0 <= a <= b -> b <= py_len s ->
  slice s a b = firstn (Z.to_nat (b - a)) (skipn (Z.to_nat a) s).
Proof.
  intros Hab Hb. unfold slice, clamp.
  destruct (a <? 0) eqn:Ea; [apply Z.ltb_lt in Ea; lia|].
  destruct (b <? 0) eqn:Eb; [apply Z.ltb_lt in Eb; lia|].
  now rewrite !Z.min_l by lia.
Qed.

Section Chunks.

Variable text : pystr.
Variable max_chars : Z.

Hypothesis positive : 0 < max_chars.

Abbreviation len := (py_len text).

(** The number of chunks for [n] remaining characters. *)
Definition chunks_for (n : Z) : Z := (n + max_chars - 1) / max_chars.

Lemma chunks_for_step (n : Z) :
  0 < n ->
  chunks_for n = 1 + chunks_for (n - Z.min max_chars n).
Proof.
  intros Hn. unfold chunks_for.
  destruct (Z.le_ge_cases max_chars n) as [Hle|Hge].
  - rewrite Z.min_l by lia.
    replace (n + max_chars - 1) with ((n - max_chars + max_chars - 1) + 1 * max_chars)
      by lia.
    rewrite Z.div_add by lia. lia.
  - rewrite Z.min_r by lia.
    replace (n - n + max_chars - 1) with (max_chars - 1) by lia.
    rewrite (Z.div_small (max_chars - 1)) by lia.
    symmetry. rewrite Z.add_0_r.
    apply (Z.div_unique _ _ 1 (n - 1)); lia.
Qed.

Lemma chunk_loop_returns (fuel : nat) : forall cursor chunks,
  0 <= cursor <= len ->
  (Z.to_nat (len - cursor) < fuel)%nat ->
  exists rest,
    chunk_loop fuel text max_chars cursor chunks = Some (chunks ++ rest) /\
    List.concat rest = skipn (Z.to_nat cursor) text /\
    Forall (fun c => 1 <= py_len c <= max_chars) rest /\
    Z.of_nat (List.length rest) = chunks_for (len - cursor).
Proof.
  induction fuel as [|fuel IH]; intros cursor chunks Hcursor Hfuel; [lia|].
  cbn [chunk_loop].
  destruct (cursor <? len) eqn:E.
  - apply Z.ltb_lt in E.
    set (end_ := Z.min (cursor + max_chars) len).
    assert (Hend : cursor < end_ <= len) by (unfold end_; lia).
    destruct (IH end_ (chunks ++ [slice text cursor end_]))
      as (rest & Hloop & Hcat & Hall & Hcount); [lia | lia |].
    exists (slice text cursor end_ :: rest).
    rewrite Hloop, <- app_assoc. split; [reflexivity|].
    rewrite slice_inside in * by lia.
    split; [|split].
    + cbn [List.concat]. rewrite Hcat.
      replace (Z.to_nat end_) with (Z.to_nat (end_ - cursor) + Z.to_nat cursor)%nat by lia.
      rewrite <- skipn_skipn, firstn_skipn. reflexivity.
    + constructor; [|exact Hall].
      unfold py_len in *. rewrite length_firstn, length_skipn.
      unfold end_ in *. lia.
    + cbn [List.length]. rewrite Nat2Z.inj_succ, Hcount.
      rewrite (chunks_for_step (len - cursor)) by lia.
      replace (len - cursor - Z.min max_chars (len - cursor)) with (len - end_)
        by (unfold end_; lia).
      lia.
  - apply Z.ltb_ge in E. exists []. rewrite app_nil_r.
    assert (Hat : cursor = len) by lia. subst cursor.
    split; [reflexivity|]. split; [|split].
    + cbn. unfold py_len. rewrite Nat2Z.id, skipn_all. reflexivity.
    + constructor.
    + unfold chunks_for. rewrite Z.sub_diag. cbn [List.length].
      rewrite Z.div_small by lia. reflexivity.
Qed.

End Chunks.

(** X25. For [max_chars > 0], [chunk_text] returns after at most
    [len(text) + 1] tests of its loop condition; its chunks, joined, give
    back the text; every chunk is non-empty and has at most [max_chars]
    characters; and there are [ceil(len(text) / max_chars)] of them. *)
Theorem chunk_text_splits_the_text :
  forall (text : pystr) (max_chars : Z) (fuel : nat),
    0 < max_chars ->
    (List.length text < fuel)%nat ->
    exists chunks,
      chunk_text fuel text max_chars = Some chunks /\
      List.concat chunks = text /\
      Forall (fun c => 1 <= py_len c <= max_chars) chunks /\
      Z.of_nat (List.length chunks) = (py_len text + max_chars - 1) / max_chars.
Proof.
  intros text max_chars fuel Hpos Hfuel.
  destruct (chunk_loop_returns text max_chars Hpos fuel 0 [])
    as (rest & Hloop & Hcat & Hall & Hcount).
  - unfold py_len. lia.
  - unfold py_len. lia.
  - exists rest. unfold chunk_text. rewrite Hloop. cbn [app].
    split; [reflexivity|]. split; [|split; [exact Hall|]].
    + rewrite Hcat. reflexivity.
    + rewrite Hcount. unfold chunks_for. now rewrite Z.sub_0_r.
Qed.

Lemma chunk_loop_never_returns (text : pystr) (max_chars : Z) (fuel : nat) :
  max_chars <= 0 ->
  forall cursor chunks,
    cursor < py_len text ->
    chunk_loop fuel text max_chars cursor chunks = None.
Proof.
  intros Hmax. induction fuel as [|fuel IH]; intros cursor chunks Hcursor;
    [reflexivity|].
  cbn [chunk_loop].
  replace (cursor <? py_len text) with true by (symmetry; apply Z.ltb_lt; lia).
  apply IH. lia.
Qed.

(** X26. For [max_chars <= 0] and a non-empty text, [chunk_text] never
    returns: the cursor does not advance, so the loop condition holds after
    every iteration, however many are run. *)
Theorem chunk_text_loops_without_positive_size :
  forall (text : pystr) (max_chars : Z) (fuel : nat),
    max_chars <= 0 ->
    text <> [] ->
    chunk_text fuel text max_chars = None.
Proof.
  intros text max_chars fuel Hmax Hne. unfold chunk_text.
  apply chunk_loop_never_returns; [exact Hmax|].
  unfold py_len. destruct text; [congruence | cbn; lia].
Qed.

Lemma chunk_text_splits_the_text_witness :
  exists chunks,
    chunk_text 9 (ascii_text "abcdefgh") 3 = Some chunks /\
    List.concat chunks = ascii_text "abcdefgh" /\
    Forall (fun c => 1 <= py_len c <= 3) chunks /\
    Z.of_nat (List.length chunks) = (py_len (ascii_text "abcdefgh") + 3 - 1) / 3.
Proof.
  apply (chunk_text_splits_the_text (ascii_text "abcdefgh") 3 9); [lia | simpl; lia].
Defined.

Lemma chunk_text_loops_without_positive_size_witness :
  chunk_text 1000 (ascii_text "abcdefgh") 0 = None.
Proof.
  apply (chunk_text_loops_without_positive_size (ascii_text "abcdefgh") 0 1000);
    [lia | discriminate].
Defined.

(** ** research/academic_search.py: search_arxiv *)

(** An arXiv result, as far as [search_arxiv] reads it. *)
Record Paper : Type := mkPaper {
  paper_title : string;
  paper_summary : string;
  paper_entry_id : string
}.

Definition paper_dict (r : Paper) : Dict :=
  [ ("title", PyStr (paper_title r));
    ("summary", PyStr (paper_summary r));
    ("link", PyStr (paper_entry_id r)) ]%string.

(** The [for r in search.results()] loop: fetching a result can raise. *)
Fixpoint collect_papers (items : list (result Paper)) (results : list Dict)
  : result (list Dict) :=
  match items with
  | [] => Ret results
  | Ret r :: rest => collect_papers rest (results ++ [paper_dict r])
  | Raise e :: _ => Raise e
  end.

Section Arxiv.

(** [arxiv.Search(query=..., max_results=...)] and the results it yields. *)
Variable arxiv_search : string -> Z -> result (list (result Paper)).

(** [search_arxiv]; [max_results] defaults to 5. *)
Definition search_arxiv (query : string) (max_results : Z) : result (list Dict) :=
  try_except
    (items <- arxiv_search query max_results ;; collect_papers items [])
    (fun _ => Ret []).

Lemma collect_papers_all items : forall results out,
  collect_papers items results = Ret out ->
  exists papers, items = map Ret papers /\ out = results ++ map paper_dict papers.
Proof.
  induction items as [|[r|e] rest IH]; intros results out H; cbn in H.
  - inversion H; subst. exists []. now rewrite app_nil_r.
  - destruct (IH _ _ H) as (papers & Hitems & Hout). exists (r :: papers).
    cbn. rewrite Hitems, Hout, <- app_assoc. now split.
  - discriminate.
Qed.

(** X27. [search_arxiv] never raises and never returns part of a result
    list: it returns one dict per paper, for all the papers of the search in
    order, or, as soon as the search or the fetching of any paper fails, the
    empty list. *)
Theorem search_arxiv_is_all_or_nothing :
  forall (query : string) (max_results : Z),
    exists out,
      search_arxiv query max_results = Ret out /\
      ((exists papers,
           arxiv_search query max_results = Ret (map Ret papers) /\
           out = map paper_dict papers)
       \/
       out = [] /\
       (returns (arxiv_search query max_results) = false \/
        exists items,
          arxiv_search query max_results = Ret items /\
          Exists (fun item => returns item = false) items)).
Proof.
  intros query max_results. unfold search_arxiv.
  destruct (arxiv_search query max_results) as [items|e]; cbn [bind try_except].
  - destruct (collect_papers items []) as [out|e] eqn:Hcollect; cbn [try_except].
    + exists out. split; [reflexivity|]. left.
      destruct (collect_papers_all _ _ _ Hcollect) as (papers & Hitems & Hout).
      exists papers. subst. now split.
    + exists []. split; [reflexivity|]. right. split; [reflexivity|]. right.
      exists items. split; [reflexivity|].
      clear - Hcollect. revert Hcollect. generalize (@nil Dict) as results.
      induction items as [|[r|e'] rest IH]; intros results H; cbn in H.
      * discriminate.
      * apply Exists_cons_tl. now apply (IH _ H).
      * now apply Exists_cons_hd.
  - exists []. split; [reflexivity|]. right. split; [reflexivity | now left].
Qed.

End Arxiv.

End Research.

(* ===================================================================== *)
(** * file/extractors.py: extract_excel_overview                          *)
(* ===================================================================== *)

Module Excel.
Import Py.

Definition Row : Type := list pyval.

(** A worksheet: its title and the rows [iter_rows(values_only=True)]
    yields; a read-only workbook is parsed while it is iterated, so fetching
    a row can raise. *)
Record Worksheet : Type := mkWorksheet {
  title : string;
  iter_rows : list (result Row)
}.

(** An entry of [sheets], [{"name": ..., "headers": ..., "rows": ...}]. *)
Record SheetOverview : Type := mkSheetOverview {
  name : string;
  headers : Row;
  rows : list Row
}.

(** The [for i, row in enumerate(rows_iter)] loop: the row is fetched before
    the bound is tested. *)
Fixpoint sample_loop (i max_rows : Z) (remaining : list (result Row))
  (samples : list Row) : result (list Row) :=
  match remaining with
  | [] => Ret samples
  | Raise e :: _ => Raise e
  | Ret row :: rest =>
      if i >=? max_rows then Ret samples
      else sample_loop (i + 1) max_rows rest (samples ++ [row])
  end.

(** The body of [for ws in wb.worksheets]. *)
Definition sheet_overview (max_rows : Z) (ws : Worksheet) : result SheetOverview :=
  match iter_rows ws with
  | [] => Ret (mkSheetOverview (title ws) [] [])
  | Raise e :: _ => Raise e
  | Ret first :: rest =>
      samples <- sample_loop 0 max_rows rest [] ;;
      Ret (mkSheetOverview (title ws) first samples)
  end.

Fixpoint overview_loop (max_rows : Z) (worksheets : list Worksheet)
  (sheets : list SheetOverview) : result (list SheetOverview) :=
  match worksheets with
  | [] => Ret sheets
  | ws :: rest =>
      sheet <- sheet_overview max_rows ws ;;
      overview_loop max_rows rest (sheets ++ [sheet])
  end.

Section Overview.

(** [load_workbook(filename=path, read_only=True, data_only=True)]. *)
Variable load_workbook : string -> result (list Worksheet).

(** [extract_excel_overview]; [max_rows] defaults to 5. *)
Definition extract_excel_overview (path : string) (max_rows : Z)
  : result (list SheetOverview) :=
  wb <- load_workbook path ;;
  overview_loop max_rows wb [].

(** The rows that were fetched without an exception. *)
Definition fetched (l : list (result Row)) : list Row :=
  flat_map (fun r => match r with Ret row => [row] | Raise _ => [] end) l.

(** What a sheet's overview holds of the sheet. *)
Definition summarises (max_rows : Z) (ws : Worksheet) (sheet : SheetOverview) : Prop :=
  name sheet = title ws /\
  headers sheet = hd [] (fetched (firstn 1 (iter_rows ws))) /\
  rows sheet = firstn (Z.to_nat max_rows) (fetched (tl (iter_rows ws))) /\
  (0 <= max_rows -> Z.of_nat (List.length (rows sheet)) <= max_rows).

Lemma sample_loop_takes remaining : forall i max_rows samples out,
  sample_loop i max_rows remaining samples = Ret out ->
  out = samples ++ firstn (Z.to_nat (max_rows - i)) (fetched remaining).
Proof.
  induction remaining as [|[row|e] rest IH]; intros i max_rows samples out H;
    cbn in H.
  - inversion H; subst. cbn. now rewrite firstn_nil, app_nil_r.
  - destruct (i >=? max_rows) eqn:E.
    + rewrite Z.geb_leb, Z.leb_le in E. inversion H; subst.
      replace (Z.to_nat (max_rows - i)) with O by lia. cbn. now rewrite app_nil_r.
    + rewrite Z.geb_leb, Z.leb_gt in E.
      rewrite (IH _ _ _ _ H), <- app_assoc. cbn [fetched flat_map app].
      replace (Z.to_nat (max_rows - i)) with (S (Z.to_nat (max_rows - (i + 1)))) by lia.
      reflexivity.
  - discriminate.
Qed.

Lemma sheet_overview_summarises max_rows ws sheet :
  sheet_overview max_rows ws = Ret sheet -> summarises max_rows ws sheet.
Proof.
  unfold sheet_overview, summarises.
  destruct (iter_rows ws) as [|[first|e] rest]; intros H; [| |discriminate].
  - inversion H; subst. cbn. rewrite firstn_nil. repeat split. intros; lia.
  - destruct (sample_loop 0 max_rows rest []) as [samples|e] eqn:Hloop;
      cbn [bind] in H; [|discriminate].
    inversion H; subst. cbn.
    rewrite (sample_loop_takes _ _ _ _ _ Hloop), Z.sub_0_r. cbn [app].
    repeat split. intros Hmax. rewrite length_firstn. lia.
Qed.

Lemma overview_loop_summarises max_rows worksheets : forall sheets out,
  overview_loop max_rows worksheets sheets = Ret out ->
  exists new, out = sheets ++ new /\ Forall2 (summarises max_rows) worksheets new.
Proof.
  induction worksheets as [|ws rest IH]; intros sheets out H; cbn in H.
  - inversion H; subst. exists []. rewrite app_nil_r. split; [reflexivity | constructor].
  - destruct (sheet_overview max_rows ws) as [sheet|e] eqn:Hsheet; cbn [bind] in H;
      [|discriminate].
    destruct (IH _ _ H) as (new & Hout & Hall). exists (sheet :: new).
    rewrite Hout, <- app_assoc. split; [reflexivity|].
    constructor; [now apply sheet_overview_summarises | exact Hall].
Qed.

(** X28. When [extract_excel_overview] returns, it holds one entry per
    worksheet, in workbook order and under the sheet's title; the headers
    are the sheet's first row (none for an empty sheet), and the sample rows
    are the rows that follow it, the first [max_rows] of them at most, so the
    header row is never among the samples. *)
Theorem excel_overview_samples_each_sheet :
  forall (path : string) (max_rows : Z) (sheets : list SheetOverview),
    extract_excel_overview path max_rows = Ret sheets ->
    exists wb,
      load_workbook path = Ret wb /\
      Forall2 (summarises max_rows) wb sheets.
Proof.
  intros path max_rows sheets H. unfold extract_excel_overview in H.
  destruct (load_workbook path) as [wb|e]; cbn [bind] in H; [|discriminate].
  exists wb. split; [reflexivity|].
  destruct (overview_loop_summarises _ _ _ _ H) as (new & Hout & Hall).
  cbn in Hout. now subst.
Qed.

End Overview.

(** A workbook for concrete runs: one sheet, a header and three rows. *)
Definition toy_workbook (path : string) : result (list Worksheet) :=
  Ret [ mkWorksheet "Sheet1"
          [ Ret [PyStr "id"; PyStr "name"]%string;
            Ret [PyInt 1; PyStr "a"]%string;
            Ret [PyInt 2; PyStr "b"]%string;
            Ret [PyInt 3; PyStr "c"]%string ] ].

Lemma excel_overview_samples_each_sheet_witness :
  exists wb,
    toy_workbook "book.xlsx" = Ret wb /\
    Forall2 (summarises 2) wb
      [ mkSheetOverview "Sheet1" [PyStr "id"; PyStr "name"]%string
          [ [PyInt 1; PyStr "a"]; [PyInt 2; PyStr "b"] ]%string ].
Proof.
  apply (excel_overview_samples_each_sheet toy_workbook "book.xlsx" 2).
  reflexivity.
Defined.

End Excel.
